(** * GRE tracker backend: the SM-2 review scheduler and the exam handlers

    A shallow embedding of [utils/sm2.py] and of the review and exam
    handlers of [app/main.py], with the properties of the specification
    stated over it; then of the handlers of [app/main.py] that read, make
    and edit the mistakes and list the sessions, with properties of
    theirs.

    Conventions of the embedding:
    - a Python [int] is a [Z]; a Python [float] is an IEEE 754 binary64
      value, a [spec_float] of the Standard Library with [prec = 53] and
      [emax = 1024], and the arithmetic is the correctly rounded one;
    - a Python exception is a value of [exn], and a function that may raise
      returns a [result];
    - [datetime.now()] reads the clock: every function that calls it takes
      the instant read as an argument [now];
    - a table of the database is a finite map from primary key to row; a
      handler maps the store to a result and the new store, and the store a
      request leaves behind is the new one when the handler returns and the
      old one when it raises (the session is closed without a commit);
    - [db.commit()] writes the attributes of a row that the handler
      assigned. The [answers] of a session are a plain [JSON] column of
      [app/models.py]: a dictionary that was loaded and is updated in place
      is no assignment, so the update is not written, and [db.refresh]
      loads the stored row again before the handler returns it. *)

From Stdlib Require Import ZArith Zpower Bool List Lia Floats.
From stdpp Require Import base option list gmap strings pretty sorting.

Open Scope Z_scope.

(** ** Python exceptions and results *)

Inductive exn : Type :=
  | UnboundLocalError (name : string)
  | OverflowError
  | ValueError
  | ZeroDivisionError
  | HTTPException (status_code : Z) (detail : string).

Inductive result (A : Type) : Type :=
  | Ok (a : A)
  | Raise (e : exn).
Arguments Ok {A} a.
Arguments Raise {A} e.

#[global] Instance result_ret : MRet result := fun A a => Ok a.
#[global] Instance result_bind : MBind result := fun A B f m =>
  match m with
  | Ok a => f a
  | Raise e => Raise e
  end.

(** ** Python floats: IEEE 754 binary64 *)

Module PyFloat.

Definition prec : Z := 53.
Definition emax : Z := 1024.

Abbreviation float := spec_float.

Definition valid (x : float) : bool := SpecFloat.valid_binary prec emax x.

Definition add : float -> float -> float := SFadd prec emax.
Definition sub : float -> float -> float := SFsub prec emax.
Definition mul : float -> float -> float := SFmul prec emax.
Definition ltb : float -> float -> bool := SFltb.
Definition leb : float -> float -> bool := SFleb.

(** The nearest binary64 value to an integer (ties to even), infinite when
    the integer is too large. *)
Definition of_int (z : Z) : float := binary_normalize prec emax z 0 false.

(** The conversion of an [int] operand in mixed arithmetic:
    [OverflowError: int too large to convert to float]. *)
Definition float_of_int (z : Z) : result float :=
  match of_int z with
  | S754_infinity _ => Raise OverflowError
  | f => Ok f
  end.

(** [int(x)]: truncation toward zero; [ValueError] on a NaN and
    [OverflowError] on an infinity. *)
Definition int_of_float (x : float) : result Z :=
  match x with
  | S754_nan => Raise ValueError
  | S754_infinity _ => Raise OverflowError
  | S754_zero _ => Ok 0
  | S754_finite s m e =>
      Ok (cond_Zopp s (match e with
                       | Z0 => Zpos m
                       | Zpos p => Z.shiftl (Zpos m) e
                       | Zneg p => Z.shiftr (Zpos m) (Zpos p)
                       end))
  end.

(** The literals of the source, as binary64 values. *)
Definition c0_1 : float := S754_finite false 7205759403792794 (-56).
Definition c0_08 : float := S754_finite false 5764607523034235 (-56).
Definition c0_02 : float := S754_finite false 5764607523034235 (-58).
Definition c1_3 : float := S754_finite false 5854679515581645 (-52).
Definition c2_5 : float := S754_finite false 5629499534213120 (-51).
Definition c2_6 : float := S754_finite false 5854679515581645 (-51).
Definition c2_8 : float := S754_finite false 6305039478318694 (-51).

(** [a / b] on two [int]s: the quotient of the integers, correctly rounded
    (ties to even); [OverflowError: integer division result too large for
    a float]. *)
Definition truediv (a b : Z) : result float :=
  match b with
  | Z0 => Raise ZeroDivisionError
  | _ =>
      let negate := xorb (a <? 0) (b <? 0) in
      match a with
      | Z0 => Ok (S754_zero negate)
      | _ =>
          let '(q, e, l) :=
            SFdiv_core_binary prec emax (Z.abs a) 0 (Z.abs b) 0 in
          match binary_round_aux prec emax negate q e l with
          | S754_infinity _ => Raise OverflowError
          | f => Ok f
          end
      end
  end.

(** The integer nearest to [n / d] for [0 < d], ties to even. *)
Definition round_half_even (n d : Z) : Z :=
  let q := n / d in
  match 2 * (n mod d) ?= d with
  | Lt => q
  | Gt => q + 1
  | Eq => if Z.even q then q else q + 1
  end.

(** [round(x, 1)] on a float: the decimal with one fractional digit nearest
    to the exact value of [x] (ties to even), read back as the nearest
    double; a NaN, an infinity and a zero round to themselves. *)
Definition round1 (x : float) : result float :=
  match x with
  | S754_finite s m e =>
      let tenths :=
        match e with
        | Zneg p => round_half_even (Zpos m * 10) (2 ^ Zpos p)
        | _ => Zpos m * 10 * 2 ^ e
        end in
      match tenths with
      | Z0 => Ok (S754_zero s)
      | _ =>
          let '(q, e', l) := SFdiv_core_binary prec emax tenths 0 10 0 in
          match binary_round_aux prec emax s q e' l with
          | S754_infinity _ => Raise OverflowError
          | f => Ok f
          end
      end
  | _ => Ok x
  end.

(** A value that is an [int] on one path and a [float] on another. *)
Inductive number : Type :=
  | Int (z : Z)
  | Float (x : float).

(** [round(v, 1)]: an [int] is returned as it is. *)
Definition round_number1 (v : number) : result number :=
  match v with
  | Int z => Ok (Int z)
  | Float x => x' ← round1 x; Ok (Float x')
  end.

Definition c100 : float := S754_finite false 7036874417766400 (-46).
Definition c75 : float := S754_finite false 5277655813324800 (-46).
Definition c50 : float := S754_finite false 7036874417766400 (-47).

(** A zero, or a finite value below [2 ^ b] in magnitude whose exponent is
    in range. *)
Definition magnitude_le (b : Z) (x : float) : Prop :=
  match x with
  | S754_zero _ => True
  | S754_finite _ m e => Zdigits2 (Zpos m) + e <= b /\ e <= emax - prec
  | _ => False
  end.

(** The flags of a shifted mantissa say whether bits were lost. *)
Definition inexact (r : shr_record) : bool := shr_r r || shr_s r.

(** The exponent of the least subnormal. *)
Definition emin : Z := SpecFloat.emin prec emax.

(** The value of a finite float, in units of the least subnormal. *)
Definition scaled (m : positive) (e : Z) : Z := Zpos m * 2 ^ (e - emin).

(** A positive float in canonical form, or the positive infinity. *)
Definition positive_float (x : float) : Prop :=
  match x with
  | S754_finite false m e => bounded prec emax m e = true
  | S754_infinity false => True
  | _ => False
  end.

(** The place of a positive float in the order: its value in units of the
    least subnormal, and a power of two above them all for the
    infinity. *)
Definition rank (x : float) : Z :=
  match x with
  | S754_finite false m e => scaled m e
  | S754_infinity false => 2 ^ (emax - emin)
  | _ => 0
  end.

End PyFloat.

(** ** Python naive datetimes

    A naive [datetime] is the number of microseconds since
    [datetime.min = 0001-01-01 00:00:00]; [datetime.max] is the last
    microsecond of the year 9999. *)

Module PyDatetime.

Definition datetime : Type := Z.
Definition timedelta : Type := Z.

Definition us_per_day : Z := 86400 * 1000000.
Definition max_ordinal_days : Z := 3652059.
Definition max_datetime : datetime := max_ordinal_days * us_per_day - 1.
Definition max_delta_days : Z := 999999999.

(** [timedelta(days=n)]: the magnitude of [n] is at most 999999999. *)
Definition timedelta_days (n : Z) : result timedelta :=
  if (Z.abs n <=? max_delta_days) then Ok (n * us_per_day)
  else Raise OverflowError.

(** [d + td]: [OverflowError: date value out of range]. *)
Definition datetime_add (d : datetime) (td : timedelta) : result datetime :=
  let r := d + td in
  if (0 <=? r) && (r <=? max_datetime) then Ok r else Raise OverflowError.

End PyDatetime.

(** ** [utils/sm2.py] *)

Module SM2.
Import PyFloat PyDatetime.

(** Reading a local variable: [None] is a name that no assignment has
    bound on the path taken. *)
Definition local {A} (name : string) (v : option A) : result A :=
  match v with
  | Some a => Ok a
  | None => Raise (UnboundLocalError name)
  end.

Definition calculate_next_review (now : datetime)
    (quality interval : Z) (ease_factor : float) (repetition_count : Z)
    : result (Z * float * Z * datetime) :=
  '(new_interval, new_ease_factor, new_repetition_count) ←
    (if quality <? 3 then
       Ok (1, None, 0)
     else
       k ← float_of_int (5 - quality);
       let new_ease_factor :=
         add ease_factor (sub c0_1 (mul k (add c0_08 (mul k c0_02)))) in
       let new_ease_factor :=
         if ltb new_ease_factor c1_3 then c1_3 else new_ease_factor in
       new_interval ←
         (if repetition_count =? 0 then Ok 1
          else if repetition_count =? 1 then Ok 6
          else i ← float_of_int interval;
               int_of_float (mul i new_ease_factor));
       Ok (new_interval, Some new_ease_factor, repetition_count + 1));
  delta ← timedelta_days new_interval;
  next_review_date ← datetime_add now delta;
  new_ease_factor ← local "new_ease_factor" new_ease_factor;
  Ok (new_interval, new_ease_factor, new_repetition_count, next_review_date).

End SM2.

(** ** [app/models.py]: the rows of the two tables

    Of a mistake the content columns that the handlers below never read
    (problem statement, solution, error analysis, time stamps) are left
    out; so are the time stamps of an exam session that the database fills
    in. *)

Module GREMistake.
Import PyFloat PyDatetime.

Record t : Type := mk {
  section : string;
  topic : string;
  sub_topic : option string;
  kmf_section : option Z;
  kmf_problem_set : option Z;
  error_type : string;
  next_review_date : datetime;
  interval : Z;
  ease_factor : float;
  repetition_count : Z;
  mastered : bool;
  total_attempts : option Z;
  got_correct : bool
}.

End GREMistake.

Module ExamSession.
Import PyDatetime.

Record t : Type := mk {
  section : option string;
  topic : option string;
  sub_topic : option string;
  error_type : option string;
  kmf_section : option Z;
  kmf_problem_set : option Z;
  timer_minutes : option Z;
  total_problems : Z;
  correct_count : Z;
  incorrect_count : Z;
  completed_at : option datetime;
  mistake_ids : list Z;
  answers : gmap string bool
}.

End ExamSession.

(** ** [app/schemas.py]: the request bodies *)

Module ExamSessionCreate.

Record t : Type := mk {
  sections : option (list string);
  topics : option (list string);
  sub_topics : option (list string);
  error_types : option (list string);
  kmf_sections : option (list Z);
  kmf_problem_sets : option (list Z);
  timer_minutes : option Z
}.

End ExamSessionCreate.

Module ExamAnswerSubmit.

Record t : Type := mk {
  mistake_id : Z;
  is_correct : bool
}.

End ExamAnswerSubmit.

(** ** The store *)

Record db : Type := mk_db {
  mistakes : gmap Z GREMistake.t;
  exams : gmap Z ExamSession.t
}.

(** The store a request leaves behind. *)
Definition commit {A} (s : db) (r : result (db * A)) : db :=
  match r with
  | Ok (s', _) => s'
  | Raise _ => s
  end.

(** ** [app/main.py]: the review handler *)

Module Main.
Import PyFloat PyDatetime.

(** [POST /review/{mistake_id}/submit]; [quality] is the field of the
    [ReviewSubmit] body, which the framework has checked to lie between 1
    and 5 before the handler runs. *)
Definition submit_review (now : datetime) (mistake_id quality : Z) (s : db)
    : result (db * GREMistake.t) :=
  match mistakes s !! mistake_id with
  | None => Raise (HTTPException 404 "Mistake not found")
  | Some mistake =>
      if GREMistake.mastered mistake then
        Raise (HTTPException 400 "This item is already mastered")
      else
        let total_attempts :=
          (match GREMistake.total_attempts mistake with
           | Some n => if n =? 0 then 0 else n
           | None => 0
           end) + 1 in
        let got_correct :=
          if quality >=? 4 then true else GREMistake.got_correct mistake in
        '(new_interval, new_ease_factor, new_repetition_count,
          next_review_date) ←
          SM2.calculate_next_review now quality
            (GREMistake.interval mistake)
            (GREMistake.ease_factor mistake)
            (GREMistake.repetition_count mistake);
        let mastered :=
          if new_repetition_count >=? 5 then true
          else GREMistake.mastered mistake in
        let mistake' :=
          GREMistake.mk
            (GREMistake.section mistake)
            (GREMistake.topic mistake)
            (GREMistake.sub_topic mistake)
            (GREMistake.kmf_section mistake)
            (GREMistake.kmf_problem_set mistake)
            (GREMistake.error_type mistake)
            next_review_date
            new_interval
            new_ease_factor
            new_repetition_count
            mastered
            (Some total_attempts)
            got_correct in
        Ok (mk_db (<[mistake_id := mistake']> (mistakes s)) (exams s),
            mistake')
  end.

(** *** The exam handlers *)

(** [column.in_(values)] applied when the list of the request is present
    and not empty. *)
Definition in_filter {A} `{EqDecision A}
    (values : option (list A)) (column : option A) : bool :=
  match values with
  | Some (v :: vs) =>
      match column with
      | Some c => bool_decide (c ∈ v :: vs)
      | None => false
      end
  | _ => true
  end.

(** [xs[0] if xs and len(xs) == 1 else None]. *)
Definition only {A} (values : option (list A)) : option A :=
  match values with
  | Some [v] => Some v
  | _ => None
  end.

Definition matches (exam_config : ExamSessionCreate.t)
    (m : GREMistake.t) : bool :=
  in_filter (ExamSessionCreate.sections exam_config)
    (Some (GREMistake.section m)) &&
  in_filter (ExamSessionCreate.topics exam_config)
    (Some (GREMistake.topic m)) &&
  in_filter (ExamSessionCreate.sub_topics exam_config)
    (GREMistake.sub_topic m) &&
  in_filter (ExamSessionCreate.error_types exam_config)
    (Some (GREMistake.error_type m)) &&
  in_filter (ExamSessionCreate.kmf_sections exam_config)
    (GREMistake.kmf_section m) &&
  in_filter (ExamSessionCreate.kmf_problem_sets exam_config)
    (GREMistake.kmf_problem_set m).

(** [POST /exam/create]. The key of the new row is one the table does not
    hold. *)
Definition create_exam_session (exam_config : ExamSessionCreate.t) (s : db)
    : result (db * (Z * ExamSession.t)) :=
  let found :=
    filter (fun '(_, m) => matches exam_config m = true)
      (map_to_list (mistakes s)) in
  match found with
  | [] =>
      Raise (HTTPException 400
        "No mistakes found matching the criteria. Try removing some filters or add more mistakes to the database.")
  | _ =>
      let exam_session :=
        ExamSession.mk
          (only (ExamSessionCreate.sections exam_config))
          (only (ExamSessionCreate.topics exam_config))
          (only (ExamSessionCreate.sub_topics exam_config))
          (only (ExamSessionCreate.error_types exam_config))
          (only (ExamSessionCreate.kmf_sections exam_config))
          (only (ExamSessionCreate.kmf_problem_sets exam_config))
          (ExamSessionCreate.timer_minutes exam_config)
          (Z.of_nat (length found))
          0
          0
          None
          (fst <$> found)
          ∅ in
      let id := fresh (dom (exams s)) in
      Ok (mk_db (mistakes s) (<[id := exam_session]> (exams s)),
          (id, exam_session))
  end.

(** The truth value of a stored answer that may be missing. *)
Definition truthy (v : option bool) : bool :=
  match v with
  | Some b => b
  | None => false
  end.

(** [POST /exam/{exam_id}/submit-answer]. [if not exam.answers:
    exam.answers = {}] assigns a new dictionary when the row holds no
    answer, and only then; [exam.answers[mistake_key] = ...] updates in
    place the dictionary at hand, the new one or the one loaded. The two
    counters are assigned. So [db.commit()] writes the counters, and the
    updated dictionary when it is the new one; the dictionary that was
    loaded stays in the row as it was stored. [db.refresh(exam)] loads the
    stored row, which the handler returns. *)
Definition submit_exam_answer (exam_id : Z) (answer : ExamAnswerSubmit.t)
    (s : db) : result (db * ExamSession.t) :=
  match exams s !! exam_id with
  | None => Raise (HTTPException 404 "Exam session not found")
  | Some exam =>
      if bool_decide (is_Some (ExamSession.completed_at exam)) then
        Raise (HTTPException 400 "Exam session already completed")
      else
        let assigned := bool_decide (ExamSession.answers exam = ∅) in
        let answers := if assigned then ∅ else ExamSession.answers exam in
        let mistake_key : string :=
          pretty (ExamAnswerSubmit.mistake_id answer) in
        let was_already_answered :=
          bool_decide (is_Some (answers !! mistake_key)) in
        let previous_answer := answers !! mistake_key in
        let is_correct := ExamAnswerSubmit.is_correct answer in
        let answers := <[mistake_key := is_correct]> answers in
        let correct_count := ExamSession.correct_count exam in
        let incorrect_count := ExamSession.incorrect_count exam in
        let '(correct_count, incorrect_count) :=
          if negb was_already_answered then
            if is_correct then (correct_count + 1, incorrect_count)
            else (correct_count, incorrect_count + 1)
          else if bool_decide (previous_answer ≠ Some is_correct) then
            if truthy previous_answer then
              (correct_count - 1, incorrect_count + 1)
            else
              (correct_count + 1, incorrect_count - 1)
          else (correct_count, incorrect_count) in
        let stored := if assigned then answers else ExamSession.answers exam in
        let exam' :=
          ExamSession.mk
            (ExamSession.section exam)
            (ExamSession.topic exam)
            (ExamSession.sub_topic exam)
            (ExamSession.error_type exam)
            (ExamSession.kmf_section exam)
            (ExamSession.kmf_problem_set exam)
            (ExamSession.timer_minutes exam)
            (ExamSession.total_problems exam)
            correct_count
            incorrect_count
            (ExamSession.completed_at exam)
            (ExamSession.mistake_ids exam)
            stored in
        Ok (mk_db (mistakes s) (<[exam_id := exam']> (exams s)), exam')
  end.

(** [POST /exam/{exam_id}/complete]. *)
Definition complete_exam (now : datetime) (exam_id : Z) (s : db)
    : result (db * ExamSession.t) :=
  match exams s !! exam_id with
  | None => Raise (HTTPException 404 "Exam session not found")
  | Some exam =>
      if bool_decide (is_Some (ExamSession.completed_at exam)) then
        Raise (HTTPException 400 "Exam session already completed")
      else
        let exam' :=
          ExamSession.mk
            (ExamSession.section exam)
            (ExamSession.topic exam)
            (ExamSession.sub_topic exam)
            (ExamSession.error_type exam)
            (ExamSession.kmf_section exam)
            (ExamSession.kmf_problem_set exam)
            (ExamSession.timer_minutes exam)
            (ExamSession.total_problems exam)
            (ExamSession.correct_count exam)
            (ExamSession.incorrect_count exam)
            (Some now)
            (ExamSession.mistake_ids exam)
            (ExamSession.answers exam) in
        Ok (mk_db (mistakes s) (<[exam_id := exam']> (exams s)), exam')
  end.

(** [DELETE /mistakes/{mistake_id}]. *)
Definition delete_mistake (mistake_id : Z) (s : db) : result (db * unit) :=
  match mistakes s !! mistake_id with
  | None => Raise (HTTPException 404 "Mistake not found")
  | Some _ => Ok (mk_db (delete mistake_id (mistakes s)) (exams s), tt)
  end.

End Main.

(** ** [app/main.py]: the statistics handler *)

Module Statistics.
Import PyFloat.

(** The counters of the handler, updated in the two loops. *)
Record counters : Type := mk_counters {
  quant_total_problems : Z;
  quant_correct : Z;
  quant_incorrect : Z;
  quant_exam_ids : gset Z;
  verbal_total_problems : Z;
  verbal_correct : Z;
  verbal_incorrect : Z;
  verbal_exam_ids : gset Z
}.

(** The counters of one exam: problems of each section seen in it.
    ([quant_correct_in_exam] and [verbal_correct_in_exam] are written and
    never read.) *)
Record in_exam : Type := mk_in_exam {
  quant_in_exam : Z;
  quant_correct_in_exam : Z;
  verbal_in_exam : Z;
  verbal_correct_in_exam : Z
}.

Definition zero : counters := mk_counters 0 0 0 ∅ 0 0 0 ∅.

(** The body of [for mistake_id in exam.mistake_ids]. *)
Definition visit (table : gmap Z GREMistake.t) (exam : ExamSession.t)
    (st : counters * in_exam) (mistake_id : Z) : counters * in_exam :=
  let '(c, x) := st in
  match table !! mistake_id with
  | None => (c, x)
  | Some mistake =>
      let is_correct :=
        default false (ExamSession.answers exam !! pretty mistake_id) in
      if bool_decide (GREMistake.section mistake = "Quant") then
        if is_correct then
          (mk_counters
             (quant_total_problems c + 1) (quant_correct c + 1)
             (quant_incorrect c) (quant_exam_ids c)
             (verbal_total_problems c) (verbal_correct c)
             (verbal_incorrect c) (verbal_exam_ids c),
           mk_in_exam
             (quant_in_exam x + 1) (quant_correct_in_exam x + 1)
             (verbal_in_exam x) (verbal_correct_in_exam x))
        else
          (mk_counters
             (quant_total_problems c + 1) (quant_correct c)
             (quant_incorrect c + 1) (quant_exam_ids c)
             (verbal_total_problems c) (verbal_correct c)
             (verbal_incorrect c) (verbal_exam_ids c),
           mk_in_exam
             (quant_in_exam x + 1) (quant_correct_in_exam x)
             (verbal_in_exam x) (verbal_correct_in_exam x))
      else if bool_decide (GREMistake.section mistake = "Verbal") then
        if is_correct then
          (mk_counters
             (quant_total_problems c) (quant_correct c)
             (quant_incorrect c) (quant_exam_ids c)
             (verbal_total_problems c + 1) (verbal_correct c + 1)
             (verbal_incorrect c) (verbal_exam_ids c),
           mk_in_exam
             (quant_in_exam x) (quant_correct_in_exam x)
             (verbal_in_exam x + 1) (verbal_correct_in_exam x + 1))
        else
          (mk_counters
             (quant_total_problems c) (quant_correct c)
             (quant_incorrect c) (quant_exam_ids c)
             (verbal_total_problems c + 1) (verbal_correct c)
             (verbal_incorrect c + 1) (verbal_exam_ids c),
           mk_in_exam
             (quant_in_exam x) (quant_correct_in_exam x)
             (verbal_in_exam x + 1) (verbal_correct_in_exam x))
      else (c, x)
  end.

(** The body of [for exam in all_exams]. *)
Definition scan (table : gmap Z GREMistake.t) (c : counters)
    (row : Z * ExamSession.t) : counters :=
  let '(id, exam) := row in
  let '(c, x) :=
    foldl (visit table exam) (c, mk_in_exam 0 0 0 0)
      (ExamSession.mistake_ids exam) in
  let c :=
    if quant_in_exam x >? 0 then
      mk_counters
        (quant_total_problems c) (quant_correct c) (quant_incorrect c)
        ({[id]} ∪ quant_exam_ids c)
        (verbal_total_problems c) (verbal_correct c) (verbal_incorrect c)
        (verbal_exam_ids c)
    else c in
  if verbal_in_exam x >? 0 then
    mk_counters
      (quant_total_problems c) (quant_correct c) (quant_incorrect c)
      (quant_exam_ids c)
      (verbal_total_problems c) (verbal_correct c) (verbal_incorrect c)
      ({[id]} ∪ verbal_exam_ids c)
  else c.

(** [(correct / total * 100) if total > 0 else 0]. *)
Definition percentage_of (correct total : Z) : result number :=
  if total >? 0 then
    q ← truediv correct total;
    h ← float_of_int 100;
    Ok (Float (mul q h))
  else Ok (Int 0).

(** One of the two dictionaries of the response. *)
Record section_statistics : Type := mk_section {
  total_problems : Z;
  correct : Z;
  incorrect : Z;
  percentage : number;
  exam_count : Z;
  total_mistakes : Z;
  mastered : Z;
  in_progress : Z
}.

Record statistics : Type := mk_statistics {
  quant : section_statistics;
  verbal : section_statistics;
  total_exams : Z
}.

Definition len {A} (l : list A) : Z := Z.of_nat (length l).

(** The rows of [ExamSession.completed_at.isnot(None)]. *)
Definition completed_exams (s : db) : list (Z * ExamSession.t) :=
  filter (fun '(_, exam) => is_Some (ExamSession.completed_at exam))
    (map_to_list (exams s)).

(** [GET /exam/statistics]. *)
Definition get_exam_statistics (s : db) : result statistics :=
  let all_exams := completed_exams s in
  let c := foldl (scan (mistakes s)) zero all_exams in
  quant_percentage ←
    percentage_of (quant_correct c) (quant_total_problems c);
  verbal_percentage ←
    percentage_of (verbal_correct c) (verbal_total_problems c);
  let all_mistakes := snd <$> map_to_list (mistakes s) in
  let quant_mistakes :=
    filter (fun m => GREMistake.section m = "Quant") all_mistakes in
  let verbal_mistakes :=
    filter (fun m => GREMistake.section m = "Verbal") all_mistakes in
  let quant_mastered :=
    len (filter (fun m => GREMistake.mastered m = true) quant_mistakes) in
  let verbal_mastered :=
    len (filter (fun m => GREMistake.mastered m = true) verbal_mistakes) in
  quant_rounded ← round_number1 quant_percentage;
  verbal_rounded ← round_number1 verbal_percentage;
  Ok (mk_statistics
        (mk_section
           (quant_total_problems c) (quant_correct c) (quant_incorrect c)
           quant_rounded
           (Z.of_nat (size (quant_exam_ids c)))
           (len quant_mistakes) quant_mastered
           (len quant_mistakes - quant_mastered))
        (mk_section
           (verbal_total_problems c) (verbal_correct c)
           (verbal_incorrect c)
           verbal_rounded
           (Z.of_nat (size (verbal_exam_ids c)))
           (len verbal_mistakes) verbal_mastered
           (len verbal_mistakes - verbal_mastered))
        (len all_exams)).

End Statistics.

(** ** Sequences of requests *)

Module Requests.
Import PyDatetime.

(** The requests that write the two tables. *)
Inductive request : Type :=
  | SubmitReview (now : datetime) (mistake_id quality : Z)
  | DeleteMistake (mistake_id : Z)
  | CreateExam (exam_config : ExamSessionCreate.t)
  | SubmitAnswer (exam_id : Z) (answer : ExamAnswerSubmit.t)
  | CompleteExam (now : datetime) (exam_id : Z).

(** The store after one request. *)
Definition handle (s : db) (r : request) : db :=
  match r with
  | SubmitReview now mistake_id quality =>
      commit s (Main.submit_review now mistake_id quality s)
  | DeleteMistake mistake_id => commit s (Main.delete_mistake mistake_id s)
  | CreateExam exam_config =>
      commit s (Main.create_exam_session exam_config s)
  | SubmitAnswer exam_id answer =>
      commit s (Main.submit_exam_answer exam_id answer s)
  | CompleteExam now exam_id => commit s (Main.complete_exam now exam_id s)
  end.

(** The store after a sequence of requests, first to last. *)
Definition serve (s : db) (rs : list request) : db := foldl handle s rs.

(** The row of a session written with other counters and answers. *)
Definition written (exam : ExamSession.t) (counters : Z * Z)
    (answers : gmap string bool) : ExamSession.t :=
  ExamSession.mk
    (ExamSession.section exam)
    (ExamSession.topic exam)
    (ExamSession.sub_topic exam)
    (ExamSession.error_type exam)
    (ExamSession.kmf_section exam)
    (ExamSession.kmf_problem_set exam)
    (ExamSession.timer_minutes exam)
    (ExamSession.total_problems exam)
    counters.1
    counters.2
    (ExamSession.completed_at exam)
    (ExamSession.mistake_ids exam)
    answers.

(** How a row of the table after a request came about. *)
Inductive origin (s : db) (r : request) (id : Z) (exam' : ExamSession.t)
    : Prop :=
  | Kept :
      exams s !! id = Some exam' -> origin s r id exam'
  | Created :
      exams s !! id = None ->
      ExamSession.answers exam' = ∅ ->
      ExamSession.correct_count exam' = 0 ->
      ExamSession.incorrect_count exam' = 0 ->
      ExamSession.completed_at exam' = None ->
      origin s r id exam'
  | Answered exam answer :
      r = SubmitAnswer id answer ->
      exams s !! id = Some exam ->
      ExamSession.completed_at exam = None ->
      Main.submit_exam_answer id answer s =
        Ok (mk_db (mistakes s) (<[id := exam']> (exams s)), exam') ->
      origin s r id exam'
  | Completed exam now :
      r = CompleteExam now id ->
      exams s !! id = Some exam ->
      ExamSession.completed_at exam = None ->
      ExamSession.answers exam' = ExamSession.answers exam ->
      ExamSession.correct_count exam' = ExamSession.correct_count exam ->
      ExamSession.incorrect_count exam' = ExamSession.incorrect_count exam ->
      ExamSession.completed_at exam' = Some now ->
      origin s r id exam'.

End Requests.

(** ** The words of the specification, as definitions *)

Module Spec.

(** Section 4.2, submit-answer: the two counters after an answer
    [is_correct] for an identifier whose recorded answer was [previous]. *)
Definition counters_after (previous : option bool) (is_correct : bool)
    (correct incorrect : Z) : Z * Z :=
  match previous with
  | None =>
      if is_correct then (correct + 1, incorrect)
      else (correct, incorrect + 1)
  | Some true =>
      if is_correct then (correct, incorrect)
      else (correct - 1, incorrect + 1)
  | Some false =>
      if is_correct then (correct + 1, incorrect - 1)
      else (correct, incorrect)
  end.

(** The row of a session in progress after an answer: the answer is
    recorded under the decimal text of the identifier, overwriting any
    previous one, and the counters follow. *)
Definition answered (exam : ExamSession.t) (answer : ExamAnswerSubmit.t)
    : ExamSession.t :=
  let key : string := pretty (ExamAnswerSubmit.mistake_id answer) in
  let counters :=
    counters_after (ExamSession.answers exam !! key)
      (ExamAnswerSubmit.is_correct answer)
      (ExamSession.correct_count exam)
      (ExamSession.incorrect_count exam) in
  ExamSession.mk
    (ExamSession.section exam)
    (ExamSession.topic exam)
    (ExamSession.sub_topic exam)
    (ExamSession.error_type exam)
    (ExamSession.kmf_section exam)
    (ExamSession.kmf_problem_set exam)
    (ExamSession.timer_minutes exam)
    (ExamSession.total_problems exam)
    (fst counters)
    (snd counters)
    (ExamSession.completed_at exam)
    (ExamSession.mistake_ids exam)
    (<[key := ExamAnswerSubmit.is_correct answer]>
       (ExamSession.answers exam)).

(** Section 4.1, step 2: the change of the ease factor of a success,
    [0.1 - (5 - quality) * (0.08 + (5 - quality) * 0.02)], in binary64
    arithmetic. *)
Definition ease_delta (quality : Z) : PyFloat.float :=
  let k := PyFloat.of_int (5 - quality) in
  PyFloat.sub PyFloat.c0_1
    (PyFloat.mul k (PyFloat.add PyFloat.c0_08 (PyFloat.mul k PyFloat.c0_02))).

(** Section 4.1, step 2: the new ease factor of a success, the ease factor
    plus the change, floored at 1.3. *)
Definition new_ease (quality : Z) (ease_factor : PyFloat.float)
    : PyFloat.float :=
  let e := PyFloat.add ease_factor (ease_delta quality) in
  if PyFloat.ltb e PyFloat.c1_3 then PyFloat.c1_3 else e.

(** Section 4.1, step 2: the new interval of a success, 1 after no
    repetition, 6 after one, and otherwise the product of the interval and
    the new ease factor cut to an integer, which needs the product to be
    finite. *)
Definition new_interval (interval : Z) (new_ease_factor : PyFloat.float)
    (repetition_count : Z) : result Z :=
  if repetition_count =? 0 then Ok 1
  else if repetition_count =? 1 then Ok 6
  else
    match PyFloat.of_int interval with
    | S754_infinity _ => Raise OverflowError
    | i => PyFloat.int_of_float (PyFloat.mul i new_ease_factor)
    end.

(** Section 4.1, step 3: the date [new_interval] days after [now], which
    needs at most 999999999 days and a date no later than the year 9999. *)
Definition review_date (now : PyDatetime.datetime) (new_interval : Z)
    : result PyDatetime.datetime :=
  if (Z.abs new_interval <=? PyDatetime.max_delta_days)
     && (0 <=? now + new_interval * PyDatetime.us_per_day)
     && (now + new_interval * PyDatetime.us_per_day
         <=? PyDatetime.max_datetime)
  then Ok (now + new_interval * PyDatetime.us_per_day)
  else Raise OverflowError.

(** Section 4.2, statistics: the section of the stored mistake with an
    identifier, if there is one. *)
Definition section_of (table : gmap Z GREMistake.t) (mistake_id : Z)
    : option string :=
  GREMistake.section <$> table !! mistake_id.

(** The recorded correctness of an identifier in a session, no recorded
    answer counting as incorrect. *)
Definition correct_in (exam : ExamSession.t) (mistake_id : Z) : bool :=
  match ExamSession.answers exam !! pretty mistake_id with
  | Some true => true
  | Some false => false
  | None => false
  end.

(** The problems of a section among identifiers: those whose mistake is
    stored with that section, as often as they are listed. *)
Definition problems (section : string) (table : gmap Z GREMistake.t)
    (mistake_ids : list Z) : list Z :=
  filter (fun id => section_of table id = Some section) mistake_ids.

(** The three tallies of a section over sessions: the problems, those
    recorded correct, and the others. *)
Definition total (section : string) (table : gmap Z GREMistake.t)
    (rows : list (Z * ExamSession.t)) : Z :=
  foldr (fun row acc =>
           Statistics.len
             (problems section table (ExamSession.mistake_ids row.2)) + acc)
    0 rows.

Definition correct (section : string) (table : gmap Z GREMistake.t)
    (rows : list (Z * ExamSession.t)) : Z :=
  foldr (fun row acc =>
           Statistics.len
             (filter (fun id => correct_in row.2 id = true)
                (problems section table (ExamSession.mistake_ids row.2)))
           + acc)
    0 rows.

Definition incorrect (section : string) (table : gmap Z GREMistake.t)
    (rows : list (Z * ExamSession.t)) : Z :=
  foldr (fun row acc =>
           Statistics.len
             (filter (fun id => correct_in row.2 id = false)
                (problems section table (ExamSession.mistake_ids row.2)))
           + acc)
    0 rows.

(** The sessions with at least one problem of a section. *)
Definition exams_with (section : string) (table : gmap Z GREMistake.t)
    (rows : list (Z * ExamSession.t)) : gset Z :=
  foldr (fun row acc =>
           match problems section table (ExamSession.mistake_ids row.2) with
           | [] => acc
           | _ => {[row.1]} ∪ acc
           end)
    ∅ rows.

(** The percentage of a section: [correct / total * 100] rounded to one
    decimal place in binary64 arithmetic, and the integer 0 when the total
    is 0. *)
Definition percentage (correct total : Z) : result PyFloat.number :=
  if total =? 0 then Ok (PyFloat.Int 0)
  else
    q ← PyFloat.truediv correct total;
    x ← PyFloat.round1 (PyFloat.mul q PyFloat.c100);
    Ok (PyFloat.Float x).

(** A session with the identifiers that match no stored mistake taken out
    of its fixed set. *)
Definition known_only (table : gmap Z GREMistake.t) (exam : ExamSession.t)
    : ExamSession.t :=
  ExamSession.mk
    (ExamSession.section exam)
    (ExamSession.topic exam)
    (ExamSession.sub_topic exam)
    (ExamSession.error_type exam)
    (ExamSession.kmf_section exam)
    (ExamSession.kmf_problem_set exam)
    (ExamSession.timer_minutes exam)
    (ExamSession.total_problems exam)
    (ExamSession.correct_count exam)
    (ExamSession.incorrect_count exam)
    (ExamSession.completed_at exam)
    (filter (fun id => is_Some (table !! id)) (ExamSession.mistake_ids exam))
    (ExamSession.answers exam).

(** The sizes of the fixed sets of sessions, added up. *)
Definition fixed_set_sizes (rows : list (Z * ExamSession.t)) : Z :=
  foldr (fun row acc => Statistics.len (ExamSession.mistake_ids row.2) + acc)
    0 rows.

(** What the counters of the two loops of the statistics hold after the
    identifiers [ids] of a session, from [c] and [x] before them. *)
Definition tallied (table : gmap Z GREMistake.t) (exam : ExamSession.t)
    (ids : list Z) (c c' : Statistics.counters) (x x' : Statistics.in_exam)
    : Prop :=
  let quant := problems "Quant" table ids in
  let verbal := problems "Verbal" table ids in
  let right := filter (fun id => correct_in exam id = true) in
  let wrong := filter (fun id => correct_in exam id = false) in
  Statistics.quant_total_problems c' =
    Statistics.quant_total_problems c + Statistics.len quant /\
  Statistics.quant_correct c' =
    Statistics.quant_correct c + Statistics.len (right quant) /\
  Statistics.quant_incorrect c' =
    Statistics.quant_incorrect c + Statistics.len (wrong quant) /\
  Statistics.quant_exam_ids c' = Statistics.quant_exam_ids c /\
  Statistics.verbal_total_problems c' =
    Statistics.verbal_total_problems c + Statistics.len verbal /\
  Statistics.verbal_correct c' =
    Statistics.verbal_correct c + Statistics.len (right verbal) /\
  Statistics.verbal_incorrect c' =
    Statistics.verbal_incorrect c + Statistics.len (wrong verbal) /\
  Statistics.verbal_exam_ids c' = Statistics.verbal_exam_ids c /\
  Statistics.quant_in_exam x' =
    Statistics.quant_in_exam x + Statistics.len quant /\
  Statistics.verbal_in_exam x' =
    Statistics.verbal_in_exam x + Statistics.len verbal.

End Spec.
(** ** A small store, for the scenarios *)

Module Sample.
Import PyFloat PyDatetime Requests.

Definition now : datetime := 739000 * us_per_day.

(** A mistake as [POST /mistakes/] leaves it: the column defaults. *)
Definition mistake (section : string) : GREMistake.t :=
  GREMistake.mk section "Geometry" None None None "Silly"
    now 0 c2_5 0 false (Some 0) false.

(** Four Quant mistakes, 1 to 4, and four Verbal ones, 5 to 8. *)
Definition table : gmap Z GREMistake.t :=
  list_to_map
    [(1, mistake "Quant"); (2, mistake "Quant"); (3, mistake "Quant");
     (4, mistake "Quant"); (5, mistake "Verbal"); (6, mistake "Verbal");
     (7, mistake "Verbal"); (8, mistake "Verbal")].

Definition store : db := mk_db table ∅.

Definition only_section (section : string) : ExamSessionCreate.t :=
  ExamSessionCreate.mk (Some [section]) None None None None None None.

Definition answer (mistake_id : Z) (is_correct : bool) : request :=
  SubmitAnswer 0 (ExamAnswerSubmit.mk mistake_id is_correct).

(** One Quant exam, key 0, and four answers to three of its problems, the
    last one changing the answer to problem 2. *)
Definition in_progress : list request :=
  [CreateExam (only_section "Quant");
   answer 1 true; answer 2 true; answer 3 false; answer 2 false].

(** The same exam, completed. *)
Definition completed : list request := in_progress ++ [CompleteExam now 0].

(** Five answers to the four problems of the exam: the fifth names a
    mistake that is no row of the table. *)
Definition overfull : list request :=
  [CreateExam (only_section "Quant");
   answer 1 true; answer 2 true; answer 3 false; answer 4 true;
   answer 99 true].

(** Five reviews of quality 5 of mistake 1. *)
Definition five_reviews : list request :=
  [SubmitReview now 1 5; SubmitReview now 1 5; SubmitReview now 1 5;
   SubmitReview now 1 5; SubmitReview now 1 5].

(** A completed session of one section, as a row of the table. *)
Definition session (section : string) (correct_count incorrect_count : Z)
    (mistake_ids : list Z) (answers : list (string * bool))
    : ExamSession.t :=
  ExamSession.mk (Some section) None None None None None None
    (Z.of_nat (length mistake_ids)) correct_count incorrect_count
    (Some now) mistake_ids (list_to_map answers).

(** A store that holds the sample exam completed with its four problems
    answered, three of them correctly, and no mistake 3, deleted since. *)
Definition one_deleted : db :=
  mk_db (delete 3 table)
    (list_to_map
       [(0, session "Quant" 3 1 [1; 2; 3; 4]
              [("1", true); ("2", true); ("3", true); ("4", false)])]).

(** A store that holds the last scenario of the specification: a Quant
    exam with three correct answers and one incorrect, and a Verbal exam
    with two correct answers, one incorrect and one problem left
    unanswered, both completed. *)
Definition two_exams : db :=
  mk_db table
    (list_to_map
       [(0, session "Quant" 3 1 [1; 2; 3; 4]
              [("1", true); ("2", true); ("3", true); ("4", false)]);
        (1, session "Verbal" 2 1 [5; 6; 7; 8]
              [("5", true); ("6", true); ("7", false)])]).

End Sample.

(** ** [app/schemas.py]: the body of a mistake

    The fields of the columns that the embedding keeps. *)

Module GREMistakeCreate.

Record t : Type := mk {
  section : string;
  topic : string;
  sub_topic : option string;
  kmf_section : option Z;
  kmf_problem_set : option Z;
  error_type : string
}.

End GREMistakeCreate.

(** ** [app/main.py]: the handlers that write a mistake *)

Module Editing.
Import PyFloat PyDatetime.

(** [if mistake_data.get(key) == '': mistake_data[key] = None]. *)
Definition blank_to_none (v : option string) : option string :=
  match v with
  | Some "" => None
  | _ => v
  end.

(** [POST /mistakes/]. The columns that the body does not name take their
    defaults; [next_review_date] is the instant [db_now] that the database
    reads from its own clock on insertion. The key of the new row is one the
    table does not hold. The handler turns an exception of the storage
    engine into the error 400; the embedding has none to raise. *)
Definition create_mistake (db_now : datetime) (mistake : GREMistakeCreate.t)
    (s : db) : result (db * (Z * GREMistake.t)) :=
  let db_mistake :=
    GREMistake.mk
      (GREMistakeCreate.section mistake)
      (GREMistakeCreate.topic mistake)
      (blank_to_none (GREMistakeCreate.sub_topic mistake))
      (GREMistakeCreate.kmf_section mistake)
      (GREMistakeCreate.kmf_problem_set mistake)
      (GREMistakeCreate.error_type mistake)
      db_now
      0
      c2_5
      0
      false
      (Some 0)
      false in
  let id := fresh (dom (mistakes s)) in
  Ok (mk_db (<[id := db_mistake]> (mistakes s)) (exams s), (id, db_mistake)).

(** [PUT /mistakes/{mistake_id}]: every field of the body is written over
    the column of its name. *)
Definition update_mistake (mistake_id : Z) (mistake : GREMistakeCreate.t)
    (s : db) : result (db * GREMistake.t) :=
  match mistakes s !! mistake_id with
  | None => Raise (HTTPException 404 "Mistake not found")
  | Some db_mistake =>
      let db_mistake' :=
        GREMistake.mk
          (GREMistakeCreate.section mistake)
          (GREMistakeCreate.topic mistake)
          (blank_to_none (GREMistakeCreate.sub_topic mistake))
          (GREMistakeCreate.kmf_section mistake)
          (GREMistakeCreate.kmf_problem_set mistake)
          (GREMistakeCreate.error_type mistake)
          (GREMistake.next_review_date db_mistake)
          (GREMistake.interval db_mistake)
          (GREMistake.ease_factor db_mistake)
          (GREMistake.repetition_count db_mistake)
          (GREMistake.mastered db_mistake)
          (GREMistake.total_attempts db_mistake)
          (GREMistake.got_correct db_mistake) in
      Ok (mk_db (<[mistake_id := db_mistake']> (mistakes s)) (exams s),
          db_mistake')
  end.

End Editing.

(** ** [app/main.py]: the handlers that read the tables

    A row is listed with its primary key. A query with no [order_by] lists
    the rows of a table in the order of the embedding's map, which no
    property below depends on. *)

Module MistakeQuery.

(** The query parameters of [get_all_mistakes], [export_mistakes_excel]
    and [export_mistakes_pdf]. *)
Record t : Type := mk {
  section : option string;
  topic : option string;
  sub_topic : option string;
  error_type : option string;
  kmf_section : option Z;
  kmf_problem_set : option Z;
  mastered : option bool
}.

End MistakeQuery.

Module Listing.
Import PyDatetime.

(** [GET /mistakes/{mistake_id}]. *)
Definition get_mistake (mistake_id : Z) (s : db) : result GREMistake.t :=
  match mistakes s !! mistake_id with
  | None => Raise (HTTPException 404 "Mistake not found")
  | Some mistake => Ok mistake
  end.

(** [GET /exam/{exam_id}]. *)
Definition get_exam_session (exam_id : Z) (s : db) : result ExamSession.t :=
  match exams s !! exam_id with
  | None => Raise (HTTPException 404 "Exam session not found")
  | Some exam => Ok exam
  end.

(** The dictionary that [get_today_reviews] returns. *)
Record today : Type := mk_today {
  quant : list (Z * GREMistake.t);
  verbal : list (Z * GREMistake.t)
}.

(** [GET /review/today]. *)
Definition get_today_reviews (now : datetime) (s : db) : today :=
  let all_reviews :=
    filter (fun '(_, m) =>
              GREMistake.next_review_date m <= now /\
              GREMistake.mastered m = false)
      (map_to_list (mistakes s)) in
  mk_today
    (filter (fun '(_, m) => GREMistake.section m = "Quant") all_reviews)
    (filter (fun '(_, m) => GREMistake.section m = "Verbal") all_reviews).

(** [if value: query = query.filter(column == value)]: a string that is
    absent or empty filters nothing; a column that is null equals no
    value. *)
Definition if_truthy (value : option string) (column : option string)
    : bool :=
  match value with
  | None | Some "" => true
  | Some v => bool_decide (column = Some v)
  end.

(** [if value is not None: query = query.filter(column == value)]. *)
Definition if_given {A} `{EqDecision A} (value : option A)
    (column : option A) : bool :=
  match value with
  | None => true
  | Some v => bool_decide (column = Some v)
  end.

(** The filters of the query, all applied. *)
Definition selected (q : MistakeQuery.t) (m : GREMistake.t) : bool :=
  if_truthy (MistakeQuery.section q) (Some (GREMistake.section m)) &&
  if_truthy (MistakeQuery.topic q) (Some (GREMistake.topic m)) &&
  if_truthy (MistakeQuery.sub_topic q) (GREMistake.sub_topic m) &&
  if_truthy (MistakeQuery.error_type q) (Some (GREMistake.error_type m)) &&
  if_given (MistakeQuery.kmf_section q) (GREMistake.kmf_section m) &&
  if_given (MistakeQuery.kmf_problem_set q) (GREMistake.kmf_problem_set m) &&
  if_given (MistakeQuery.mastered q) (Some (GREMistake.mastered m)).

(** The rows of the query that [get_all_mistakes], [export_mistakes_excel]
    and [export_mistakes_pdf] build. ([get_all_mistakes] returns them
    ordered by the time stamp [created_at], which is no column of the
    embedding; the two exports hand them to the writer of the file.) *)
Definition query_mistakes (q : MistakeQuery.t) (s : db)
    : list (Z * GREMistake.t) :=
  filter (fun '(_, m) => selected q m = true) (map_to_list (mistakes s)).

(** The instant a listed session was completed. *)
Definition completion (row : Z * ExamSession.t) : datetime :=
  default 0 (ExamSession.completed_at row.2).

(** [order_by(ExamSession.completed_at.desc())]. *)
Definition completed_at_desc (a b : Z * ExamSession.t) : Prop :=
  completion b <= completion a.

#[global] Instance completed_at_desc_dec : RelDecision completed_at_desc :=
  fun a b => Z_le_dec (completion b) (completion a).

(** [GET /exam/history]. *)
Definition get_exam_history (s : db) : list (Z * ExamSession.t) :=
  merge_sort completed_at_desc (Statistics.completed_exams s).

(** [sorted(set(xs))]. *)
Definition sorted_set {A} `{Countable A} (R : relation A) `{!RelDecision R}
    (xs : list A) : list A :=
  merge_sort R (elements (list_to_set (C := gset A) xs)).

(** [v for ... if v] on a string column: a null and an empty string are
    left out. *)
Definition truthy_string (v : option string) : option string :=
  match v with
  | Some "" => None
  | _ => v
  end.

(** The dictionary that [get_filter_options] returns. *)
Record filter_options : Type := mk_filter_options {
  sections : list string;
  topics : list string;
  sub_topics : list string;
  error_types : list string;
  kmf_sections : list Z;
  kmf_problem_sets : list Z
}.

(** [GET /mistakes/filter/options]. Strings are ordered character by
    character, a proper prefix first. *)
Definition get_filter_options (s : db) : filter_options :=
  let all_mistakes := snd <$> map_to_list (mistakes s) in
  mk_filter_options
    (sorted_set String.le
       (omap (fun m => truthy_string (Some (GREMistake.section m)))
          all_mistakes))
    (sorted_set String.le
       (omap (fun m => truthy_string (Some (GREMistake.topic m)))
          all_mistakes))
    (sorted_set String.le
       (omap (fun m => truthy_string (GREMistake.sub_topic m)) all_mistakes))
    (sorted_set String.le
       (omap (fun m => truthy_string (Some (GREMistake.error_type m)))
          all_mistakes))
    (sorted_set Z.le (omap GREMistake.kmf_section all_mistakes))
    (sorted_set Z.le (omap GREMistake.kmf_problem_set all_mistakes)).

End Listing.

(** ** Every request that writes the two tables *)

Module Api.
Import PyDatetime.

Inductive request : Type :=
  | CreateMistake (db_now : datetime) (mistake : GREMistakeCreate.t)
  | UpdateMistake (mistake_id : Z) (mistake : GREMistakeCreate.t)
  | Other (r : Requests.request).

(** The store after one request. *)
Definition handle (s : db) (r : request) : db :=
  match r with
  | CreateMistake db_now mistake =>
      commit s (Editing.create_mistake db_now mistake s)
  | UpdateMistake mistake_id mistake =>
      commit s (Editing.update_mistake mistake_id mistake s)
  | Other r => Requests.handle s r
  end.

(** The store after a sequence of requests, first to last. *)
Definition serve (s : db) (rs : list request) : db := foldl handle s rs.

(** A request that the framework lets through to its handler: the
    [quality] of a [ReviewSubmit] body lies between 1 and 5. *)
Definition validated (r : request) : Prop :=
  match r with
  | Other (Requests.SubmitReview _ _ quality) => 1 <= quality <= 5
  | _ => True
  end.

End Api.

(** ** The terms of the properties of the listings and the exams *)

(** A mistake matches the filters of a request when, for each list that is
    given and not empty, its column holds one of the values of the list. *)
Definition asked (exam_config : ExamSessionCreate.t) (m : GREMistake.t)
    : Prop :=
  (forall vs, ExamSessionCreate.sections exam_config = Some vs -> vs <> [] ->
              GREMistake.section m ∈ vs) /\
  (forall vs, ExamSessionCreate.topics exam_config = Some vs -> vs <> [] ->
              GREMistake.topic m ∈ vs) /\
  (forall vs, ExamSessionCreate.sub_topics exam_config = Some vs ->
              vs <> [] ->
              exists v, GREMistake.sub_topic m = Some v /\ v ∈ vs) /\
  (forall vs, ExamSessionCreate.error_types exam_config = Some vs ->
              vs <> [] -> GREMistake.error_type m ∈ vs) /\
  (forall vs, ExamSessionCreate.kmf_sections exam_config = Some vs ->
              vs <> [] ->
              exists n, GREMistake.kmf_section m = Some n /\ n ∈ vs) /\
  (forall vs, ExamSessionCreate.kmf_problem_sets exam_config = Some vs ->
              vs <> [] ->
              exists n, GREMistake.kmf_problem_set m = Some n /\ n ∈ vs).

(** The request for an exam that asks, in each list, for the one value of
    the parameter of a listing. *)
Definition exam_of_query (q : MistakeQuery.t) : ExamSessionCreate.t :=
  ExamSessionCreate.mk
    ((fun v => [v]) <$> Listing.truthy_string (MistakeQuery.section q))
    ((fun v => [v]) <$> Listing.truthy_string (MistakeQuery.topic q))
    ((fun v => [v]) <$> Listing.truthy_string (MistakeQuery.sub_topic q))
    ((fun v => [v]) <$> Listing.truthy_string (MistakeQuery.error_type q))
    ((fun v => [v]) <$> MistakeQuery.kmf_section q)
    ((fun v => [v]) <$> MistakeQuery.kmf_problem_set q)
    None.

(** The request for an exam whose lists hold each the one value given as a
    parameter of a listing, whatever the value, the empty string too. *)
Definition exam_of_values (q : MistakeQuery.t) : ExamSessionCreate.t :=
  ExamSessionCreate.mk
    ((fun v => [v]) <$> MistakeQuery.section q)
    ((fun v => [v]) <$> MistakeQuery.topic q)
    ((fun v => [v]) <$> MistakeQuery.sub_topic q)
    ((fun v => [v]) <$> MistakeQuery.error_type q)
    ((fun v => [v]) <$> MistakeQuery.kmf_section q)
    ((fun v => [v]) <$> MistakeQuery.kmf_problem_set q)
    None.

(** ** The schedules that the requests bring about *)

Module Schedule.
Import PyFloat.

Definition c3_125 : float := S754_finite false 7036874417766400 (-51).

(** The longest interval at a repetition count: none before the first
    review, 1 day and 6 days after the first two, and from there on 25/8 of
    the one before, cut to an integer. *)
Definition longest (repetition_count : Z) : Z :=
  match repetition_count with
  | 0 => 0
  | 1 => 1
  | 2 => 6
  | 3 => 18
  | 4 => 56
  | _ => 175
  end.

(** The state of the schedule of a mistake that was created by
    [create_mistake] and reviewed since: at most five repetitions, mastered
    at the fifth, an ease factor from 1.3 up to 2.5 plus an eighth for each
    repetition, and an interval of a day at least after the first review
    and no longer than the longest. *)
Definition sound (m : GREMistake.t) : Prop :=
  let count := GREMistake.repetition_count m in
  0 <= count <= 5 /\
  GREMistake.mastered m = (count >=? 5) /\
  positive_float (GREMistake.ease_factor m) /\
  rank c1_3 <= rank (GREMistake.ease_factor m) /\
  rank (GREMistake.ease_factor m) <= (20 + count) * 2 ^ (- emin - 3) /\
  0 <= GREMistake.interval m <= longest count /\
  (1 <= count -> 1 <= GREMistake.interval m).

End Schedule.

(** ** A mistake made and reviewed through the requests *)

Module Scenario.
Import Api.

Definition body : GREMistakeCreate.t :=
  GREMistakeCreate.mk "Quant" "Geometry" (Some "") None None "Silly".

(** A mistake is made, to be stored under the key 0 of the empty table,
    and reviewed with the qualities 5, 2, 4 and 3. *)
Definition reviewed : list request :=
  [CreateMistake Sample.now body;
   Other (Requests.SubmitReview Sample.now 0 5);
   Other (Requests.SubmitReview Sample.now 0 2);
   Other (Requests.SubmitReview Sample.now 0 4);
   Other (Requests.SubmitReview Sample.now 0 3)].

End Scenario.


(** The literals denote the doubles the interpreter reads them as. *)
Example literals_are_doubles :
  Prim2SF 0x1.999999999999ap-4%float = PyFloat.c0_1 /\
  Prim2SF 0x1.47ae147ae147bp-4%float = PyFloat.c0_08 /\
  Prim2SF 0x1.47ae147ae147bp-6%float = PyFloat.c0_02 /\
  Prim2SF 0x1.4cccccccccccdp+0%float = PyFloat.c1_3 /\
  Prim2SF 2.5%float = PyFloat.c2_5 /\
  Prim2SF 0x1.4cccccccccccdp+1%float = PyFloat.c2_6 /\
  Prim2SF 0x1.6666666666666p+1%float = PyFloat.c2_8 /\
  Prim2SF 100%float = PyFloat.c100 /\
  Prim2SF 75%float = PyFloat.c75 /\
  Prim2SF 50%float = PyFloat.c50.
Proof. repeat split; vm_compute; reflexivity. Qed.

(** The arithmetic of the embedding agrees with the floats of the machine
    on the expressions of the source: the three changes of the ease factor,
    a sum, a product cut to an integer, and a percentage. *)
Example arithmetic_is_binary64 :
  let c0_1 := 0x1.999999999999ap-4%float in
  let c0_08 := 0x1.47ae147ae147bp-4%float in
  let c0_02 := 0x1.47ae147ae147bp-6%float in
  Prim2SF (c0_1 - 2 * (c0_08 + 2 * c0_02))%float = Spec.ease_delta 3 /\
  Prim2SF (c0_1 - 1 * (c0_08 + 1 * c0_02))%float = Spec.ease_delta 4 /\
  Prim2SF (c0_1 - 0 * (c0_08 + 0 * c0_02))%float = Spec.ease_delta 5 /\
  Prim2SF (2.5 + c0_1)%float = PyFloat.add PyFloat.c2_5 PyFloat.c0_1 /\
  Prim2SF (6 * (2.5 + (c0_1 - 2 * (c0_08 + 2 * c0_02))))%float =
    PyFloat.mul (PyFloat.of_int 6) (Spec.new_ease 3 PyFloat.c2_5) /\
  PyFloat.int_of_float
    (PyFloat.mul (PyFloat.of_int 6) (Spec.new_ease 3 PyFloat.c2_5)) = Ok 14 /\
  Ok (Prim2SF (2 / 3)%float) = PyFloat.truediv 2 3 /\
  (q ← PyFloat.truediv 2 3; PyFloat.round1 (PyFloat.mul q PyFloat.c100)) =
    Ok (Prim2SF 0x1.0accccccccccdp+6%float).
Proof. cbv zeta. repeat split; vm_compute; reflexivity. Qed.

(** * Properties *)

(** ** The lapse branch of the scheduler *)

Section Lapse.
Import PyFloat PyDatetime SM2.

(** C1, as the code has it. A lapse (quality below 3) binds
    [new_interval] and [new_repetition_count] and leaves
    [new_ease_factor] unbound, so the [return] statement raises
    [UnboundLocalError] (the sum of the dates is computed first and raises
    [OverflowError] when [now] lies in the last day of the calendar): the
    call returns no tuple, whatever the prior state. *)
Theorem calculate_next_review_lapse_raises
    (now : datetime) (quality interval : Z) (ease_factor : float)
    (repetition_count : Z) :
  quality < 3 ->
  calculate_next_review now quality interval ease_factor repetition_count =
    if (0 <=? now + us_per_day) && (now + us_per_day <=? max_datetime)
    then Raise (UnboundLocalError "new_ease_factor")
    else Raise OverflowError.
Proof.
  intros Hq. unfold calculate_next_review.
  apply Z.ltb_lt in Hq. rewrite Hq. cbn.
  change (timedelta_days 1) with (Ok (A := timedelta) us_per_day). cbn.
  unfold datetime_add.
  destruct ((0 <=? now + us_per_day) && (now + us_per_day <=? max_datetime));
    reflexivity.
Qed.

(** The scenario of the specification: quality 2 on interval 30, ease
    factor 2.8 and repetition count 4. *)
Lemma calculate_next_review_lapse_scenario :
  calculate_next_review (739000 * us_per_day) 2 30 c2_8 4 =
    Raise (UnboundLocalError "new_ease_factor").
Proof.
  rewrite calculate_next_review_lapse_raises by lia. reflexivity.
Defined.

End Lapse.

(** ** Rounding to binary64 *)

Section Digits.

Lemma digits2_pos_size (p : positive) : digits2_pos p = Pos.size p.
Proof. induction p as [p IH|p IH|]; cbn; rewrite ?IH; reflexivity. Qed.

Lemma Zdigits2_log2 (m : Z) : 0 < m -> Zdigits2 m = Z.log2 m + 1.
Proof.
  destruct m as [|p|p]; try lia. intros _. cbn [Zdigits2].
  rewrite digits2_pos_size. destruct p as [p|p|]; cbn; lia.
Qed.

Lemma Zdigits2_bounds (m : Z) :
  0 < m -> 2 ^ (Zdigits2 m - 1) <= m < 2 ^ Zdigits2 m.
Proof.
  intros Hm. rewrite Zdigits2_log2 by assumption.
  replace (Z.log2 m + 1 - 1) with (Z.log2 m) by lia.
  replace (Z.log2 m + 1) with (Z.succ (Z.log2 m)) by lia.
  apply Z.log2_spec. assumption.
Qed.

Lemma Zdigits2_unique (m d : Z) :
  2 ^ (d - 1) <= m < 2 ^ d -> 0 < d -> Zdigits2 m = d.
Proof.
  intros Hm Hd.
  assert (0 < m) by (pose proof (Z.pow_pos_nonneg 2 (d - 1)); lia).
  rewrite Zdigits2_log2 by assumption.
  rewrite (Z.log2_unique m (d - 1)); [lia|lia|].
  replace (Z.succ (d - 1)) with d by lia. assumption.
Qed.

Lemma Zdigits2_nonneg (m : Z) : 0 <= Zdigits2 m.
Proof. destruct m; cbn; lia. Qed.

Lemma Zdigits2_pos (m : Z) : 0 < m -> 0 < Zdigits2 m.
Proof. destruct m; cbn; lia. Qed.

(** The digits of a positive number are at most [d] exactly when the
    number is below [2 ^ d]. *)
Lemma Zdigits2_le_iff (m d : Z) :
  0 < m -> 0 <= d -> Zdigits2 m <= d <-> m < 2 ^ d.
Proof.
  intros Hm Hd. pose proof (Zdigits2_bounds m Hm) as [Hlo Hhi].
  pose proof (Zdigits2_pos m Hm). split; intros H1.
  - eapply Z.lt_le_trans; [exact Hhi|].
    apply Z.pow_le_mono_r; lia.
  - destruct (Z_le_gt_dec (Zdigits2 m) d) as [|Hgt]; [assumption|].
    assert (2 ^ d <= 2 ^ (Zdigits2 m - 1)) by (apply Z.pow_le_mono_r; lia).
    lia.
Qed.

End Digits.

Section Shifts.
Import PyFloat.

Lemma iter_pos_nat {A} (f : A -> A) (n : positive) (x : A) :
  SpecFloat.iter_pos f n x = Nat.iter (Pos.to_nat n) f x.
Proof.
  revert x. induction n as [n IH|n IH|]; intros x; cbn [SpecFloat.iter_pos].
  - rewrite !IH, Pos2Nat.inj_xI.
    replace (S (2 * Pos.to_nat n))%nat
      with (Pos.to_nat n + (Pos.to_nat n + 1))%nat by lia.
    rewrite !Nat.iter_add. reflexivity.
  - rewrite !IH, Pos2Nat.inj_xO.
    replace (2 * Pos.to_nat n)%nat
      with (Pos.to_nat n + Pos.to_nat n)%nat by lia.
    rewrite Nat.iter_add. reflexivity.
  - reflexivity.
Qed.

Lemma shr_1_spec (r : shr_record) :
  0 <= shr_m r ->
  shr_m (shr_1 r) = shr_m r / 2 /\
  (inexact (shr_1 r) = false <->
   shr_m r mod 2 = 0 /\ inexact r = false).
Proof.
  destruct r as [m r s]. unfold inexact. cbn [shr_m shr_r shr_s].
  intros Hm. destruct m as [|[p|p|]|p]; try lia; cbn [shr_1 shr_m shr_r shr_s].
  - split; [reflexivity|]. cbn.
    split; [intros H; split; [reflexivity|exact H] | intros [_ H]; exact H].
  - split; [rewrite Pos2Z.inj_xI; apply Z.div_unique with 1; lia|].
    rewrite Pos2Z.inj_xI.
    replace ((2 * Z.pos p + 1) mod 2) with 1
      by (apply Z.mod_unique with (Z.pos p); lia).
    cbn. split; [discriminate | intros [? _]; discriminate].
  - split; [rewrite Pos2Z.inj_xO; apply Z.div_unique with 0; lia|].
    rewrite Pos2Z.inj_xO.
    replace ((2 * Z.pos p) mod 2) with 0
      by (apply Z.mod_unique with (Z.pos p); lia).
    cbn. split; [intros H; split; [reflexivity|exact H] | intros [_ H]; exact H].
  - split; [reflexivity|]. cbn.
    split; [discriminate | intros [? _]; discriminate].
Qed.

Lemma shr_iter_spec (k : nat) (r : shr_record) :
  0 <= shr_m r ->
  shr_m (Nat.iter k shr_1 r) = shr_m r / 2 ^ Z.of_nat k /\
  (inexact (Nat.iter k shr_1 r) = false <->
   shr_m r mod 2 ^ Z.of_nat k = 0 /\ inexact r = false).
Proof.
  revert r. induction k as [|k IH]; intros r Hm.
  - cbn. rewrite Z.div_1_r, Z.mod_1_r. intuition.
  - rewrite Nat.iter_succ_r.
    destruct (shr_1_spec r Hm) as [Hm1 Hx1].
    assert (H0 : 0 <= shr_m (shr_1 r))
      by (rewrite Hm1; apply Z.div_pos; lia).
    destruct (IH (shr_1 r) H0) as [Hm2 Hx2].
    rewrite Nat2Z.inj_succ, Z.pow_succ_r by lia.
    split.
    + rewrite Hm2, Hm1, Z.div_div by lia. reflexivity.
    + rewrite Hx2, Hx1, Hm1.
      assert (Hp : 0 < 2 ^ Z.of_nat k) by (apply Z.pow_pos_nonneg; lia).
      rewrite Z.rem_mul_r by lia.
      pose proof (Z.mod_pos_bound (shr_m r) 2 ltac:(lia)).
      pose proof (Z.mod_pos_bound (shr_m r / 2) (2 ^ Z.of_nat k) Hp).
      split; [intros (? & ? & ?)|intros (? & ?)]; repeat split; try assumption; nia.
Qed.

End Shifts.

Section RoundAux.
Import PyFloat.

Lemma round_nearest_even_bounds (m : Z) (l : location) :
  m <= round_nearest_even m l <= m + 1.
Proof.
  destruct l as [|[| |]]; cbn [round_nearest_even]; try lia.
  destruct (Z.even m); lia.
Qed.

Lemma loc_of_exact (r : shr_record) :
  inexact r = false -> loc_of_shr_record r = loc_Exact.
Proof. destruct r as [m [|] [|]]; cbn; congruence. Qed.

Lemma shr_record_of_loc_m (m : Z) (l : location) :
  shr_m (shr_record_of_loc m l) = m.
Proof. destruct l as [|[| |]]; reflexivity. Qed.

(** [shr_fexp] divides the mantissa by the power of two that brings the
    exponent up to the canonical one, and reports an exact division as
    exact. *)
Lemma shr_fexp_spec (m e : Z) (l : location) :
  0 <= m ->
  let e1 := Z.max e (fexp prec emax (Zdigits2 m + e)) in
  exists r,
    shr_fexp prec emax m e l = (r, e1) /\
    shr_m r = m / 2 ^ (e1 - e) /\
    (l = loc_Exact -> m mod 2 ^ (e1 - e) = 0 ->
     loc_of_shr_record r = loc_Exact).
Proof.
  intros Hm e1. unfold shr_fexp, shr. subst e1.
  destruct (fexp prec emax (Zdigits2 m + e) - e) as [|p|p] eqn:Hn.
  - replace (Z.max e (fexp prec emax (Zdigits2 m + e))) with e by lia.
    eexists. split; [reflexivity|].
    rewrite Z.sub_diag, Z.pow_0_r, Z.div_1_r, shr_record_of_loc_m.
    split; [reflexivity|]. intros -> _. reflexivity.
  - replace (Z.max e (fexp prec emax (Zdigits2 m + e)))
      with (e + Z.pos p) by lia.
    eexists. split; [reflexivity|].
    replace (e + Z.pos p - e) with (Z.of_nat (Pos.to_nat p))
      by (rewrite positive_nat_Z; lia).
    rewrite iter_pos_nat.
    destruct (shr_iter_spec (Pos.to_nat p) (shr_record_of_loc m l))
      as [H1 H2]; [rewrite shr_record_of_loc_m; assumption|].
    rewrite shr_record_of_loc_m in H1, H2.
    split; [exact H1|]. intros -> Hmod. apply loc_of_exact, H2.
    split; [exact Hmod|reflexivity].
  - replace (Z.max e (fexp prec emax (Zdigits2 m + e))) with e by lia.
    eexists. split; [reflexivity|].
    rewrite Z.sub_diag, Z.pow_0_r, Z.div_1_r, shr_record_of_loc_m.
    split; [reflexivity|]. intros -> _. reflexivity.
Qed.

(** The two steps of [binary_round_aux]: truncate to the canonical
    exponent, round to nearest, and truncate again when the rounding
    carried into one more digit. *)
Lemma binary_round_aux_spec (s : bool) (m e : Z) (l : location) :
  0 <= m ->
  let e1 := Z.max e (fexp prec emax (Zdigits2 m + e)) in
  exists m1,
    m / 2 ^ (e1 - e) <= m1 <= m / 2 ^ (e1 - e) + 1 /\
    (l = loc_Exact -> m mod 2 ^ (e1 - e) = 0 -> m1 = m / 2 ^ (e1 - e)) /\
    let e2 := Z.max e1 (fexp prec emax (Zdigits2 m1 + e1)) in
    binary_round_aux prec emax s m e l =
      match m1 / 2 ^ (e2 - e1) with
      | Z0 => S754_zero s
      | Zpos p =>
          if e2 <=? emax - prec then S754_finite s p e2
          else S754_infinity s
      | Zneg _ => S754_nan
      end.
Proof.
  intros Hm e1. unfold binary_round_aux.
  destruct (shr_fexp_spec m e l Hm) as (r1 & -> & Hr1 & Hx1). fold e1 in Hr1, Hx1 |- *.
  set (m1 := round_nearest_even (shr_m r1) (loc_of_shr_record r1)).
  exists m1.
  pose proof (round_nearest_even_bounds (shr_m r1) (loc_of_shr_record r1))
    as Hb. fold m1 in Hb. rewrite Hr1 in Hb.
  split; [exact Hb|]. split.
  { intros Hl Hmod. unfold m1. rewrite (Hx1 Hl Hmod). cbn. exact Hr1. }
  assert (H1 : 0 <= m1).
  { assert (0 <= m / 2 ^ (e1 - e)); [|lia].
    apply Z.div_pos; [assumption|]. apply Z.pow_pos_nonneg; lia. }
  destruct (shr_fexp_spec m1 e1 loc_Exact H1) as (r2 & -> & Hr2 & _).
  cbn zeta. rewrite Hr2. reflexivity.
Qed.

End RoundAux.

Section Finite.
Import PyFloat.

Lemma Zdigits2_mono (a b : Z) : 0 <= a <= b -> Zdigits2 a <= Zdigits2 b.
Proof.
  intros [Ha Hab]. destruct (Z.eq_dec a 0) as [->|Hne];
    [apply Zdigits2_nonneg|].
  rewrite !Zdigits2_log2 by lia.
  pose proof (Z.log2_le_mono a b Hab). lia.
Qed.

Lemma Zdigits2_succ (m : Z) : 0 <= m -> Zdigits2 (m + 1) <= Zdigits2 m + 1.
Proof.
  intros Hm. destruct (Z.eq_dec m 0) as [->|Hne];
    [change (Zdigits2 (0 + 1)) with 1; change (Zdigits2 0) with 0; lia|].
  pose proof (Zdigits2_bounds m ltac:(lia)) as [_ Hhi].
  pose proof (Zdigits2_nonneg m).
  apply Zdigits2_le_iff; [lia|lia|].
  rewrite Z.pow_add_r, Z.pow_1_r by lia. lia.
Qed.

Lemma Zdigits2_div_pow2 (m k : Z) :
  0 <= k -> 0 < m / 2 ^ k -> Zdigits2 (m / 2 ^ k) + k <= Zdigits2 m.
Proof.
  intros Hk Hq.
  assert (Hp : 0 < 2 ^ k) by (apply Z.pow_pos_nonneg; lia).
  assert (Hm : 0 < m).
  { destruct (Z_lt_le_dec 0 m) as [|Hle]; [assumption|].
    assert (m / 2 ^ k <= 0)
      by (apply Z.div_le_upper_bound; [assumption|rewrite Z.mul_0_r; assumption]).
    lia. }
  pose proof (Zdigits2_bounds m Hm) as [_ Hhi].
  pose proof (Zdigits2_nonneg m) as Hd.
  assert (Hdk : k <= Zdigits2 m).
  { destruct (Z_le_gt_dec k (Zdigits2 m)) as [|Hgt]; [assumption|].
    assert (2 ^ Zdigits2 m <= 2 ^ k) by (apply Z.pow_le_mono_r; lia).
    rewrite Z.div_small in Hq by lia. lia. }
  assert (Zdigits2 (m / 2 ^ k) <= Zdigits2 m - k); [|lia].
  apply Zdigits2_le_iff; [assumption|lia|].
  apply Z.div_lt_upper_bound; [assumption|].
  rewrite <- Z.pow_add_r by lia.
  replace (k + (Zdigits2 m - k)) with (Zdigits2 m) by lia. assumption.
Qed.

Lemma fexp_le (d b : Z) :
  d <= b -> fexp prec emax d <= Z.max (b - prec) (SpecFloat.emin prec emax).
Proof. unfold fexp. lia. Qed.

(** No overflow, and no NaN, from a mantissa and an exponent of moderate
    size; the magnitude grows by one at most. *)
Lemma binary_round_aux_finite (s : bool) (m e : Z) (l : location) (B : Z) :
  0 <= m ->
  e <= emax - prec ->
  Zdigits2 m + e <= B ->
  SpecFloat.emin prec emax <= B < emax ->
  match binary_round_aux prec emax s m e l with
  | S754_zero _ => True
  | S754_finite _ p e' =>
      Zdigits2 (Zpos p) + e' <= B + 1 /\ e' <= emax - prec
  | _ => False
  end.
Proof.
  intros Hm He HB [HBlo HBhi].
  destruct (binary_round_aux_spec s m e l Hm) as (m1 & Hm1 & _ & ->).
  set (e1 := Z.max e (fexp prec emax (Zdigits2 m + e))) in *.
  set (e2 := Z.max e1 (fexp prec emax (Zdigits2 m1 + e1))).
  assert (Hq : 0 <= m / 2 ^ (e1 - e))
    by (apply Z.div_pos; [assumption|apply Z.pow_pos_nonneg; lia]).
  assert (He1 : e1 <= Z.max B (SpecFloat.emin prec emax) /\ e1 <= emax - prec).
  { pose proof (fexp_le (Zdigits2 m + e) B HB). unfold prec, emax, SpecFloat.emin in *.
    pose proof (Zdigits2_nonneg m). subst e1. lia. }
  assert (Hd1 : Zdigits2 m1 + e1 <= B + 1).
  { destruct (Z.eq_dec (m / 2 ^ (e1 - e)) 0) as [H0|Hne].
    - rewrite H0 in Hm1.
      pose proof (Zdigits2_mono m1 1 ltac:(lia)) as Hd.
      change (Zdigits2 1) with 1 in Hd. lia.
    - pose proof (Zdigits2_div_pow2 m (e1 - e) ltac:(subst e1; lia)
                    ltac:(lia)).
      assert (Zdigits2 m1 <= Zdigits2 (m / 2 ^ (e1 - e)) + 1).
      { etransitivity; [apply (Zdigits2_mono m1 (m / 2 ^ (e1 - e) + 1)); lia|].
        apply Zdigits2_succ. assumption. }
      lia. }
  assert (He2 : e2 <= emax - prec).
  { pose proof (fexp_le (Zdigits2 m1 + e1) (B + 1) Hd1).
    unfold prec, emax, SpecFloat.emin in *. subst e2. lia. }
  destruct (m1 / 2 ^ (e2 - e1)) as [|p|p] eqn:Hm2.
  - exact I.
  - apply Z.leb_le in He2. rewrite He2. split; [|apply Z.leb_le, He2].
    pose proof (Zdigits2_div_pow2 m1 (e2 - e1) ltac:(subst e2; lia)
                  ltac:(lia)).
    rewrite Hm2 in H. lia.
  - assert (0 <= m1 / 2 ^ (e2 - e1)); [|lia].
    apply Z.div_pos; [lia|]. apply Z.pow_pos_nonneg; subst e2; lia.
Qed.

(** The core of the division of two positive integers: the quotient
    mantissa is not negative, the exponent is not positive, and the
    magnitude is that of the ratio. *)
Lemma div_core_bounds (a b k : Z) :
  0 < a -> 0 < b -> 0 <= k -> a < 2 ^ k * b ->
  forall q e l,
    SFdiv_core_binary prec emax a 0 b 0 = (q, e, l) ->
    0 <= q /\ e <= 0 /\ Zdigits2 q + e <= k.
Proof.
  intros Ha Hb Hk Hab q e l. unfold SFdiv_core_binary.
  set (e' := Z.min (fexp prec emax (Zdigits2 a + 0 - (Zdigits2 b + 0))) (0 - 0)).
  assert (He' : e' <= 0) by (subst e'; lia).
  set (m' := match 0 - 0 - e' with
             | Z0 => a
             | Zpos _ => Z.shiftl a (0 - 0 - e')
             | Zneg _ => 0
             end).
  assert (Hm' : m' = a * 2 ^ (- e')).
  { subst m'. destruct (0 - 0 - e') as [|p|p] eqn:Hs; [| |lia].
    - replace (- e') with 0 by lia. lia.
    - rewrite Z.shiftl_mul_pow2 by lia. f_equal. f_equal. lia. }
  destruct (Z.div_eucl m' b) as [q' r'] eqn:Hdiv.
  intros [= <- <- <-].
  assert (Hq : q' = m' / b) by (unfold Z.div; rewrite Hdiv; reflexivity).
  assert (Hp : 0 < 2 ^ (- e')) by (apply Z.pow_pos_nonneg; lia).
  assert (Hq0 : 0 <= q') by (rewrite Hq; apply Z.div_pos; nia).
  split; [assumption|]. split; [assumption|].
  destruct (Z.eq_dec q' 0) as [->|Hne]; [change (Zdigits2 0) with 0; lia|].
  assert (Zdigits2 q' <= k - e'); [|lia].
  apply Zdigits2_le_iff; [lia|lia|].
  rewrite Hq. apply Z.div_lt_upper_bound; [assumption|].
  rewrite Hm'. replace (k - e') with (k + - e') by lia.
  rewrite Z.pow_add_r by lia. nia.
Qed.

End Finite.

Section Percentages.
Import PyFloat.

Lemma Zdigits2_mul (a b : Z) :
  0 < a -> 0 < b -> Zdigits2 (a * b) <= Zdigits2 a + Zdigits2 b.
Proof.
  intros Ha Hb.
  pose proof (Zdigits2_bounds a Ha) as [_ Ha'].
  pose proof (Zdigits2_bounds b Hb) as [_ Hb'].
  pose proof (Zdigits2_nonneg a). pose proof (Zdigits2_nonneg b).
  apply Zdigits2_le_iff; [nia|lia|].
  rewrite Z.pow_add_r by lia. nia.
Qed.

(** The quotient of two counts, the first at most the second, is a float
    of magnitude at most 2: the division does not overflow. *)
Lemma truediv_ok (a b : Z) :
  0 <= a <= b -> 0 < b ->
  exists q, truediv a b = Ok q /\ magnitude_le 2 q.
Proof.
  intros [Ha Hab] Hb. unfold truediv.
  destruct b as [|pb|pb]; try lia.
  destruct a as [|pa|pa]; try lia.
  - eexists. split; [reflexivity|exact I].
  - change (Z.abs (Z.pos pa)) with (Z.pos pa).
    change (Z.abs (Z.pos pb)) with (Z.pos pb).
    destruct (SFdiv_core_binary prec emax (Z.pos pa) 0 (Z.pos pb) 0)
      as [[q e] l] eqn:Hcore.
    destruct (div_core_bounds (Z.pos pa) (Z.pos pb) 1 ltac:(lia) ltac:(lia)
                ltac:(lia) ltac:(lia) q e l Hcore) as (Hq & He & Hd).
    pose proof (binary_round_aux_finite
                  (xorb (Z.pos pa <? 0) (Z.pos pb <? 0)) q e l 1 Hq
                  ltac:(unfold emax, prec; lia) Hd
                  ltac:(unfold emax, prec, SpecFloat.emin; lia)) as Hfin.
    destruct (binary_round_aux prec emax _ q e l) as [s|s| |s m e'];
      try contradiction; eexists; (split; [reflexivity|]).
    + exact I.
    + exact Hfin.
Qed.

(** Times one hundred, the magnitude is at most 10. *)
Lemma mul_c100_small (q : float) :
  magnitude_le 2 q -> magnitude_le 10 (mul q c100).
Proof.
  destruct q as [s|s| |s m e]; try contradiction; [intros _; exact I|].
  intros [Hd He]. unfold mul, c100. cbn [SFmul].
  pose proof (Zdigits2_mul (Z.pos m) 7036874417766400 ltac:(lia) ltac:(lia))
    as Hm.
  change (Zdigits2 7036874417766400) with 53 in Hm.
  pose proof (binary_round_aux_finite (xorb s false)
                (Z.pos (m * 7036874417766400)) (e + -46) loc_Exact 9
                ltac:(lia) ltac:(unfold emax, prec in *; lia)
                ltac:(rewrite Pos2Z.inj_mul; lia)
                ltac:(unfold emax, prec, SpecFloat.emin; lia)) as Hfin.
  destruct (binary_round_aux prec emax _ _ _ _) as [s'|s'| |s' m' e'];
    try contradiction; [exact I|exact Hfin].
Qed.

Lemma round_half_even_bounds (n d : Z) :
  n / d <= round_half_even n d <= n / d + 1.
Proof.
  unfold round_half_even.
  destruct (2 * (n mod d) ?= d); [destruct (Z.even (n / d))| |]; lia.
Qed.

(** Rounding a float of magnitude at most 10 to one decimal does not
    overflow. *)
Lemma round1_ok (x : float) :
  magnitude_le 10 x -> exists y, round1 x = Ok y.
Proof.
  destruct x as [s|s| |s m e]; try contradiction;
    [intros _; eexists; reflexivity|].
  intros [Hd He]. unfold round1.
  set (tenths := match e with
                 | Z.neg p => round_half_even (Z.pos m * 10) (2 ^ Z.pos p)
                 | _ => Z.pos m * 10 * 2 ^ e
                 end).
  assert (Ht : 0 <= tenths < 2 ^ 11 * 10).
  { pose proof (Zdigits2_bounds (Z.pos m) ltac:(lia)) as [_ Hm].
    pose proof (Zdigits2_pos (Z.pos m) ltac:(lia)) as Hdp.
    assert (Hnn : forall k, 0 <= k -> Z.pos m * 2 ^ k < 2 ^ 10 ->
                            0 <= Z.pos m * 10 * 2 ^ k < 2 ^ 11 * 10).
    { intros k Hk Hlt. assert (0 < 2 ^ k) by (apply Z.pow_pos_nonneg; lia).
      split; nia. }
    assert (Hup : forall k, 0 <= k -> k + Zdigits2 (Z.pos m) <= 10 ->
                            Z.pos m * 2 ^ k < 2 ^ 10).
    { intros k Hk Hle.
      assert (2 ^ Zdigits2 (Z.pos m) * 2 ^ k <= 2 ^ 10).
      { rewrite <- Z.pow_add_r by lia. apply Z.pow_le_mono_r; lia. }
      assert (0 < 2 ^ k) by (apply Z.pow_pos_nonneg; lia). nia. }
    subst tenths. destruct e as [|pe|pe].
    - apply Hnn; [lia|]. apply Hup; lia.
    - apply Hnn; [lia|]. apply Hup; lia.
    - pose proof (round_half_even_bounds (Z.pos m * 10) (2 ^ Z.pos pe))
        as Hr.
      assert (Hp : 0 < 2 ^ Z.pos pe) by (apply Z.pow_pos_nonneg; lia).
      assert (0 <= Z.pos m * 10 / 2 ^ Z.pos pe)
        by (apply Z.div_pos; lia).
      assert (Z.pos m * 10 / 2 ^ Z.pos pe < 2 ^ 10 * 10).
      { apply Z.div_lt_upper_bound; [assumption|].
        assert (2 ^ Zdigits2 (Z.pos m) <= 2 ^ Z.pos pe * 2 ^ 10).
        { rewrite <- Z.pow_add_r by lia. apply Z.pow_le_mono_r; lia. }
        nia. }
      change (2 ^ 10 * 10) with 10240 in *.
      change (2 ^ 11 * 10) with 20480. lia. }
  clearbody tenths. destruct tenths as [|t|t]; [eexists; reflexivity| |lia].
  destruct (SFdiv_core_binary prec emax (Z.pos t) 0 10 0)
    as [[q e'] l] eqn:Hcore.
  destruct (div_core_bounds (Z.pos t) 10 11 ltac:(lia) ltac:(lia)
              ltac:(lia) ltac:(lia) q e' l Hcore) as (Hq & He' & Hd').
  pose proof (binary_round_aux_finite s q e' l 11 Hq
                ltac:(unfold emax, prec; lia) Hd'
                ltac:(unfold emax, prec, SpecFloat.emin; lia)) as Hfin.
  destruct (binary_round_aux prec emax s q e' l) as [s'|s'| |s' m' e''];
    try contradiction; eexists; reflexivity.
Qed.

End Percentages.

Section RoundPositive.
Import PyFloat.

Lemma fexp_eq (d : Z) : fexp prec emax d = Z.max (d - 53) (-1074).
Proof. reflexivity. Qed.

Lemma shl_align_spec (m : positive) (e e' : Z) :
  let '(m', e'') := shl_align m e e' in
  e'' = Z.min e e' /\ Z.pos m' = Z.pos m * 2 ^ (e - e'').
Proof.
  unfold shl_align. destruct (e' - e) as [|d|d] eqn:Hd.
  - split; [lia|]. rewrite Z.sub_diag. lia.
  - split; [lia|]. rewrite Z.sub_diag. lia.
  - split; [lia|]. change (Pos.iter xO m d) with (shift_pos d m).
    rewrite shift_pos_correct. change (Z.pow_pos 2 d) with (2 ^ Z.pos d).
    replace (e - e') with (Z.pos d) by lia. lia.
Qed.

(** Rounding a positive multiple [M * 2 ^ E] of the least subnormal: the
    mantissa at the canonical exponent of the value is its quotient by the
    unit in the last place, or one more, and the quotient itself when the
    division is exact; a mantissa that reaches [2 ^ prec] moves to the next
    exponent. *)
Lemma binary_round_pos_spec (M : positive) (E : Z) :
  emin <= E ->
  let V := Z.pos M * 2 ^ (E - emin) in
  let e1 := fexp prec emax (Zdigits2 (Z.pos M) + E) in
  let g := 2 ^ (e1 - emin) in
  exists m1,
    V / g <= m1 <= V / g + 1 /\
    (V mod g = 0 -> m1 = V / g) /\
    2 ^ (Zdigits2 (Z.pos M) + E - 1 - e1) <= V / g /\
    0 < m1 <= 2 ^ prec /\
    (m1 < 2 ^ prec -> fexp prec emax (Zdigits2 m1 + e1) = e1) /\
    binary_round prec emax false M E =
      if m1 <? 2 ^ prec then
        if e1 <=? emax - prec then S754_finite false (Z.to_pos m1) e1
        else S754_infinity false
      else
        if e1 + 1 <=? emax - prec then
          S754_finite false (Z.to_pos (2 ^ (prec - 1))) (e1 + 1)
        else S754_infinity false.
Proof.
  intros HE V e1 g. unfold binary_round.
  assert (Hemin : emin = -1074) by reflexivity.
  pose proof (shl_align_spec M E (fexp prec emax (Z.pos (digits2_pos M) + E)))
    as Hal.
  destruct (shl_align M E _) as [mz ez]. destruct Hal as [Hez Hmz].
  change (Z.pos (digits2_pos M)) with (Zdigits2 (Z.pos M)) in *.
  fold e1 in Hez.
  pose proof (Zdigits2_bounds (Z.pos M) ltac:(lia)) as [HMlo HMhi].
  pose proof (Zdigits2_pos (Z.pos M) ltac:(lia)) as HMd.
  set (d := Zdigits2 (Z.pos M) + E) in *.
  assert (He1 : e1 = Z.max (d - 53) (-1074)) by reflexivity.
  (* the digits of the aligned mantissa *)
  assert (Hdz : Zdigits2 (Z.pos mz) + ez = d).
  { assert (Zdigits2 (Z.pos mz) = Zdigits2 (Z.pos M) + (E - ez)); [|lia].
    apply Zdigits2_unique; [|lia]. rewrite Hmz.
    replace (Zdigits2 (Z.pos M) + (E - ez) - 1)
      with (Zdigits2 (Z.pos M) - 1 + (E - ez)) by lia.
    rewrite !Z.pow_add_r by lia.
    assert (0 < 2 ^ (E - ez)) by (apply Z.pow_pos_nonneg; lia). nia. }
  pose proof (binary_round_aux_spec false (Z.pos mz) ez loc_Exact ltac:(lia))
    as Haux.
  cbv zeta in Haux. rewrite Hdz in Haux. fold e1 in Haux.
  replace (Z.max ez e1) with e1 in Haux by lia.
  destruct Haux as (m1 & Hm1 & Hx1 & ->).
  (* the quotient by the unit in the last place *)
  assert (Hg : 0 < g) by (apply Z.pow_pos_nonneg; lia).
  assert (Hquot : Z.pos mz / 2 ^ (e1 - ez) = V / g /\
                  (V mod g = 0 -> Z.pos mz mod 2 ^ (e1 - ez) = 0)).
  { subst V g. rewrite Hmz.
    assert (Hp1 : 0 < 2 ^ (e1 - ez)) by (apply Z.pow_pos_nonneg; lia).
    assert (Hp2 : 0 < 2 ^ (ez - emin))
      by (apply Z.pow_pos_nonneg; lia).
    assert (HV : Z.pos M * 2 ^ (E - emin) =
                 Z.pos M * 2 ^ (E - ez) * 2 ^ (ez - emin)).
    { rewrite <- Z.mul_assoc, <- Z.pow_add_r
        by lia.
      f_equal. f_equal. lia. }
    assert (Hgg : 2 ^ (e1 - emin) = 2 ^ (e1 - ez) * 2 ^ (ez - emin)).
    { rewrite <- Z.pow_add_r
        by lia.
      f_equal. lia. }
    rewrite HV, Hgg. split.
    - rewrite Z.div_mul_cancel_r by lia. reflexivity.
    - rewrite Z.mul_mod_distr_r by lia. nia. }
  destruct Hquot as [Hq Hmod]. rewrite Hq in Hm1, Hx1.
  exists m1. split; [exact Hm1|]. split; [auto|].
  (* the digits of the quotient *)
  assert (Hlo : 2 ^ (d - 1 - e1) <= V / g).
  { apply Z.div_le_lower_bound; [assumption|]. subst g V.
    rewrite <- Z.pow_add_r
      by lia.
    replace (e1 - emin + (d - 1 - e1))
      with (Zdigits2 (Z.pos M) - 1 + (E - emin)) by (subst d; lia).
    rewrite Z.pow_add_r
      by lia.
    assert (0 < 2 ^ (E - emin))
      by (apply Z.pow_pos_nonneg; lia).
    nia. }
  assert (Hhi : V / g < 2 ^ (d - e1)).
  { apply Z.div_lt_upper_bound; [assumption|]. subst g V.
    rewrite <- Z.pow_add_r
      by lia.
    replace (e1 - emin + (d - e1))
      with (Zdigits2 (Z.pos M) + (E - emin)) by (subst d; lia).
    rewrite Z.pow_add_r
      by lia.
    assert (0 < 2 ^ (E - emin))
      by (apply Z.pow_pos_nonneg; lia).
    nia. }
  split; [exact Hlo|].
  assert (Hpow : 2 ^ (d - e1) <= 2 ^ prec)
    by (apply Z.pow_le_mono_r; unfold prec; lia).
  assert (Hpos : 0 < 2 ^ (d - 1 - e1)) by (apply Z.pow_pos_nonneg; lia).
  split; [lia|].
  assert (Hcanon : m1 < 2 ^ prec ->
                   fexp prec emax (Zdigits2 m1 + e1) = e1).
  { intros Hlt.
    assert (Hd1 : d - e1 <= Zdigits2 m1 <= d - e1 + 1).
    { split.
      - destruct (Z_le_gt_dec (d - e1) (Zdigits2 m1)) as [|Hgt];
          [assumption|].
        assert (m1 < 2 ^ (d - 1 - e1)); [|lia].
        apply Zdigits2_le_iff; lia.
      - apply Zdigits2_le_iff; [lia|lia|].
        rewrite Z.pow_add_r, Z.pow_1_r by lia. lia. }
    rewrite fexp_eq.
    destruct (Z.eq_dec (Zdigits2 m1) (d - e1)) as [Heq|Hne]; [lia|].
    assert (Hd54 : Zdigits2 m1 <= 53)
      by (apply Zdigits2_le_iff; [lia|lia|exact Hlt]).
    lia. }
  split; [exact Hcanon|].
  destruct (m1 <? 2 ^ prec) eqn:Hlt.
  - apply Z.ltb_lt in Hlt. rewrite (Hcanon Hlt).
    rewrite Z.max_id, Z.sub_diag, Z.pow_0_r, Z.div_1_r.
    destruct m1 as [|p|p]; try lia. reflexivity.
  - apply Z.ltb_ge in Hlt. assert (Hm1eq : m1 = 2 ^ prec) by lia.
    assert (Hde : d - e1 = 53).
    { destruct (Z.eq_dec (d - e1) 53) as [|Hne]; [assumption|].
      assert (2 ^ (d - e1) <= 2 ^ 52) by (apply Z.pow_le_mono_r; lia).
      change (2 ^ prec) with (2 * 2 ^ 52) in *. lia. }
    assert (Hdig : Zdigits2 m1 = 54) by (rewrite Hm1eq; reflexivity).
    rewrite Hdig, fexp_eq.
    replace (Z.max e1 (Z.max (54 + e1 - 53) (-1074))) with (e1 + 1)
      by (clear - He1; lia).
    replace (e1 + 1 - e1) with 1 by lia. rewrite Hm1eq. reflexivity.
Qed.

End RoundPositive.

Section Order.
Import PyFloat.

Lemma SFcompare_antisym (a b : float) :
  SFcompare b a = option_map CompOpp (SFcompare a b).
Proof.
  destruct a as [sa|sa| |sa ma ea], b as [sb|sb| |sb mb eb];
    try reflexivity; try (destruct sa; reflexivity);
    try (destruct sb; reflexivity); try (destruct sa, sb; reflexivity).
  cbn [SFcompare option_map].
  rewrite (Z.compare_antisym ea eb).
  change (Pos.compare_cont Eq mb ma) with (Pos.compare mb ma).
  change (Pos.compare_cont Eq ma mb) with (Pos.compare ma mb).
  rewrite (Pos.compare_antisym ma mb).
  destruct sa, sb, (ea ?= eb), (ma ?= mb)%positive; reflexivity.
Qed.

(** Not below in one direction is at most in the other, away from NaN. *)
Lemma not_ltb_leb (a b : float) :
  a <> S754_nan -> b <> S754_nan -> SFltb a b = false -> SFleb b a = true.
Proof.
  intros Ha Hb. unfold SFltb, SFleb. rewrite (SFcompare_antisym a b).
  destruct (SFcompare a b) as [[| |]|] eqn:Hc; cbn; try congruence.
  destruct a as [sa|sa| |sa ma ea], b as [sb|sb| |sb mb eb];
    try congruence; cbn in Hc; discriminate.
Qed.

Lemma bounded_spec (m : positive) (e : Z) :
  bounded prec emax m e = true ->
  e = fexp prec emax (Zdigits2 (Z.pos m) + e) /\ e <= emax - prec /\
  emin <= e /\ Z.pos m < 2 ^ prec.
Proof.
  unfold bounded, canonical_mantissa. intros H.
  apply andb_prop in H as [Hc He]. apply Z.eqb_eq in Hc.
  apply Z.leb_le in He.
  change (Z.pos (digits2_pos m)) with (Zdigits2 (Z.pos m)) in Hc.
  assert (Hemin : emin = -1074) by reflexivity.
  rewrite fexp_eq in Hc.
  split; [rewrite fexp_eq; lia|]. split; [assumption|]. split; [lia|].
  apply Zdigits2_le_iff; unfold prec; lia.
Qed.

(** The bounds of the value of a canonical float by its magnitude. *)
Lemma scaled_bounds (m : positive) (e : Z) :
  emin <= e ->
  2 ^ (Zdigits2 (Z.pos m) + e - 1 - emin) <= scaled m e
    < 2 ^ (Zdigits2 (Z.pos m) + e - emin).
Proof.
  intros He. unfold scaled.
  pose proof (Zdigits2_bounds (Z.pos m) ltac:(lia)) as [Hlo Hhi].
  pose proof (Zdigits2_pos (Z.pos m) ltac:(lia)).
  assert (0 < 2 ^ (e - emin)) by (apply Z.pow_pos_nonneg; lia).
  replace (Zdigits2 (Z.pos m) + e - 1 - emin)
    with (Zdigits2 (Z.pos m) - 1 + (e - emin)) by lia.
  replace (Zdigits2 (Z.pos m) + e - emin)
    with (Zdigits2 (Z.pos m) + (e - emin)) by lia.
  rewrite !Z.pow_add_r by lia. nia.
Qed.

(** Among canonical floats a smaller exponent is a smaller value. *)
Lemma scaled_lt_of_exponent (ma mb : positive) (ea eb : Z) :
  bounded prec emax ma ea = true -> bounded prec emax mb eb = true ->
  ea < eb -> scaled ma ea < scaled mb eb.
Proof.
  intros Ha Hb Hlt.
  apply bounded_spec in Ha as (Hca & _ & Hea & Hma).
  apply bounded_spec in Hb as (Hcb & _ & Heb & _).
  assert (Hemin : emin = -1074) by reflexivity.
  rewrite fexp_eq in Hcb.
  assert (Hdb : Zdigits2 (Z.pos mb) = 53) by lia.
  pose proof (Zdigits2_bounds (Z.pos mb) ltac:(lia)) as [Hmb _].
  rewrite Hdb in Hmb. unfold scaled, prec in *.
  assert (Hp : 0 < 2 ^ (ea - emin)) by (apply Z.pow_pos_nonneg; lia).
  assert (Hq : 2 * 2 ^ (ea - emin) <= 2 ^ (eb - emin)).
  { rewrite <- Z.pow_succ_r by lia. apply Z.pow_le_mono_r; lia. }
  change (2 ^ 53) with (2 * 2 ^ 52) in Hma.
  change (2 ^ (53 - 1)) with (2 ^ 52) in Hmb. nia.
Qed.

Lemma scaled_lt_top (m : positive) (e : Z) :
  bounded prec emax m e = true -> scaled m e < 2 ^ (emax - emin).
Proof.
  intros H. apply bounded_spec in H as (_ & He & Hemin & Hm).
  unfold scaled.
  assert (0 < 2 ^ (e - emin)) by (apply Z.pow_pos_nonneg; lia).
  assert (2 ^ prec * 2 ^ (e - emin) <= 2 ^ (emax - emin)).
  { rewrite <- Z.pow_add_r by (unfold prec; lia).
    apply Z.pow_le_mono_r; unfold prec, emax in *; lia. }
  nia.
Qed.

Lemma rank_compare (a b : float) :
  positive_float a -> positive_float b ->
  SFcompare a b = Some (rank a ?= rank b).
Proof.
  destruct a as [sa|[|]| |[|] ma ea]; try contradiction;
    destruct b as [sb|[|]| |[|] mb eb]; try contradiction;
    intros Ha Hb; cbn [SFcompare rank].
  - assert (Hemin : emin = -1074) by reflexivity.
    rewrite Z.compare_refl. reflexivity.
  - pose proof (scaled_lt_top mb eb Hb) as Hlt.
    apply Z.compare_gt_iff in Hlt. rewrite Hlt. reflexivity.
  - pose proof (scaled_lt_top ma ea Ha) as Hlt.
    apply Z.compare_lt_iff in Hlt. rewrite Hlt. reflexivity.
  - destruct (Z.compare_spec ea eb) as [->|Hlt|Hgt].
    + change (Pos.compare_cont Eq ma mb) with (Z.pos ma ?= Z.pos mb).
      unfold scaled. f_equal. symmetry.
      apply bounded_spec in Hb as (_ & _ & He & _).
      assert (0 < 2 ^ (eb - emin)) by (apply Z.pow_pos_nonneg; lia).
      destruct (Z.compare_spec (Z.pos ma) (Z.pos mb)) as [Heq|Hl|Hg].
      * rewrite Heq. apply Z.compare_refl.
      * apply Z.compare_lt_iff. nia.
      * apply Z.compare_gt_iff. nia.
    + pose proof (scaled_lt_of_exponent ma mb ea eb Ha Hb Hlt) as H.
      apply Z.compare_lt_iff in H. rewrite H. reflexivity.
    + pose proof (scaled_lt_of_exponent mb ma eb ea Hb Ha Hgt) as H.
      apply Z.compare_gt_iff in H. rewrite H. reflexivity.
Qed.

Lemma leb_rank (a b : float) :
  positive_float a -> positive_float b ->
  SFleb a b = true <-> rank a <= rank b.
Proof.
  intros Ha Hb. unfold SFleb. rewrite (rank_compare a b Ha Hb).
  destruct (Z.compare_spec (rank a) (rank b)); split; intros; try lia;
    try reflexivity; discriminate.
Qed.

Lemma ltb_rank (a b : float) :
  positive_float a -> positive_float b ->
  SFltb a b = true <-> rank a < rank b.
Proof.
  intros Ha Hb. unfold SFltb. rewrite (rank_compare a b Ha Hb).
  destruct (Z.compare_spec (rank a) (rank b)); split; intros; try lia;
    try reflexivity; discriminate.
Qed.

End Order.

Section Bracket.
Import PyFloat.

(** The rank of the rounded value, from the mantissa of the
    characterisation. *)
Lemma binary_round_pos_rank (M : positive) (E : Z) :
  emin <= E ->
  let V := Z.pos M * 2 ^ (E - emin) in
  let e1 := fexp prec emax (Zdigits2 (Z.pos M) + E) in
  let g := 2 ^ (e1 - emin) in
  let R := binary_round prec emax false M E in
  exists m1,
    V / g <= m1 <= V / g + 1 /\
    (V mod g = 0 -> m1 = V / g) /\
    2 ^ (Zdigits2 (Z.pos M) + E - 1 - e1) <= V / g /\
    positive_float R /\
    (rank R = m1 * g \/ R = S754_infinity false) /\
    (forall k, 0 <= k -> e1 + k <= emax - prec -> m1 <= (2 ^ prec - 1) * 2 ^ k ->
               rank R = m1 * g).
Proof.
  intros HE V e1 g R.
  destruct (binary_round_pos_spec M E HE)
    as (m1 & Hm1 & Hx & Hlo & Hpos & Hcanon & HR).
  fold V e1 g in Hm1, Hx, Hlo, Hcanon, HR. fold R in HR.
  assert (Hemin : emin = -1074) by reflexivity.
  assert (He1 : emin <= e1) by (subst e1; rewrite fexp_eq; lia).
  exists m1. split; [exact Hm1|]. split; [exact Hx|]. split; [exact Hlo|].
  destruct (m1 <? 2 ^ prec) eqn:Hlt.
  - apply Z.ltb_lt in Hlt. destruct (e1 <=? emax - prec) eqn:Hle.
    + assert (HRr : rank R = m1 * g).
      { rewrite HR. cbn [rank]. unfold scaled.
        rewrite Z2Pos.id by lia. reflexivity. }
      split; [|split; [left; exact HRr|intros; exact HRr]].
      rewrite HR. cbn [positive_float]. unfold bounded, canonical_mantissa.
      change (Z.pos (digits2_pos (Z.to_pos m1)))
        with (Zdigits2 (Z.pos (Z.to_pos m1))).
      rewrite Z2Pos.id by lia. rewrite (Hcanon Hlt), Z.eqb_refl, Hle.
      reflexivity.
    + split; [rewrite HR; exact I|]. split; [right; exact HR|].
      apply Z.leb_gt in Hle. intros k Hk Hek _. lia.
  - apply Z.ltb_ge in Hlt. assert (Hm1eq : m1 = 2 ^ prec) by lia.
    destruct (e1 + 1 <=? emax - prec) eqn:Hle.
    + assert (HRr : rank R = m1 * g).
      { rewrite HR, Hm1eq. cbn [rank]. unfold scaled.
        rewrite Z2Pos.id by (apply Z.pow_pos_nonneg; unfold prec; lia).
        subst g. replace (e1 + 1 - emin) with (1 + (e1 - emin)) by lia.
        rewrite Z.pow_add_r by lia.
        change (2 ^ prec) with (2 ^ (prec - 1) * 2 ^ 1). lia. }
      split; [|split; [left; exact HRr|intros; exact HRr]].
      rewrite HR. cbn [positive_float]. unfold bounded, canonical_mantissa.
      change (Z.pos (digits2_pos (Z.to_pos (2 ^ (prec - 1))))) with 53.
      rewrite fexp_eq, Hle.
      replace (Z.max (53 + (e1 + 1) - 53) (-1074)) with (e1 + 1) by lia.
      rewrite Z.eqb_refl. reflexivity.
    + split; [rewrite HR; exact I|]. split; [right; exact HR|].
      apply Z.leb_gt in Hle. intros k Hk Hek Hmk.
      assert (k = 0) by lia. subst k. rewrite Z.pow_0_r in Hmk. lia.
Qed.

(** The rounded value belongs to the positive floats. *)
Lemma binary_round_positive (M : positive) (E : Z) :
  emin <= E -> positive_float (binary_round prec emax false M E).
Proof.
  intros HE. destruct (binary_round_pos_rank M E HE) as (m1 & _ & _ & _ & H & _).
  exact H.
Qed.

(** A canonical float at most the exact value is at most the rounded
    value. *)
Lemma binary_round_lower (M mx : positive) (E ex : Z) :
  emin <= E -> bounded prec emax mx ex = true ->
  scaled mx ex <= Z.pos M * 2 ^ (E - emin) ->
  scaled mx ex <= rank (binary_round prec emax false M E).
Proof.
  intros HE Hx Hle.
  destruct (binary_round_pos_rank M E HE)
    as (m1 & Hm1 & _ & Hlo & _ & [Hr|Hr] & _);
    [|rewrite Hr; cbn [rank]; pose proof (scaled_lt_top mx ex Hx); lia].
  rewrite Hr. clear Hr.
  set (V := Z.pos M * 2 ^ (E - emin)) in *.
  set (d := Zdigits2 (Z.pos M) + E) in *.
  set (e1 := fexp prec emax d) in *.
  set (g := 2 ^ (e1 - emin)) in *.
  assert (Hemin : emin = -1074) by reflexivity.
  assert (He1 : emin <= e1) by (subst e1; rewrite fexp_eq; lia).
  assert (Hg : 0 < g) by (apply Z.pow_pos_nonneg; lia).
  pose proof (bounded_spec mx ex Hx) as (Hcx & _ & Hex & _).
  pose proof (scaled_bounds mx ex Hex) as [Hxlo Hxhi].
  pose proof (scaled_bounds M E HE) as [HVlo HVhi].
  unfold scaled in HVlo, HVhi. fold V d in HVlo, HVhi.
  set (dx := Zdigits2 (Z.pos mx) + ex) in *.
  pose proof (Zdigits2_pos (Z.pos mx) ltac:(lia)) as Hdxp.
  pose proof (Zdigits2_pos (Z.pos M) ltac:(lia)) as Hdp.
  assert (Hdd : dx <= d).
  { destruct (Z_le_gt_dec dx d) as [|Hgt]; [assumption|].
    assert (2 ^ (d - emin) <= 2 ^ (dx - 1 - emin))
      by (apply Z.pow_le_mono_r; lia).
    lia. }
  assert (Hfloor : V / g * g <= m1 * g) by nia.
  destruct (Z.eq_dec dx d) as [Heq|Hne].
  - assert (Hee : ex = e1) by (subst e1; rewrite Hcx; fold dx; congruence).
    unfold scaled in *. rewrite Hee in *. fold g in Hle |- *.
    assert (Z.pos mx <= V / g)
      by (apply Z.div_le_lower_bound; [assumption|lia]).
    nia.
  - assert (Hpow : 2 ^ (dx - emin) <= 2 ^ (d - 1 - emin))
      by (apply Z.pow_le_mono_r; lia).
    assert (Hsplit : 2 ^ (d - 1 - emin) = 2 ^ (d - 1 - e1) * g).
    { subst g. rewrite <- Z.pow_add_r; [f_equal; lia| |lia].
      subst e1. rewrite fexp_eq. lia. }
    assert (2 ^ (d - 1 - e1) * g <= V / g * g) by nia.
    lia.
Qed.

(** A canonical float at least the exact value is at least the rounded
    value, which is then finite. *)
Lemma binary_round_upper (M mx : positive) (E ex : Z) :
  emin <= E -> bounded prec emax mx ex = true ->
  Z.pos M * 2 ^ (E - emin) <= scaled mx ex ->
  rank (binary_round prec emax false M E) <= scaled mx ex.
Proof.
  intros HE Hx Hle.
  destruct (binary_round_pos_rank M E HE)
    as (m1 & Hm1 & Hexact & Hlo & _ & _ & Hfin).
  set (V := Z.pos M * 2 ^ (E - emin)) in *.
  set (d := Zdigits2 (Z.pos M) + E) in *.
  set (e1 := fexp prec emax d) in *.
  set (g := 2 ^ (e1 - emin)) in *.
  assert (Hemin : emin = -1074) by reflexivity.
  assert (He1 : emin <= e1) by (subst e1; rewrite fexp_eq; lia).
  assert (Hg : 0 < g) by (apply Z.pow_pos_nonneg; lia).
  pose proof (bounded_spec mx ex Hx) as (Hcx & Hexmax & Hex & Hmx).
  pose proof (scaled_bounds mx ex Hex) as [Hxlo Hxhi].
  pose proof (scaled_bounds M E HE) as [HVlo HVhi].
  unfold scaled in HVlo, HVhi. fold V d in HVlo, HVhi.
  set (dx := Zdigits2 (Z.pos mx) + ex) in *.
  assert (Hdd : d <= dx).
  { destruct (Z_le_gt_dec d dx) as [|Hgt]; [assumption|].
    assert (2 ^ (dx - emin) <= 2 ^ (d - 1 - emin))
      by (apply Z.pow_le_mono_r; lia).
    lia. }
  assert (Hee : e1 <= ex)
    by (subst e1; rewrite Hcx; fold dx; rewrite !fexp_eq; lia).
  set (k := ex - e1).
  assert (Hk : 0 < 2 ^ k) by (apply Z.pow_pos_nonneg; lia).
  assert (Hsx : scaled mx ex = Z.pos mx * 2 ^ k * g).
  { unfold scaled. subst g k. rewrite <- Z.mul_assoc, <- Z.pow_add_r by lia.
    f_equal. f_equal. lia. }
  assert (Hq : V / g <= Z.pos mx * 2 ^ k).
  { apply Z.div_le_upper_bound; [assumption|]. lia. }
  assert (Hm1x : m1 <= Z.pos mx * 2 ^ k).
  { destruct (Z.eq_dec (V / g) (Z.pos mx * 2 ^ k)) as [Heq|Hne]; [|lia].
    pose proof (Z.div_mod V g ltac:(lia)) as Hdm.
    pose proof (Z.mod_pos_bound V g Hg) as Hmb.
    assert (V mod g = 0)
      by (rewrite Heq in Hdm; rewrite Hsx in Hle; clear - Hdm Hmb Hle; lia).
    rewrite (Hexact H). lia. }
  rewrite (Hfin k); [|lia|lia|].
  - rewrite Hsx. apply Z.mul_le_mono_nonneg_r; [lia|exact Hm1x].
  - etransitivity; [exact Hm1x|].
    apply Z.mul_le_mono_nonneg_r; lia.
Qed.

End Bracket.

Section Sums.
Import PyFloat.

(** The sum of two positive canonical floats is the rounding of the sum of
    their values. *)
Lemma add_positive (mx my : positive) (ex ey : Z) :
  bounded prec emax mx ex = true -> bounded prec emax my ey = true ->
  exists M E,
    emin <= E /\
    add (S754_finite false mx ex) (S754_finite false my ey) =
      binary_round prec emax false M E /\
    Z.pos M * 2 ^ (E - emin) = scaled mx ex + scaled my ey.
Proof.
  intros Hx Hy.
  apply bounded_spec in Hx as (_ & _ & Hex & _).
  apply bounded_spec in Hy as (_ & _ & Hey & _).
  unfold add. cbn [SFadd cond_Zopp].
  pose proof (shl_align_spec mx ex (Z.min ex ey)) as Hax.
  pose proof (shl_align_spec my ey (Z.min ex ey)) as Hay.
  destruct (shl_align mx ex _) as [ax ex'], (shl_align my ey _) as [ay ey'].
  destruct Hax as [Hex' Hax], Hay as [Hey' Hay]. cbn [fst].
  exists (ax + ay)%positive, (Z.min ex ey).
  split; [lia|]. split; [reflexivity|].
  rewrite Pos2Z.inj_add, Hax, Hay. unfold scaled.
  replace ex' with (Z.min ex ey) by lia.
  replace ey' with (Z.min ex ey) by lia.
  rewrite Z.mul_add_distr_r, <- !Z.mul_assoc, <- !Z.pow_add_r by lia.
  f_equal; f_equal; f_equal; lia.
Qed.

(** The sum of a positive canonical float and a negative one of smaller
    magnitude is the rounding of the difference of their values. *)
Lemma add_negative (mx my : positive) (ex ey : Z) :
  bounded prec emax mx ex = true -> bounded prec emax my ey = true ->
  scaled my ey < scaled mx ex ->
  exists M E,
    emin <= E /\
    add (S754_finite false mx ex) (S754_finite true my ey) =
      binary_round prec emax false M E /\
    Z.pos M * 2 ^ (E - emin) = scaled mx ex - scaled my ey.
Proof.
  intros Hx Hy Hlt.
  apply bounded_spec in Hx as (_ & _ & Hex & _).
  apply bounded_spec in Hy as (_ & _ & Hey & _).
  unfold add. cbn [SFadd cond_Zopp].
  pose proof (shl_align_spec mx ex (Z.min ex ey)) as Hax.
  pose proof (shl_align_spec my ey (Z.min ex ey)) as Hay.
  destruct (shl_align mx ex _) as [ax ex'], (shl_align my ey _) as [ay ey'].
  destruct Hax as [Hex' Hax], Hay as [Hey' Hay]. cbn [fst].
  assert (Hex'' : ex' = Z.min ex ey) by lia.
  assert (Hey'' : ey' = Z.min ex ey) by lia.
  rewrite Hex'' in Hax. rewrite Hey'' in Hay. clear Hex' Hey' Hex'' Hey''.
  set (E := Z.min ex ey) in *.
  assert (Hp : 0 < 2 ^ (E - emin)) by (apply Z.pow_pos_nonneg; lia).
  assert (Hsx : scaled mx ex = Z.pos ax * 2 ^ (E - emin)).
  { unfold scaled. rewrite Hax, <- Z.mul_assoc, <- Z.pow_add_r by lia.
    f_equal. f_equal. lia. }
  assert (Hsy : scaled my ey = Z.pos ay * 2 ^ (E - emin)).
  { unfold scaled. rewrite Hay, <- Z.mul_assoc, <- Z.pow_add_r by lia.
    f_equal. f_equal. lia. }
  destruct (Z.pos ax + - Z.pos ay) as [|M|M] eqn:Hsum; try nia.
  exists M, E. split; [lia|]. split; [reflexivity|].
  rewrite Hsx, Hsy. nia.
Qed.

End Sums.

Section Ease.
Import PyFloat.

Lemma ease_delta_values :
  Spec.ease_delta 3 = S754_finite true 5044031582654955 (-55) /\
  Spec.ease_delta 4 = S754_zero false /\
  Spec.ease_delta 5 = c0_1.
Proof. repeat split; vm_compute; reflexivity. Qed.

(** An ease factor that is at least 1.3 is a positive float. *)
Lemma at_least_c1_3 (x : float) :
  valid x = true -> leb c1_3 x = true ->
  positive_float x /\ rank c1_3 <= rank x.
Proof.
  intros Hv Hle.
  assert (Hp : positive_float x).
  { destruct x as [s|[|]| |[|] m e]; try discriminate Hle;
      [exact I|exact Hv]. }
  split; [exact Hp|]. apply leb_rank; [reflexivity|exact Hp|exact Hle].
Qed.

Lemma positive_float_not_nan (x : float) : positive_float x -> x <> S754_nan.
Proof. destruct x; try contradiction; discriminate. Qed.

(** Flooring a positive float at 1.3. *)
Lemma floor_rank (e : float) :
  positive_float e ->
  let r := if ltb e c1_3 then c1_3 else e in
  positive_float r /\ rank r = Z.max (rank c1_3) (rank e).
Proof.
  intros He. cbn zeta. destruct (ltb e c1_3) eqn:Hlt.
  - apply (ltb_rank e c1_3 He) in Hlt; [|reflexivity].
    split; [reflexivity|lia].
  - split; [exact He|].
    assert (~ rank e < rank c1_3).
    { intros H. apply (ltb_rank e c1_3 He) in H; [|reflexivity].
      unfold ltb in Hlt. congruence. }
    lia.
Qed.

(** The sum of an ease factor that is at least 1.3 and each of the three
    changes: not above it for quality 3, equal to it for quality 4, not
    below it for quality 5. *)
Lemma add_ease_delta (x : float) :
  positive_float x -> rank c1_3 <= rank x ->
  (positive_float (add x (Spec.ease_delta 3)) /\
   rank (add x (Spec.ease_delta 3)) <= rank x) /\
  add x (Spec.ease_delta 4) = x /\
  (positive_float (add x (Spec.ease_delta 5)) /\
   rank x <= rank (add x (Spec.ease_delta 5))).
Proof.
  intros Hp Hle.
  destruct ease_delta_values as (-> & -> & ->).
  destruct x as [s|[|]| |[|] m e]; try contradiction.
  - repeat split; cbn; lia.
  - cbn [positive_float] in Hp. cbn [rank] in Hle |- *.
    split; [|split; [reflexivity|]].
    + destruct (add_negative m 5044031582654955 e (-55) Hp eq_refl)
        as (M & E & HE & -> & HV).
      { eapply Z.lt_le_trans; [|exact Hle]. vm_compute. reflexivity. }
      split; [apply binary_round_positive; exact HE|].
      apply binary_round_upper; [exact HE|exact Hp|].
      rewrite HV. assert (0 < scaled 5044031582654955 (-55))
        by (vm_compute; reflexivity).
      lia.
    + change c0_1 with (S754_finite false 7205759403792794 (-56)).
      destruct (add_positive m 7205759403792794 e (-56) Hp eq_refl)
        as (M & E & HE & -> & HV).
      split; [apply binary_round_positive; exact HE|].
      apply binary_round_lower; [exact HE|exact Hp|].
      rewrite HV. assert (0 < scaled 7205759403792794 (-56))
        by (vm_compute; reflexivity).
      lia.
Qed.

(** The new ease factor of a success: a positive float, at least 1.3, and
    in rank order with the prior ease factor. *)
Lemma new_ease_rank (x : float) :
  valid x = true -> leb c1_3 x = true ->
  (forall q, 3 <= q <= 5 ->
     positive_float (Spec.new_ease q x) /\
     rank c1_3 <= rank (Spec.new_ease q x)) /\
  rank (Spec.new_ease 3 x) <= rank (Spec.new_ease 4 x) /\
  rank (Spec.new_ease 4 x) <= rank (Spec.new_ease 5 x).
Proof.
  intros Hv Hx. destruct (at_least_c1_3 x Hv Hx) as [Hp Hle].
  destruct (add_ease_delta x Hp Hle) as ((Hp3 & Hr3) & H4 & (Hp5 & Hr5)).
  unfold Spec.new_ease. cbv zeta.
  pose proof (floor_rank _ Hp3) as [Hf3 Hk3].
  pose proof (floor_rank _ Hp) as [Hf4 Hk4].
  pose proof (floor_rank _ Hp5) as [Hf5 Hk5].
  cbv zeta in Hk3, Hk4, Hk5, Hf3, Hf4, Hf5.
  rewrite H4. split; [|split; lia].
  intros q Hq. assert (Hq' : q = 3 \/ q = 4 \/ q = 5) by lia.
  destruct Hq' as [-> | [-> | ->]]; rewrite ?H4; split; assumption || lia.
Qed.

End Ease.

(** ** The success branch of the scheduler *)

Section Success.
Import PyFloat PyDatetime SM2.

Lemma review_date_eq (now : datetime) (n : Z) :
  (delta ← timedelta_days n; datetime_add now delta) =
    Spec.review_date now n.
Proof.
  unfold timedelta_days, datetime_add, Spec.review_date.
  destruct (Z.abs n <=? max_delta_days); [|reflexivity]. cbn.
  destruct (0 <=? now + n * us_per_day); [|reflexivity]. cbn.
  destruct (now + n * us_per_day <=? max_datetime); reflexivity.
Qed.

(** On a success the code computes the new ease factor, the new interval
    and the date of the specification, and raises where they raise. *)
Lemma calculate_next_review_success_eq (now : datetime)
    (quality interval : Z) (ease_factor : float) (repetition_count : Z) :
  3 <= quality <= 5 ->
  calculate_next_review now quality interval ease_factor repetition_count =
    (n ← Spec.new_interval interval (Spec.new_ease quality ease_factor)
           repetition_count;
     date ← Spec.review_date now n;
     Ok (n, Spec.new_ease quality ease_factor, repetition_count + 1, date)).
Proof.
  intros Hq. assert (Hq' : quality = 3 \/ quality = 4 \/ quality = 5) by lia.
  unfold calculate_next_review, Spec.new_interval.
  assert (Hk : float_of_int (5 - quality) = Ok (of_int (5 - quality)))
    by (destruct Hq' as [-> | [-> | ->]]; vm_compute; reflexivity).
  rewrite Hk. replace (quality <? 3) with false by (symmetry; apply Z.ltb_ge; lia).
  cbn [mbind result_bind].
  change (add ease_factor
            (sub c0_1
               (mul (of_int (5 - quality))
                  (add c0_08 (mul (of_int (5 - quality)) c0_02)))))
    with (add ease_factor (Spec.ease_delta quality)).
  change (if ltb (add ease_factor (Spec.ease_delta quality)) c1_3
          then c1_3 else add ease_factor (Spec.ease_delta quality))
    with (Spec.new_ease quality ease_factor).
  generalize (Spec.new_ease quality ease_factor). intros ease.
  assert (Hdate : forall n : Z,
            (delta ← timedelta_days n;
             next_review_date ← datetime_add now delta;
             new_ease_factor ← local "new_ease_factor" (Some ease);
             Ok (n, new_ease_factor, repetition_count + 1, next_review_date))
            = (date ← Spec.review_date now n;
               Ok (n, ease, repetition_count + 1, date))).
  { intros n. rewrite <- review_date_eq.
    destruct (timedelta_days n) as [delta|]; [|reflexivity]. cbn.
    destruct (datetime_add now delta); reflexivity. }
  destruct (repetition_count =? 0); [cbn; apply Hdate|].
  destruct (repetition_count =? 1); [cbn; apply Hdate|].
  unfold float_of_int.
  destruct (of_int interval) as [s|s| |s m e]; cbn [mbind result_bind];
    try reflexivity;
    match goal with
    | |- context [int_of_float ?x] =>
        destruct (int_of_float x); cbn; [apply Hdate|reflexivity]
    end.
Qed.

(** A rounded mantissa that is not negative keeps the sign it is given. *)
Lemma binary_round_aux_sign (m e : Z) (l : location) :
  0 <= m ->
  match binary_round_aux prec emax false m e l with
  | S754_zero s | S754_infinity s | S754_finite s _ _ => s = false
  | S754_nan => False
  end.
Proof.
  intros Hm. destruct (binary_round_aux_spec false m e l Hm)
    as (m1 & Hm1 & _ & ->).
  set (e1 := Z.max e (fexp prec emax (Zdigits2 m + e))) in *.
  set (e2 := Z.max e1 (fexp prec emax (Zdigits2 m1 + e1))).
  assert (0 <= m / 2 ^ (e1 - e))
    by (apply Z.div_pos; [assumption|apply Z.pow_pos_nonneg; subst e1; lia]).
  assert (0 <= m1 / 2 ^ (e2 - e1))
    by (apply Z.div_pos; [lia|apply Z.pow_pos_nonneg; subst e2; lia]).
  destruct (m1 / 2 ^ (e2 - e1)) as [|p|p]; [reflexivity| |lia].
  destruct (e2 <=? emax - prec); reflexivity.
Qed.

(** The new interval of a success is not negative. *)
Lemma new_interval_nonneg (interval : Z) (ease : float)
    (repetition_count n : Z) :
  0 <= interval -> positive_float ease ->
  Spec.new_interval interval ease repetition_count = Ok n -> 0 <= n.
Proof.
  intros Hi He. unfold Spec.new_interval.
  destruct (repetition_count =? 0); [intros [= <-]; lia|].
  destruct (repetition_count =? 1); [intros [= <-]; lia|].
  assert (Hof : match of_int interval with
                | S754_zero s | S754_infinity s | S754_finite s _ _ =>
                    s = false
                | S754_nan => False
                end).
  { unfold of_int, binary_normalize. destruct interval as [|p|p];
      [reflexivity| |lia].
    pose proof (binary_round_positive p 0 ltac:(vm_compute; discriminate)) as H.
    destruct (binary_round prec emax false p 0) as [s|[|]| |[|] m e];
      try contradiction; reflexivity. }
  destruct (of_int interval) as [s|s| |s m e]; try contradiction;
    try discriminate; subst s;
    destruct ease as [s'|[|]| |[|] m' e']; try contradiction;
    unfold mul; cbn [SFmul xorb int_of_float]; try discriminate.
  - intros [= <-]. lia.
  - pose proof (binary_round_aux_sign (Z.pos (m * m')) (e + e') loc_Exact
                  ltac:(lia)) as Hs.
    destruct (binary_round_aux prec emax false _ _ _) as [s|s| |s m2 e2];
      try contradiction; cbn [int_of_float]; try discriminate;
      intros [= <-]; subst s; cbn [cond_Zopp]; try lia.
    destruct e2 as [|p|p];
      [lia | apply Z.shiftl_nonneg; lia | apply Z.shiftr_nonneg; lia].
Qed.

End Success.

(** ** The claims about a successful review *)

Section SuccessClaims.
Import PyFloat PyDatetime SM2.

(** C2, as the code has it. For a quality from 3 to 5 and a prior state
    with interval at least 0, ease factor at least 1.3 and repetition count
    at least 0: the new ease factor, the ease factor plus the change floored
    at 1.3, is at least 1.3; the new interval is 1 after no repetition, 6
    after one, and otherwise the float product of the interval and the new
    ease factor cut toward zero, and it is not negative; and the call
    returns the new interval, the new ease factor, the repetition count plus
    one and the date [now] plus the new interval in days whenever the
    product is finite, the new interval is at most 999999999 days and the
    date is no later than the last instant of the year 9999. Otherwise it
    raises: the call is the sequence of the three computations, each of
    which may raise. *)
Theorem calculate_next_review_success (now : datetime)
    (quality interval : Z) (ease_factor : float) (repetition_count : Z) :
  3 <= quality <= 5 ->
  0 <= interval ->
  valid ease_factor = true ->
  leb c1_3 ease_factor = true ->
  0 <= repetition_count ->
  let ease := Spec.new_ease quality ease_factor in
  leb c1_3 ease = true /\
  (repetition_count = 0 ->
   Spec.new_interval interval ease repetition_count = Ok 1) /\
  (repetition_count = 1 ->
   Spec.new_interval interval ease repetition_count = Ok 6) /\
  (2 <= repetition_count ->
   Spec.new_interval interval ease repetition_count =
     i ← float_of_int interval; int_of_float (mul i ease)) /\
  (forall n,
     Spec.new_interval interval ease repetition_count = Ok n ->
     0 <= n /\
     (n <= max_delta_days ->
      0 <= now ->
      now + n * us_per_day <= max_datetime ->
      calculate_next_review now quality interval ease_factor
        repetition_count =
        Ok (n, ease, repetition_count + 1, now + n * us_per_day))) /\
  calculate_next_review now quality interval ease_factor repetition_count =
    (n ← Spec.new_interval interval ease repetition_count;
     date ← Spec.review_date now n;
     Ok (n, ease, repetition_count + 1, date)).
Proof.
  intros Hq Hi Hv Hle Hr ease.
  destruct (new_ease_rank ease_factor Hv Hle) as (Hease & _ & _).
  destruct (Hease quality Hq) as [Hp Hrank]. fold ease in Hp, Hrank.
  pose proof (calculate_next_review_success_eq now quality interval
                ease_factor repetition_count Hq) as Heq.
  fold ease in Heq.
  split; [apply leb_rank; [reflexivity|exact Hp|exact Hrank]|].
  split; [intros ->; reflexivity|].
  split; [intros ->; reflexivity|].
  split.
  { intros H2. unfold Spec.new_interval, float_of_int.
    replace (repetition_count =? 0) with false
      by (symmetry; apply Z.eqb_neq; lia).
    replace (repetition_count =? 1) with false
      by (symmetry; apply Z.eqb_neq; lia).
    destruct (of_int interval); reflexivity. }
  split; [|exact Heq].
  intros n Hn.
  pose proof (new_interval_nonneg interval ease repetition_count n Hi Hp Hn)
    as Hn0.
  split; [exact Hn0|]. intros Hmax Hnow Hdate.
  rewrite Heq, Hn. cbn [mbind result_bind]. unfold Spec.review_date.
  assert (0 <= n * us_per_day) by (unfold us_per_day; lia).
  replace (Z.abs n <=? max_delta_days) with true
    by (symmetry; apply Z.leb_le; lia).
  replace (0 <=? now + n * us_per_day) with true
    by (symmetry; apply Z.leb_le; lia).
  replace (now + n * us_per_day <=? max_datetime) with true
    by (symmetry; apply Z.leb_le; lia).
  reflexivity.
Qed.

(** The first scenario of the specification: quality 5 on a new mistake
    returns interval 1, ease factor 2.6 and repetition count 1. *)
Lemma calculate_next_review_success_witness :
  calculate_next_review Sample.now 5 0 c2_5 0 =
    Ok (1, c2_6, 1, Sample.now + 1 * us_per_day).
Proof.
  assert (H35 : 3 <= 5 <= 5) by lia.
  assert (H0 : 0 <= 0) by lia.
  destruct (calculate_next_review_success Sample.now 5 0 c2_5 0
              H35 H0 eq_refl eq_refl H0)
    as (_ & _ & _ & _ & Hn & _).
  destruct (Hn 1 eq_refl) as [_ Hok].
  rewrite Hok; [reflexivity| | |]; vm_compute; discriminate.
Defined.

(** C2 as it is worded fails: an interval of a thousand million days,
    ease factor 2.5, two repetitions and quality 4 meet its conditions, and
    the call raises [OverflowError], the new interval of 2500000000 days
    being more than a [timedelta] holds. *)
Lemma calculate_next_review_success_counterexample :
  3 <= 4 <= 5 /\ 0 <= 1000000000 /\ leb c1_3 c2_5 = true /\ 0 <= 2 /\
  Spec.new_interval 1000000000 (Spec.new_ease 4 c2_5) 2 = Ok 2500000000 /\
  calculate_next_review Sample.now 4 1000000000 c2_5 2 =
    Raise OverflowError.
Proof.
  split; [lia|]. split; [lia|]. split; [reflexivity|]. split; [lia|].
  split; vm_compute; reflexivity.
Qed.

(** C8. For a prior state whose ease factor is at least 1.3, the new ease
    factor does not decrease with the quality over 3 to 5: the new ease
    factor of the specification does not, and it is the one a call that
    returns, returns. *)
Theorem new_ease_factor_monotone (now1 now2 : datetime)
    (interval : Z) (ease_factor : float) (repetition_count : Z)
    (quality1 quality2 : Z) :
  valid ease_factor = true ->
  leb c1_3 ease_factor = true ->
  3 <= quality1 -> quality1 <= quality2 -> quality2 <= 5 ->
  leb (Spec.new_ease quality1 ease_factor)
      (Spec.new_ease quality2 ease_factor) = true /\
  (forall n1 e1 c1 d1 n2 e2 c2 d2,
     calculate_next_review now1 quality1 interval ease_factor
       repetition_count = Ok (n1, e1, c1, d1) ->
     calculate_next_review now2 quality2 interval ease_factor
       repetition_count = Ok (n2, e2, c2, d2) ->
     leb e1 e2 = true).
Proof.
  intros Hv Hle H1 H12 H2.
  destruct (new_ease_rank ease_factor Hv Hle) as (Hease & H34 & H45).
  assert (Hmono : leb (Spec.new_ease quality1 ease_factor)
                      (Spec.new_ease quality2 ease_factor) = true).
  { destruct (Hease quality1 ltac:(lia)) as [Hp1 _].
    destruct (Hease quality2 ltac:(lia)) as [Hp2 _].
    apply leb_rank; [exact Hp1|exact Hp2|].
    assert (Hq1 : quality1 = 3 \/ quality1 = 4 \/ quality1 = 5) by lia.
    assert (Hq2 : quality2 = 3 \/ quality2 = 4 \/ quality2 = 5) by lia.
    destruct Hq1 as [-> | [-> | ->]], Hq2 as [-> | [-> | ->]]; lia. }
  split; [exact Hmono|].
  intros n1 e1 c1 d1 n2 e2 c2 d2.
  rewrite !calculate_next_review_success_eq by lia.
  destruct (Spec.new_interval interval (Spec.new_ease quality1 _) _)
    as [m1|]; [|discriminate].
  destruct (Spec.new_interval interval (Spec.new_ease quality2 _) _)
    as [m2|]; [|discriminate].
  cbn [mbind result_bind].
  destruct (Spec.review_date now1 m1); [|discriminate].
  destruct (Spec.review_date now2 m2); [|discriminate].
  cbn [mbind result_bind]. intros [= _ <- _ _] [= _ <- _ _]. exact Hmono.
Qed.

(** Ease factor 2.5 reviewed with quality 3 and with quality 5: the new
    ease factors are 2.36 and 2.6. *)
Lemma new_ease_factor_monotone_witness :
  exists n1 e1 c1 d1 n2 e2 c2 d2,
    calculate_next_review Sample.now 3 0 c2_5 0 = Ok (n1, e1, c1, d1) /\
    calculate_next_review Sample.now 5 0 c2_5 0 = Ok (n2, e2, c2, d2) /\
    e2 = c2_6 /\ leb e1 e2 = true.
Proof.
  assert (H33 : 3 <= 3) by lia.
  assert (H35 : 3 <= 5) by lia.
  assert (H55 : 5 <= 5) by lia.
  destruct (new_ease_factor_monotone Sample.now Sample.now 0 c2_5 0 3 5
              eq_refl eq_refl H33 H35 H55)
    as [_ Hcalls].
  do 8 eexists. split; [vm_compute; reflexivity|].
  split; [vm_compute; reflexivity|]. split; [reflexivity|].
  eapply Hcalls; vm_compute; reflexivity.
Defined.

End SuccessClaims.

(** ** Answers to an exam *)

Section Answers.
Import Main Requests.

(** What [submit_exam_answer] does to a session in progress: the counters
    move as the stored answer to the identifier says, and the answers are
    written when the session held none. *)
Lemma submit_exam_answer_open (s : db) (exam_id : Z)
    (exam : ExamSession.t) (answer : ExamAnswerSubmit.t) :
  exams s !! exam_id = Some exam ->
  ExamSession.completed_at exam = None ->
  let key : string := pretty (ExamAnswerSubmit.mistake_id answer) in
  let counters :=
    Spec.counters_after (ExamSession.answers exam !! key)
      (ExamAnswerSubmit.is_correct answer)
      (ExamSession.correct_count exam)
      (ExamSession.incorrect_count exam) in
  let answers :=
    if decide (ExamSession.answers exam = ∅)
    then {[key := ExamAnswerSubmit.is_correct answer]}
    else ExamSession.answers exam in
  submit_exam_answer exam_id answer s =
    Ok (mk_db (mistakes s)
          (<[exam_id := written exam counters answers]> (exams s)),
        written exam counters answers).
Proof.
  intros Hexam Hopen. cbv zeta. unfold submit_exam_answer, written.
  rewrite Hexam, Hopen.
  rewrite bool_decide_false by (intros [? ?]; discriminate).
  destruct answer as [mistake_id is_correct];
    cbn [ExamAnswerSubmit.mistake_id ExamAnswerSubmit.is_correct].
  destruct (decide (ExamSession.answers exam = ∅)) as [Hnone|Hsome].
  - rewrite (bool_decide_true _ Hnone), Hnone, lookup_empty.
    rewrite bool_decide_false by (intros [? ?]; discriminate). cbn [negb].
    destruct is_correct; cbn [Spec.counters_after fst snd]; reflexivity.
  - rewrite (bool_decide_false _ Hsome).
    destruct (ExamSession.answers exam !! pretty mistake_id) as [old|]
      eqn:Hold.
    + rewrite bool_decide_true by eauto. cbn [negb].
      destruct old, is_correct; cbn [truthy Spec.counters_after fst snd];
        (rewrite bool_decide_true by congruence) ||
        (rewrite bool_decide_false by (intros H; apply H; reflexivity));
        reflexivity.
    + rewrite bool_decide_false by (intros [? ?]; discriminate). cbn [negb].
      destruct is_correct; cbn [Spec.counters_after fst snd]; reflexivity.
Qed.

(** A completed session refuses an answer and a second completion. *)
Lemma completed_refuses (s : db) (exam_id : Z) (exam : ExamSession.t) :
  exams s !! exam_id = Some exam ->
  is_Some (ExamSession.completed_at exam) ->
  (forall answer,
     submit_exam_answer exam_id answer s =
       Raise (HTTPException 400 "Exam session already completed")) /\
  (forall now,
     complete_exam now exam_id s =
       Raise (HTTPException 400 "Exam session already completed")).
Proof.
  intros Hexam Hdone. split; intros; unfold submit_exam_answer, complete_exam;
    rewrite Hexam, bool_decide_true by assumption; reflexivity.
Qed.

End Answers.

(** ** What one request does to the table of sessions *)

Section Frames.
Import Main Requests.

Lemma submit_review_exams now mistake_id quality (s : db) :
  exams (commit s (submit_review now mistake_id quality s)) = exams s.
Proof.
  unfold submit_review.
  destruct (mistakes s !! mistake_id) as [mistake|]; [|reflexivity].
  destruct (GREMistake.mastered mistake); [reflexivity|].
  destruct (SM2.calculate_next_review _ _ _ _ _) as [[[[? ?] ?] ?]|];
    reflexivity.
Qed.

Lemma delete_mistake_exams mistake_id (s : db) :
  exams (commit s (delete_mistake mistake_id s)) = exams s.
Proof.
  unfold delete_mistake. destruct (mistakes s !! mistake_id); reflexivity.
Qed.

Lemma handle_origin (s : db) (r : request) (id : Z) (exam' : ExamSession.t) :
  exams (handle s r) !! id = Some exam' -> origin s r id exam'.
Proof.
  destruct r as [now m q|m|cfg|eid answer|now eid]; cbn [handle].
  - rewrite submit_review_exams. apply Kept.
  - rewrite delete_mistake_exams. apply Kept.
  - unfold create_exam_session.
    destruct (filter _ (map_to_list (mistakes s))); [apply Kept|].
    cbn [commit exams]. intros Hid.
    destruct (decide (fresh (dom (exams s)) = id)) as [<-|Hne].
    + rewrite lookup_insert_eq in Hid. injection Hid as <-.
      apply Created; try reflexivity. apply not_elem_of_dom, is_fresh.
    + rewrite lookup_insert_ne in Hid by assumption. apply Kept, Hid.
  - destruct (exams s !! eid) as [exam|] eqn:Hexam;
      [|unfold submit_exam_answer; rewrite Hexam; apply Kept].
    destruct (ExamSession.completed_at exam) as [t|] eqn:Hdone.
    + destruct (completed_refuses s eid exam Hexam) as [-> _];
        [rewrite Hdone; eauto | apply Kept].
    + pose proof (submit_exam_answer_open s eid exam answer Hexam Hdone)
        as Hok.
      cbv zeta in Hok. rewrite Hok. cbn [commit exams]. intros Hid.
      destruct (decide (eid = id)) as [->|Hne].
      * rewrite lookup_insert_eq in Hid. injection Hid as <-.
        eapply Answered; eauto.
      * rewrite lookup_insert_ne in Hid by assumption. apply Kept, Hid.
  - unfold complete_exam.
    destruct (exams s !! eid) as [exam|] eqn:Hexam; [|apply Kept].
    destruct (ExamSession.completed_at exam) as [t|] eqn:Hdone.
    + rewrite bool_decide_true by eauto. apply Kept.
    + rewrite bool_decide_false by (intros [? ?]; discriminate).
      cbn [commit exams]. intros Hid.
      destruct (decide (eid = id)) as [->|Hne].
      * rewrite lookup_insert_eq in Hid. injection Hid as <-.
        eapply Completed; eauto.
      * rewrite lookup_insert_ne in Hid by assumption. apply Kept, Hid.
Qed.

(** No request removes a session. *)
Lemma handle_keeps (s : db) (r : request) (id : Z) (exam : ExamSession.t) :
  exams s !! id = Some exam -> is_Some (exams (handle s r) !! id).
Proof.
  intros Hexam.
  destruct r as [now m q|m|cfg|eid answer|now eid]; cbn [handle].
  - rewrite submit_review_exams. eauto.
  - rewrite delete_mistake_exams. eauto.
  - unfold create_exam_session.
    destruct (filter _ (map_to_list (mistakes s))); [eauto|].
    cbn [commit exams]. apply lookup_insert_is_Some'; eauto.
  - destruct (exams s !! eid) as [old|] eqn:Hold;
      [|unfold submit_exam_answer; rewrite Hold; eauto].
    destruct (ExamSession.completed_at old) as [t|] eqn:Hdone.
    + destruct (completed_refuses s eid old Hold) as [-> _];
        [rewrite Hdone|]; eauto.
    + pose proof (submit_exam_answer_open s eid old answer Hold Hdone)
        as Hok.
      cbv zeta in Hok. rewrite Hok.
      cbn [commit exams]. apply lookup_insert_is_Some'; eauto.
  - unfold complete_exam.
    destruct (exams s !! eid) as [old|]; [|eauto].
    destruct (bool_decide _); [eauto|].
    cbn [commit exams]. apply lookup_insert_is_Some'; eauto.
Qed.

(** A request leaves every completed session as it is. *)
Lemma handle_completed (s : db) (r : request) (exam_id : Z)
    (exam : ExamSession.t) :
  exams s !! exam_id = Some exam ->
  is_Some (ExamSession.completed_at exam) ->
  exams (handle s r) !! exam_id = Some exam.
Proof.
  intros Hexam [t Hdone].
  destruct (handle_keeps s r exam_id exam Hexam) as [exam' Hexam'].
  rewrite Hexam'.
  destruct (handle_origin s r exam_id exam' Hexam')
    as [Hk|Hk|old ? _ Hk Ho|old ? _ Hk Ho]; congruence.
Qed.

Lemma serve_completed (rs : list request) (s : db) (exam_id : Z)
    (exam : ExamSession.t) :
  exams s !! exam_id = Some exam ->
  is_Some (ExamSession.completed_at exam) ->
  exams (serve s rs) !! exam_id = Some exam.
Proof.
  revert s. induction rs as [|r rs IH]; intros s Hexam Hdone; [assumption|].
  cbn. apply IH; [|assumption]. apply handle_completed; assumption.
Qed.

End Frames.

(** ** The claims about answers and completion *)

Section ExamClaims.
Import Main Requests.

(** C4. On a session in progress [submit_exam_answer] returns, and the two
    counters move as the claim says for the answer that the row holds under
    the identifier. The answer itself is written only into a row that holds
    no answer, and the row is then the one of the specification. A row
    that holds an answer keeps its answers as they are stored: an answer
    that differs from the stored one, or to an identifier with none, is not
    recorded, the row is not the one of the specification, and the same
    request a second time moves the counters a second time. *)
Theorem submit_exam_answer_stores_first (s : db) (exam_id : Z)
    (exam : ExamSession.t) (mistake_id : Z) (is_correct : bool) :
  exams s !! exam_id = Some exam ->
  ExamSession.completed_at exam = None ->
  let answer := ExamAnswerSubmit.mk mistake_id is_correct in
  let stored := ExamSession.answers exam !! pretty mistake_id in
  exists exam',
    let s' := mk_db (mistakes s) (<[exam_id := exam']> (exams s)) in
    submit_exam_answer exam_id answer s = Ok (s', exam') /\
    (ExamSession.correct_count exam', ExamSession.incorrect_count exam') =
      Spec.counters_after stored is_correct
        (ExamSession.correct_count exam) (ExamSession.incorrect_count exam) /\
    (ExamSession.answers exam = ∅ ->
     ExamSession.answers exam' = {[pretty mistake_id := is_correct]} /\
     exam' = Spec.answered exam answer) /\
    (ExamSession.answers exam <> ∅ ->
     ExamSession.answers exam' = ExamSession.answers exam /\
     (stored <> Some is_correct ->
      ExamSession.answers exam' !! pretty mistake_id <> Some is_correct /\
      exam' <> Spec.answered exam answer /\
      exists exam'',
        submit_exam_answer exam_id answer s' =
          Ok (mk_db (mistakes s) (<[exam_id := exam'']> (exams s)), exam'') /\
        ExamSession.answers exam'' = ExamSession.answers exam /\
        (ExamSession.correct_count exam'',
         ExamSession.incorrect_count exam'') =
          Spec.counters_after stored is_correct
            (ExamSession.correct_count exam')
            (ExamSession.incorrect_count exam') /\
        exam'' <> exam')).
Proof.
  intros Hexam Hopen answer stored.
  pose proof (submit_exam_answer_open s exam_id exam answer Hexam Hopen)
    as Hok.
  cbv zeta in Hok.
  cbn [answer ExamAnswerSubmit.mistake_id ExamAnswerSubmit.is_correct]
    in Hok.
  fold stored in Hok.
  eexists. cbv zeta. split; [exact Hok|]. clear Hok.
  cbn [written ExamSession.correct_count ExamSession.incorrect_count
       ExamSession.answers].
  split; [symmetry; apply surjective_pairing|]. split.
  - intros Hnone. rewrite decide_True by assumption.
    split; [reflexivity|]. unfold Spec.answered, written, stored.
    cbn [answer ExamAnswerSubmit.mistake_id ExamAnswerSubmit.is_correct].
    rewrite Hnone, insert_empty. reflexivity.
  - intros Hsome. rewrite decide_False by assumption.
    split; [reflexivity|]. intros Hdiffers.
    split; [exact Hdiffers|]. split.
    { intros Heq.
      apply (f_equal (fun e => ExamSession.answers e !! pretty mistake_id))
        in Heq.
      cbn [written ExamSession.answers Spec.answered answer
           ExamAnswerSubmit.mistake_id ExamAnswerSubmit.is_correct] in Heq.
      rewrite lookup_insert_eq in Heq. apply Hdiffers. exact Heq. }
    set (exam' := written exam _ (ExamSession.answers exam)).
    pose proof (submit_exam_answer_open
                  (mk_db (mistakes s) (<[exam_id := exam']> (exams s)))
                  exam_id exam' answer (lookup_insert_eq _ _ _) Hopen)
      as Hok.
    cbv zeta in Hok.
    cbn [answer ExamAnswerSubmit.mistake_id ExamAnswerSubmit.is_correct
         mistakes exams] in Hok.
    rewrite insert_insert_eq in Hok.
    eexists. split; [exact Hok|]. clear Hok.
    change (ExamSession.answers exam') with (ExamSession.answers exam).
    rewrite decide_False by assumption. fold stored.
    cbn [written ExamSession.correct_count ExamSession.incorrect_count
         ExamSession.answers].
    split; [reflexivity|]. split; [symmetry; apply surjective_pairing|].
    intros Heq.
    apply (f_equal (fun e => (ExamSession.correct_count e,
                              ExamSession.incorrect_count e))) in Heq.
    cbn [written ExamSession.correct_count ExamSession.incorrect_count]
      in Heq.
    unfold exam' in Heq.
    cbn [written ExamSession.correct_count ExamSession.incorrect_count]
      in Heq.
    destruct stored as [[|]|], is_correct;
      cbn [Spec.counters_after fst snd] in Heq;
      try (apply Hdiffers; reflexivity);
      injection Heq; intros; lia.
Qed.

(** The sample exam with problem 1 answered: the answer to problem 2 is
    counted and is not recorded. *)
Lemma submit_exam_answer_stores_first_witness :
  let s := serve Sample.store
             [CreateExam (Sample.only_section "Quant");
              Sample.answer 1 true] in
  exists s' exam',
    submit_exam_answer 0 (ExamAnswerSubmit.mk 2 false) s = Ok (s', exam') /\
    ExamSession.answers exam' = {["1" := true]} /\
    ExamSession.answers exam' !! "2" = None /\
    (ExamSession.correct_count exam', ExamSession.incorrect_count exam') =
      (1, 1).
Proof.
  intros s.
  edestruct (submit_exam_answer_stores_first s 0) with (mistake_id := 2)
    (is_correct := false) as (exam' & Hok & Hcount & _ & Hkept).
  - vm_compute. reflexivity.
  - reflexivity.
  - destruct Hkept as [Ha _]; [vm_compute; intros H; discriminate H|].
    exists (mk_db (mistakes s) (<[0 := exam']> (exams s))), exam'.
    split; [exact Hok|].
    split; [rewrite Ha; vm_compute; reflexivity|].
    split; [rewrite Ha; vm_compute; reflexivity|].
    vm_compute in Hcount. exact Hcount.
Defined.

(** The answer to problem 1 of the sample exam, given as correct and then
    twice as incorrect: the row keeps the first answer, and each of the two
    requests takes one from the correct answers and adds one to the
    incorrect ones, down to a negative count. *)
Example changed_answer_counted_again :
  exists exam,
    exams (serve Sample.store
             [CreateExam (Sample.only_section "Quant");
              Sample.answer 1 true; Sample.answer 1 false;
              Sample.answer 1 false]) !! 0 = Some exam /\
    ExamSession.answers exam !! "1" = Some true /\
    (ExamSession.correct_count exam, ExamSession.incorrect_count exam) =
      (-1, 2).
Proof.
  eexists. split; [vm_compute; reflexivity|]. split; reflexivity.
Qed.

(** C5. A session whose [completed_at] is set refuses an answer and a
    second completion with the error [400 Exam session already completed],
    and the store is left as it was; the row of the session is the same
    after any sequence of requests, so [completed_at] keeps the instant it
    was set to and the answers and counters stay. *)
Theorem completed_is_final (s : db) (exam_id : Z) (exam : ExamSession.t) :
  exams s !! exam_id = Some exam ->
  is_Some (ExamSession.completed_at exam) ->
  (forall answer,
     submit_exam_answer exam_id answer s =
       Raise (HTTPException 400 "Exam session already completed") /\
     handle s (SubmitAnswer exam_id answer) = s) /\
  (forall now,
     complete_exam now exam_id s =
       Raise (HTTPException 400 "Exam session already completed") /\
     handle s (CompleteExam now exam_id) = s) /\
  (forall rs, exams (serve s rs) !! exam_id = Some exam).
Proof.
  intros Hexam Hdone.
  destruct (completed_refuses s exam_id exam Hexam Hdone) as [Ha Hc].
  split; [|split].
  - intros answer. split; [apply Ha|]. cbn [handle]. rewrite Ha. reflexivity.
  - intros now. split; [apply Hc|]. cbn [handle]. rewrite Hc. reflexivity.
  - intros rs. apply serve_completed; assumption.
Qed.

(** The sample exam, completed: a further answer is refused. *)
Lemma completed_is_final_witness :
  submit_exam_answer 0 (ExamAnswerSubmit.mk 4 true)
    (serve Sample.store Sample.completed) =
    Raise (HTTPException 400 "Exam session already completed").
Proof.
  edestruct (completed_is_final (serve Sample.store Sample.completed) 0)
    as (Ha & _ & _).
  - vm_compute. reflexivity.
  - vm_compute. eexists. reflexivity.
  - apply Ha.
Defined.

(** C6. The counters do not stay in step with the answers. On a session in
    progress that holds an answer, an answer to an identifier that has none
    is counted and not recorded: the counters add up to one more and the
    answer mapping keeps its keys. So the sample exam, made by
    [create_exam_session] and given four answers to three problems, is left
    with counters 2 and 2 and one key. *)
Theorem counters_outrun_answers :
  (forall (s : db) (exam_id : Z) (exam : ExamSession.t) (mistake_id : Z)
          (is_correct : bool),
     exams s !! exam_id = Some exam ->
     ExamSession.completed_at exam = None ->
     ExamSession.answers exam <> ∅ ->
     ExamSession.answers exam !! pretty mistake_id = None ->
     exists exam',
       submit_exam_answer exam_id
         (ExamAnswerSubmit.mk mistake_id is_correct) s =
         Ok (mk_db (mistakes s) (<[exam_id := exam']> (exams s)), exam') /\
       ExamSession.answers exam' = ExamSession.answers exam /\
       ExamSession.correct_count exam' + ExamSession.incorrect_count exam' =
         ExamSession.correct_count exam + ExamSession.incorrect_count exam
         + 1) /\
  (exists exam0 exam,
     exams (serve Sample.store [CreateExam (Sample.only_section "Quant")])
       !! 0 = Some exam0 /\
     (ExamSession.answers exam0, ExamSession.correct_count exam0,
      ExamSession.incorrect_count exam0) = (∅, 0, 0) /\
     exams (serve Sample.store Sample.in_progress) !! 0 = Some exam /\
     ExamSession.answers exam = {["1" := true]} /\
     size (ExamSession.answers exam) = 1%nat /\
     (ExamSession.correct_count exam, ExamSession.incorrect_count exam) =
       (2, 2)).
Proof.
  split.
  - intros s exam_id exam mistake_id is_correct Hexam Hopen Hsome Hnew.
    pose proof (submit_exam_answer_open s exam_id exam
                  (ExamAnswerSubmit.mk mistake_id is_correct) Hexam Hopen)
      as Hok.
    cbv zeta in Hok.
    cbn [ExamAnswerSubmit.mistake_id ExamAnswerSubmit.is_correct] in Hok.
    rewrite Hnew, decide_False in Hok by assumption.
    eexists. split; [exact Hok|].
    cbn [written ExamSession.correct_count ExamSession.incorrect_count
         ExamSession.answers].
    split; [reflexivity|].
    destruct is_correct; cbn [Spec.counters_after fst snd]; lia.
  - eexists _, _. split; [vm_compute; reflexivity|].
    split; [reflexivity|]. split; [vm_compute; reflexivity|].
    split; [vm_compute; reflexivity|]. split; reflexivity.
Qed.

(** C10. On a session in progress [submit_exam_answer] returns for every
    integer [mistake_id], in the fixed set of the session or not and in the
    table of mistakes or not, and counts the answer when the row holds none
    under the identifier. It records the answer only in a row that holds no
    answer at all: a row that holds one keeps its answers. So the counters
    can exceed [total_problems]: they do after the five answers of the
    sample to an exam of four problems, the fifth of which is counted and
    not recorded. *)
Theorem submit_exam_answer_unchecked :
  (forall (s : db) (exam_id : Z) (exam : ExamSession.t) (mistake_id : Z)
          (is_correct : bool),
     exams s !! exam_id = Some exam ->
     ExamSession.completed_at exam = None ->
     exists exam',
       submit_exam_answer exam_id
         (ExamAnswerSubmit.mk mistake_id is_correct) s =
         Ok (mk_db (mistakes s) (<[exam_id := exam']> (exams s)), exam') /\
       ExamSession.total_problems exam' = ExamSession.total_problems exam /\
       (ExamSession.answers exam !! pretty mistake_id = None ->
        ExamSession.correct_count exam' + ExamSession.incorrect_count exam' =
          ExamSession.correct_count exam + ExamSession.incorrect_count exam
          + 1) /\
       (ExamSession.answers exam = ∅ ->
        ExamSession.answers exam' !! pretty mistake_id = Some is_correct) /\
       (ExamSession.answers exam <> ∅ ->
        ExamSession.answers exam' = ExamSession.answers exam)) /\
  (exists exam,
     exams (serve Sample.store Sample.overfull) !! 0 = Some exam /\
     (99 ∉ ExamSession.mistake_ids exam) /\
     mistakes (serve Sample.store Sample.overfull) !! 99 = None /\
     ExamSession.answers exam !! "99" = None /\
     ExamSession.total_problems exam = 4 /\
     ExamSession.correct_count exam + ExamSession.incorrect_count exam = 5).
Proof.
  split.
  - intros s exam_id exam mistake_id is_correct Hexam Hopen.
    pose proof (submit_exam_answer_open s exam_id exam
                  (ExamAnswerSubmit.mk mistake_id is_correct) Hexam Hopen)
      as Hok.
    cbv zeta in Hok.
    cbn [ExamAnswerSubmit.mistake_id ExamAnswerSubmit.is_correct] in Hok.
    eexists. split; [exact Hok|].
    cbn [written ExamSession.correct_count ExamSession.incorrect_count
         ExamSession.answers ExamSession.total_problems].
    split; [reflexivity|]. split; [|split].
    + intros ->.
      destruct is_correct; cbn [Spec.counters_after fst snd]; lia.
    + intros Hnone. rewrite decide_True by assumption.
      apply lookup_singleton_eq.
    + intros Hsome. rewrite decide_False by assumption. reflexivity.
  - eexists. split; [vm_compute; reflexivity|].
    split; [|repeat split; vm_compute; reflexivity].
    intros Hin. apply list_elem_of_In in Hin. vm_compute in Hin.
    repeat destruct Hin as [Hin|Hin]; try discriminate. exact Hin.
Qed.

End ExamClaims.

(** ** Reviews and mastery *)

Section Mastery.
Import PyDatetime Main Requests.

(** What a review that returns leaves in the table. *)
Lemma submit_review_returns (now : datetime) (mistake_id quality : Z)
    (s s' : db) (mistake' : GREMistake.t) :
  submit_review now mistake_id quality s = Ok (s', mistake') ->
  exists mistake new_date,
    mistakes s !! mistake_id = Some mistake /\
    GREMistake.mastered mistake = false /\
    SM2.calculate_next_review now quality (GREMistake.interval mistake)
      (GREMistake.ease_factor mistake)
      (GREMistake.repetition_count mistake) =
      Ok (GREMistake.interval mistake', GREMistake.ease_factor mistake',
          GREMistake.repetition_count mistake', new_date) /\
    GREMistake.mastered mistake' =
      (GREMistake.repetition_count mistake' >=? 5) /\
    s' = mk_db (<[mistake_id := mistake']> (mistakes s)) (exams s).
Proof.
  unfold submit_review.
  destruct (mistakes s !! mistake_id) as [mistake|]; [|discriminate].
  destruct (GREMistake.mastered mistake) eqn:Hm; [discriminate|].
  destruct (SM2.calculate_next_review _ _ _ _ _)
    as [[[[new_interval new_ease] new_count] new_date]|] eqn:Hnext;
    [|discriminate].
  cbn. intros [= <- <-]. exists mistake, new_date.
  cbn. rewrite Hm.
  split; [reflexivity|]. split; [reflexivity|]. split; [exact Hnext|].
  split; [destruct (new_count >=? 5); reflexivity | reflexivity].
Qed.

Lemma handle_mistakes_of_exam_requests (s : db) (r : request) :
  match r with
  | SubmitReview _ _ _ | DeleteMistake _ => True
  | _ => mistakes (handle s r) = mistakes s
  end.
Proof.
  destruct r as [now m q|m|cfg|eid answer|now eid]; cbn [handle]; trivial.
  - unfold create_exam_session.
    destruct (filter _ (map_to_list (mistakes s))); reflexivity.
  - destruct (exams s !! eid) as [exam|] eqn:Hexam;
      [|unfold submit_exam_answer; rewrite Hexam; reflexivity].
    destruct (ExamSession.completed_at exam) as [t|] eqn:Hdone.
    + destruct (completed_refuses s eid exam Hexam) as [-> _];
        [rewrite Hdone; eauto | reflexivity].
    + pose proof (submit_exam_answer_open s eid exam answer Hexam Hdone)
        as Hok.
      cbv zeta in Hok. rewrite Hok. reflexivity.
  - unfold complete_exam. destruct (exams s !! eid) as [exam|]; [|reflexivity].
    destruct (bool_decide _); reflexivity.
Qed.

(** No request changes a mastered mistake. *)
Lemma handle_mastered (s : db) (r : request) (mistake_id : Z)
    (mistake mistake' : GREMistake.t) :
  mistakes s !! mistake_id = Some mistake ->
  GREMistake.mastered mistake = true ->
  mistakes (handle s r) !! mistake_id = Some mistake' ->
  mistake' = mistake.
Proof.
  intros Hm Hmastered.
  pose proof (handle_mistakes_of_exam_requests s r) as Hframe.
  destruct r as [now m q|m|cfg|eid answer|now eid];
    try (rewrite Hframe, Hm; congruence); cbn [handle].
  - destruct (submit_review now m q s) as [[s' new]|e] eqn:Hr;
      [|cbn; rewrite Hm; congruence].
    destruct (submit_review_returns now m q s s' new Hr)
      as (old & _ & Hold & Hopen & _ & _ & ->).
    cbn [commit mistakes].
    destruct (decide (m = mistake_id)) as [->|Hne]; [congruence|].
    rewrite lookup_insert_ne by assumption. rewrite Hm. congruence.
  - unfold delete_mistake. destruct (mistakes s !! m);
      [|cbn; rewrite Hm; congruence].
    cbn [commit mistakes].
    destruct (decide (m = mistake_id)) as [->|Hne].
    + rewrite lookup_delete_eq. discriminate.
    + rewrite lookup_delete_ne by assumption. rewrite Hm. congruence.
Qed.

Lemma serve_mastered (rs : list request) (s : db) (mistake_id : Z)
    (mistake mistake' : GREMistake.t) :
  mistakes s !! mistake_id = Some mistake ->
  GREMistake.mastered mistake = true ->
  mistakes (serve s rs) !! mistake_id = Some mistake' ->
  mistake' = mistake.
Proof.
  revert s. induction rs as [|r rs IH]; intros s Hm Hmastered;
    [cbn; rewrite Hm; congruence|].
  cbn. destruct (mistakes (handle s r) !! mistake_id) as [m1|] eqn:H1.
  - pose proof (handle_mastered s r mistake_id mistake m1 Hm Hmastered H1)
      as ->.
    apply IH; assumption.
  - clear IH. revert H1. generalize (handle s r). clear s Hm.
    induction rs as [|r' rs IH]; intros s H1; [cbn; congruence|].
    cbn. apply IH.
    pose proof (handle_mistakes_of_exam_requests s r') as Hframe.
    destruct r' as [now m q|m|cfg|eid answer|now eid];
      try (rewrite Hframe; assumption); cbn [handle].
    + destruct (submit_review now m q s) as [[s' new]|e] eqn:Hr;
        [|assumption].
      destruct (submit_review_returns now m q s s' new Hr)
        as (old & _ & Hold & _ & _ & _ & ->).
      cbn [commit mistakes]. rewrite lookup_insert_ne; [assumption|].
      intros ->. congruence.
    + unfold delete_mistake. destruct (mistakes s !! m); [|assumption].
      cbn [commit mistakes]. rewrite lookup_delete_None. right. assumption.
Qed.

(** The scenario of the specification: five reviews of quality 5 of a new
    mistake. The fifth brings the repetition count to 5 and masters the
    mistake, the first four do not, and a sixth review is refused. *)
Example five_reviews_master :
  (exists mistake,
     mistakes (serve Sample.store (take 4 Sample.five_reviews)) !! 1 =
       Some mistake /\
     GREMistake.repetition_count mistake = 4 /\
     GREMistake.mastered mistake = false) /\
  (exists mistake,
     mistakes (serve Sample.store Sample.five_reviews) !! 1 = Some mistake /\
     GREMistake.repetition_count mistake = 5 /\
     GREMistake.mastered mistake = true) /\
  submit_review Sample.now 1 5 (serve Sample.store Sample.five_reviews) =
    Raise (HTTPException 400 "This item is already mastered").
Proof.
  split; [|split].
  - eexists. split; [vm_compute; reflexivity|]. split; reflexivity.
  - eexists. split; [vm_compute; reflexivity|]. split; reflexivity.
  - vm_compute. reflexivity.
Qed.

End Mastery.


(** ** The statistics *)

Section Tallies.
Import PyFloat Statistics.


Lemma len_cons {A} (x : A) (l : list A) : len (x :: l) = len l + 1.
Proof. unfold len. cbn [length]. lia. Qed.

Lemma len_nonneg {A} (l : list A) : 0 <= len l.
Proof. unfold len. lia. Qed.

Lemma recorded_answer (exam : ExamSession.t) (mistake_id : Z) :
  default false (ExamSession.answers exam !! pretty mistake_id) =
    Spec.correct_in exam mistake_id.
Proof.
  unfold Spec.correct_in.
  destruct (ExamSession.answers exam !! pretty mistake_id) as [[|]|];
    reflexivity.
Qed.

Lemma len_app {A} (l k : list A) : len (l ++ k) = len l + len k.
Proof. unfold len. rewrite length_app. lia. Qed.

Lemma tallied_cons (table : gmap Z GREMistake.t) (exam : ExamSession.t)
    (id : Z) (ids : list Z) (c c1 c2 : counters) (x x1 x2 : in_exam) :
  Spec.tallied table exam [id] c c1 x x1 ->
  Spec.tallied table exam ids c1 c2 x1 x2 ->
  Spec.tallied table exam (id :: ids) c c2 x x2.
Proof.
  unfold Spec.tallied, Spec.problems. change (id :: ids) with ([id] ++ ids).
  rewrite !filter_app, !len_app.
  intros (H1 & H2 & H3 & H4 & H5 & H6 & H7 & H8 & H9 & H10)
         (K1 & K2 & K3 & K4 & K5 & K6 & K7 & K8 & K9 & K10).
  repeat match goal with |- _ /\ _ => split end; try congruence; lia.
Qed.

(** One identifier: the body of the inner loop. *)
Lemma visit_one (table : gmap Z GREMistake.t) (exam : ExamSession.t)
    (id : Z) (c : counters) (x : in_exam) :
  Spec.tallied table exam [id] c (visit table exam (c, x) id).1
    x (visit table exam (c, x) id).2.
Proof.
  unfold Spec.tallied, Spec.problems, Spec.section_of, visit.
  rewrite recorded_answer.
  destruct (table !! id) as [mistake|] eqn:Hlook.
  - repeat case_bool_decide;
      destruct (Spec.correct_in exam id) eqn:Hc; cbn [fst snd];
      repeat (rewrite !filter_cons, ?filter_nil; repeat case_decide);
      rewrite ?Hlook in *; cbn [fmap option_fmap option_map] in *;
      try congruence; rewrite ?filter_nil;
      cbn [quant_total_problems quant_correct quant_incorrect quant_exam_ids
           verbal_total_problems verbal_correct verbal_incorrect
           verbal_exam_ids quant_in_exam verbal_in_exam];
      change (len [id]) with 1; change (len (@nil Z)) with 0;
      repeat match goal with |- _ /\ _ => split end; try reflexivity; lia.
  - rewrite !filter_cons, !filter_nil. rewrite Hlook.
    cbn [fmap option_fmap option_map].
    rewrite !(decide_False (P := None = Some _)) by discriminate.
    rewrite !filter_nil. change (len (@nil Z)) with 0. cbn [fst snd].
    repeat match goal with |- _ /\ _ => split end; try reflexivity; lia.
Qed.

Lemma visit_tallied (table : gmap Z GREMistake.t) (exam : ExamSession.t)
    (ids : list Z) (c : counters) (x : in_exam) :
  Spec.tallied table exam ids c (foldl (visit table exam) (c, x) ids).1
    x (foldl (visit table exam) (c, x) ids).2.
Proof.
  revert c x. induction ids as [|id ids IH]; intros c x.
  - unfold Spec.tallied, Spec.problems. cbn [foldl fst snd].
    rewrite !filter_nil. change (len []) with 0.
    repeat match goal with |- _ /\ _ => split end; try reflexivity; lia.
  - cbn [foldl]. eapply tallied_cons; [apply visit_one|].
    specialize (IH (visit table exam (c, x) id).1
                   (visit table exam (c, x) id).2).
    rewrite <- surjective_pairing in IH. exact IH.
Qed.


Lemma union_insert_swap (E C : gset Z) (id : Z) :
  E ∪ ({[id]} ∪ C) = {[id]} ∪ E ∪ C.
Proof. apply set_eq. intros i. rewrite !elem_of_union. tauto. Qed.

(** One session: the body of the outer loop. *)
Lemma scan_spec (table : gmap Z GREMistake.t) (c : counters) (id : Z)
    (exam : ExamSession.t) :
  let c' := scan table c (id, exam) in
  let quant := Spec.problems "Quant" table (ExamSession.mistake_ids exam) in
  let verbal := Spec.problems "Verbal" table (ExamSession.mistake_ids exam) in
  let right := filter (fun id => Spec.correct_in exam id = true) in
  let wrong := filter (fun id => Spec.correct_in exam id = false) in
  quant_total_problems c' = quant_total_problems c + len quant /\
  quant_correct c' = quant_correct c + len (right quant) /\
  quant_incorrect c' = quant_incorrect c + len (wrong quant) /\
  quant_exam_ids c' =
    match quant with [] => quant_exam_ids c | _ => {[id]} ∪ quant_exam_ids c
    end /\
  verbal_total_problems c' = verbal_total_problems c + len verbal /\
  verbal_correct c' = verbal_correct c + len (right verbal) /\
  verbal_incorrect c' = verbal_incorrect c + len (wrong verbal) /\
  verbal_exam_ids c' =
    match verbal with [] => verbal_exam_ids c | _ => {[id]} ∪ verbal_exam_ids c
    end.
Proof.
  cbv zeta. unfold scan.
  pose proof (visit_tallied table exam (ExamSession.mistake_ids exam) c
                (mk_in_exam 0 0 0 0)) as Ht.
  destruct (foldl (visit table exam) (c, mk_in_exam 0 0 0 0)
              (ExamSession.mistake_ids exam)) as [c1 x1].
  cbn [fst snd] in Ht.
  destruct Ht as (H1 & H2 & H3 & H4 & H5 & H6 & H7 & H8 & H9 & H10).
  cbn [quant_in_exam verbal_in_exam] in H9, H10.
  assert (Hq : (quant_in_exam x1 >? 0) =
               match Spec.problems "Quant" table (ExamSession.mistake_ids exam)
               with [] => false | _ => true end).
  { rewrite H9. destruct (Spec.problems "Quant" table _); [reflexivity|].
    rewrite len_cons. pose proof (len_nonneg l). apply Z.gtb_lt. lia. }
  assert (Hv : (verbal_in_exam x1 >? 0) =
               match Spec.problems "Verbal" table (ExamSession.mistake_ids exam)
               with [] => false | _ => true end).
  { rewrite H10. destruct (Spec.problems "Verbal" table _); [reflexivity|].
    rewrite len_cons. pose proof (len_nonneg l). apply Z.gtb_lt. lia. }
  rewrite Hq, Hv.
  destruct (Spec.problems "Quant" table _), (Spec.problems "Verbal" table _);
    cbn [quant_total_problems quant_correct quant_incorrect quant_exam_ids
         verbal_total_problems verbal_correct verbal_incorrect
         verbal_exam_ids];
    repeat match goal with |- _ /\ _ => split end; congruence.
Qed.

(** All the sessions: the outer loop. *)
Lemma scan_all_spec (table : gmap Z GREMistake.t)
    (rows : list (Z * ExamSession.t)) (c : counters) :
  let c' := foldl (scan table) c rows in
  quant_total_problems c' =
    quant_total_problems c + Spec.total "Quant" table rows /\
  quant_correct c' = quant_correct c + Spec.correct "Quant" table rows /\
  quant_incorrect c' =
    quant_incorrect c + Spec.incorrect "Quant" table rows /\
  quant_exam_ids c' = Spec.exams_with "Quant" table rows ∪ quant_exam_ids c /\
  verbal_total_problems c' =
    verbal_total_problems c + Spec.total "Verbal" table rows /\
  verbal_correct c' = verbal_correct c + Spec.correct "Verbal" table rows /\
  verbal_incorrect c' =
    verbal_incorrect c + Spec.incorrect "Verbal" table rows /\
  verbal_exam_ids c' =
    Spec.exams_with "Verbal" table rows ∪ verbal_exam_ids c.
Proof.
  revert c. induction rows as [|[id exam] rows IH]; intros c; cbv zeta.
  - cbn. repeat match goal with |- _ /\ _ => split end;
      try lia; symmetry; apply (left_id_L ∅ (∪)).
  - cbn [foldl].
    destruct (IH (scan table c (id, exam)))
      as (H1 & H2 & H3 & H4 & H5 & H6 & H7 & H8).
    destruct (scan_spec table c id exam)
      as (K1 & K2 & K3 & K4 & K5 & K6 & K7 & K8).
    unfold Spec.total, Spec.correct, Spec.incorrect, Spec.exams_with in *.
    cbn [foldr fst snd].
    rewrite H1, H2, H3, H4, H5, H6, H7, H8, K1, K2, K3, K4, K5, K6, K7, K8.
    repeat match goal with |- _ /\ _ => split end; try lia.
    + destruct (Spec.problems "Quant" table _);
        [reflexivity|apply union_insert_swap].
    + destruct (Spec.problems "Verbal" table _);
        [reflexivity|apply union_insert_swap].
Qed.

Lemma len_filter_le {A} (P : A -> Prop) `{!forall a, Decision (P a)}
    (l : list A) :
  len (filter P l) <= len l.
Proof. unfold len. pose proof (length_filter P l). lia. Qed.

Lemma len_filter_bool {A} (f : A -> bool) (l : list A) :
  len (filter (fun a => f a = true) l) + len (filter (fun a => f a = false) l)
  = len l.
Proof.
  induction l as [|a l IH]; [reflexivity|].
  rewrite !filter_cons.
  destruct (f a) eqn:Hf;
    [rewrite (decide_True (P := true = true)) by reflexivity;
     rewrite (decide_False (P := true = false)) by discriminate
    |rewrite (decide_False (P := false = true)) by discriminate;
     rewrite (decide_True (P := false = false)) by reflexivity];
    rewrite !len_cons; lia.
Qed.

(** The tallies of the specification: the problems of a section are those
    recorded correct and the others, and none is counted twice. *)
Lemma tallies_add_up (section : string) (table : gmap Z GREMistake.t)
    (rows : list (Z * ExamSession.t)) :
  0 <= Spec.correct section table rows /\
  0 <= Spec.incorrect section table rows /\
  Spec.correct section table rows + Spec.incorrect section table rows =
    Spec.total section table rows.
Proof.
  induction rows as [|[id exam] rows (IH1 & IH2 & IH3)];
    [repeat split; reflexivity || (cbn; lia)|].
  unfold Spec.total, Spec.correct, Spec.incorrect in *. cbn [foldr snd].
  pose proof (len_filter_bool (Spec.correct_in exam)
                (Spec.problems section table (ExamSession.mistake_ids exam))).
  pose proof (len_nonneg
                (filter (fun id => Spec.correct_in exam id = true)
                   (Spec.problems section table
                      (ExamSession.mistake_ids exam)))).
  pose proof (len_nonneg
                (filter (fun id => Spec.correct_in exam id = false)
                   (Spec.problems section table
                      (ExamSession.mistake_ids exam)))).
  repeat split; lia.
Qed.

(** The percentage of the handler is that of the specification, and is
    always computed: no division by zero and no overflow. *)
Lemma percentage_always (correct total : Z) :
  0 <= correct <= total ->
  exists p v,
    percentage_of correct total = Ok p /\
    round_number1 p = Ok v /\
    Spec.percentage correct total = Ok v.
Proof.
  intros [Hc Hct]. unfold percentage_of, Spec.percentage.
  destruct (Z.eq_dec total 0) as [->|Hne].
  - exists (Int 0), (Int 0). repeat split.
  - replace (total >? 0) with true by (symmetry; apply Z.gtb_lt; lia).
    replace (total =? 0) with false by (symmetry; apply Z.eqb_neq; lia).
    destruct (truediv_ok correct total ltac:(lia) ltac:(lia)) as (q & -> & Hq).
    change (float_of_int 100) with (Ok (A := float) c100).
    cbn [mbind result_bind round_number1].
    destruct (round1_ok (mul q c100) (mul_c100_small q Hq)) as (y & Hy).
    exists (Float (mul q c100)), (Float y). cbn [round_number1].
    rewrite Hy. repeat split.
Qed.

(** What the handler returns, from the counters of the two loops. *)
Lemma get_exam_statistics_returns (s : db) :
  let c := foldl (scan (mistakes s)) zero (completed_exams s) in
  0 <= quant_correct c <= quant_total_problems c ->
  0 <= verbal_correct c <= verbal_total_problems c ->
  exists st,
    get_exam_statistics s = Ok st /\
    total_problems (quant st) = quant_total_problems c /\
    correct (quant st) = quant_correct c /\
    incorrect (quant st) = quant_incorrect c /\
    Spec.percentage (quant_correct c) (quant_total_problems c) =
      Ok (percentage (quant st)) /\
    exam_count (quant st) = Z.of_nat (size (quant_exam_ids c)) /\
    total_problems (verbal st) = verbal_total_problems c /\
    correct (verbal st) = verbal_correct c /\
    incorrect (verbal st) = verbal_incorrect c /\
    Spec.percentage (verbal_correct c) (verbal_total_problems c) =
      Ok (percentage (verbal st)) /\
    exam_count (verbal st) = Z.of_nat (size (verbal_exam_ids c)) /\
    total_exams st = len (completed_exams s).
Proof.
  intros c Hq Hv. unfold get_exam_statistics. fold c.
  destruct (percentage_always _ _ Hq) as (pq & vq & -> & Hrq & Hsq).
  destruct (percentage_always _ _ Hv) as (pv & vv & -> & Hrv & Hsv).
  cbn [mbind result_bind]. rewrite Hrq, Hrv. cbn [mbind result_bind].
  eexists. split; [reflexivity|].
  cbn [quant verbal total_exams total_problems correct incorrect percentage
       exam_count].
  repeat match goal with |- _ /\ _ => split end; try reflexivity;
    assumption.
Qed.

(** The two sections share no problem. *)
Lemma problems_disjoint (table : gmap Z GREMistake.t) (ids : list Z) :
  len (Spec.problems "Quant" table ids) + len (Spec.problems "Verbal" table ids)
  <= len ids.
Proof.
  unfold Spec.problems.
  induction ids as [|id ids IH];
    [rewrite !filter_nil; change (len (@nil Z)) with 0; lia|].
  rewrite !filter_cons, len_cons.
  repeat case_decide; rewrite ?len_cons; try lia.
  congruence.
Qed.

Lemma totals_within_fixed_sets (table : gmap Z GREMistake.t)
    (rows : list (Z * ExamSession.t)) :
  Spec.total "Quant" table rows + Spec.total "Verbal" table rows
  <= Spec.fixed_set_sizes rows.
Proof.
  induction rows as [|[id exam] rows IH];
    [unfold Spec.total, Spec.fixed_set_sizes; cbn [foldr]; lia|].
  unfold Spec.total, Spec.fixed_set_sizes in *. cbn [foldr snd].
  pose proof (problems_disjoint table (ExamSession.mistake_ids exam)). lia.
Qed.

(** An identifier with no stored mistake leaves the counters as they
    are. *)
Lemma visit_unknown (table : gmap Z GREMistake.t) (exam : ExamSession.t)
    (st : counters * in_exam) (mistake_id : Z) :
  table !! mistake_id = None -> visit table exam st mistake_id = st.
Proof. intros H. unfold visit. destruct st as [c x]. rewrite H. reflexivity. Qed.

Lemma visit_known_only (table : gmap Z GREMistake.t) (exam : ExamSession.t)
    (ids : list Z) (st : counters * in_exam) :
  foldl (visit table (Spec.known_only table exam)) st
    (filter (fun id => is_Some (table !! id)) ids) =
  foldl (visit table exam) st ids.
Proof.
  revert st. induction ids as [|id ids IH]; intros st; [reflexivity|].
  rewrite filter_cons. cbn [foldl]. case_decide as Hid.
  - cbn [foldl]. rewrite IH. reflexivity.
  - rewrite IH. f_equal. symmetry. apply visit_unknown.
    destruct (table !! id); [exfalso; eauto|reflexivity].
Qed.

(** The totals that the handler reports. *)
Lemma reported_totals (s : db) :
  exists st,
    get_exam_statistics s = Ok st /\
    total_problems (quant st) =
      Spec.total "Quant" (mistakes s) (completed_exams s) /\
    total_problems (verbal st) =
      Spec.total "Verbal" (mistakes s) (completed_exams s).
Proof.
  destruct (scan_all_spec (mistakes s) (completed_exams s) zero)
    as (H1 & H2 & _ & _ & H5 & H6 & _).
  cbn [zero quant_total_problems quant_correct verbal_total_problems
       verbal_correct] in *.
  destruct (tallies_add_up "Quant" (mistakes s) (completed_exams s))
    as (Q1 & Q2 & Q3).
  destruct (tallies_add_up "Verbal" (mistakes s) (completed_exams s))
    as (V1 & V2 & V3).
  destruct (get_exam_statistics_returns s)
    as (st & Hst & K1 & _ & _ & _ & _ & K6 & _); [lia|lia|].
  exists st. split; [exact Hst|]. rewrite K1, K6. split; lia.
Qed.

End Tallies.

(** ** The claims about the statistics *)

Section StatisticsClaims.
Import PyFloat Statistics Requests.

(** C7. [get_exam_statistics] always returns, and for each of the two
    sections it reports: as problems, the identifiers of the fixed sets of
    the completed sessions whose mistake is stored with that section; as
    correct, those whose recorded answer is true; as incorrect, all the
    others, so an identifier with no recorded answer counts as incorrect;
    and as percentage, correct / total * 100 rounded to one decimal place
    in float arithmetic, and the integer 0 when the total is 0. *)
Theorem get_exam_statistics_reports (s : db) :
  let table := mistakes s in
  let rows := completed_exams s in
  exists st,
    get_exam_statistics s = Ok st /\
    (forall exam mistake_id,
       ExamSession.answers exam !! pretty mistake_id = None ->
       Spec.correct_in exam mistake_id = false) /\
    (total_problems (quant st) = Spec.total "Quant" table rows /\
     correct (quant st) = Spec.correct "Quant" table rows /\
     incorrect (quant st) = Spec.incorrect "Quant" table rows /\
     correct (quant st) + incorrect (quant st) = total_problems (quant st) /\
     Spec.percentage (correct (quant st)) (total_problems (quant st)) =
       Ok (percentage (quant st))) /\
    (total_problems (verbal st) = Spec.total "Verbal" table rows /\
     correct (verbal st) = Spec.correct "Verbal" table rows /\
     incorrect (verbal st) = Spec.incorrect "Verbal" table rows /\
     correct (verbal st) + incorrect (verbal st) = total_problems (verbal st) /\
     Spec.percentage (correct (verbal st)) (total_problems (verbal st)) =
       Ok (percentage (verbal st))) /\
    total_exams st = len rows.
Proof.
  intros table rows.
  destruct (scan_all_spec table rows zero)
    as (H1 & H2 & H3 & _ & H5 & H6 & H7 & _).
  cbn [zero quant_total_problems quant_correct quant_incorrect
       verbal_total_problems verbal_correct verbal_incorrect] in *.
  destruct (tallies_add_up "Quant" table rows) as (Q1 & Q2 & Q3).
  destruct (tallies_add_up "Verbal" table rows) as (V1 & V2 & V3).
  destruct (get_exam_statistics_returns s)
    as (st & Hst & K1 & K2 & K3 & K4 & _ & K6 & K7 & K8 & K9 & _ & K11);
    fold table rows; [lia|lia|].
  fold table rows in K1, K2, K3, K4, K6, K7, K8, K9.
  exists st. split; [exact Hst|].
  split; [intros exam id Hnone; unfold Spec.correct_in; rewrite Hnone;
          reflexivity|].
  rewrite K1, K2, K3, K6, K7, K8, <- K4, <- K9.
  repeat match goal with |- _ /\ _ => split end;
    try reflexivity; try exact K11; lia.
Qed.

(** The last scenario of the specification, in a store that holds its two
    sessions: the Quant exam with three correct answers out of four is
    reported at 75.0, the Verbal exam with two correct answers, one
    incorrect and one problem unanswered at 50.0, and the exams are two. *)
Example two_exams_statistics :
  exists st,
    get_exam_statistics Sample.two_exams = Ok st /\
    (total_problems (quant st), correct (quant st), incorrect (quant st),
     percentage (quant st)) = (4, 3, 1, Float c75) /\
    (total_problems (verbal st), correct (verbal st), incorrect (verbal st),
     percentage (verbal st)) = (4, 2, 2, Float c50) /\
    total_exams st = 2.
Proof.
  eexists. split; [vm_compute; reflexivity|]. repeat split.
Qed.

(** C9. An identifier of a fixed set that matches no stored mistake leaves
    every counter of the handler as it is, those of the exam included, so it
    adds to no total, correct or incorrect count and to no set of exams: a
    session is scanned as the session without such identifiers is. The totals
    of the two sections are together at most the sizes of the fixed sets of
    the completed sessions, and less when a mistake was deleted after the
    exam was created: in the store that holds the sample exam of four
    problems and no mistake 3, the exam is reported with three. *)
Theorem unknown_mistakes_skipped :
  (forall table exam st mistake_id,
     table !! mistake_id = None -> visit table exam st mistake_id = st) /\
  (forall table c id exam,
     scan table c (id, Spec.known_only table exam) =
       scan table c (id, exam)) /\
  (forall s st,
     get_exam_statistics s = Ok st ->
     total_problems (quant st) + total_problems (verbal st)
     <= Spec.fixed_set_sizes (completed_exams s)) /\
  (exists exam st,
     exams Sample.one_deleted !! 0 = Some exam /\
     ExamSession.mistake_ids exam = [1; 2; 3; 4] /\
     mistakes Sample.one_deleted !! 3 = None /\
     get_exam_statistics Sample.one_deleted = Ok st /\
     (total_problems (quant st), correct (quant st), incorrect (quant st)) =
       (3, 2, 1) /\
     total_problems (verbal st) = 0 /\
     exam_count (quant st) = 1 /\
     Spec.fixed_set_sizes (completed_exams Sample.one_deleted) = 4).
Proof.
  split; [exact visit_unknown|]. split; [|split].
  - intros table c id exam. unfold scan.
    change (ExamSession.mistake_ids (Spec.known_only table exam))
      with (filter (fun id => is_Some (table !! id))
              (ExamSession.mistake_ids exam)).
    rewrite visit_known_only. reflexivity.
  - intros s st Hst.
    destruct (reported_totals s) as (st' & Hst' & Hq & Hv).
    rewrite Hst in Hst'. injection Hst' as <-. rewrite Hq, Hv.
    apply totals_within_fixed_sets.
  - eexists _, _. split; [vm_compute; reflexivity|].
    split; [reflexivity|]. split; [vm_compute; reflexivity|].
    split; [vm_compute; reflexivity|]. repeat split.
Qed.

End StatisticsClaims.

(** * Further properties of the handlers *)

(** ** Reading, deleting, creating and editing one mistake *)

Section OneMistake.
Import PyFloat PyDatetime Main Listing Editing.

(** X1. Deleting a stored mistake returns; from then on a read, a review, an
    update and a second deletion of the identifier fail with [404 Mistake
    not found], the other mistakes read as before, and no session is
    touched: a session whose fixed set names the mistake still names it.
    Deleting an identifier that is not stored fails with the same error. *)
Theorem delete_mistake_forgets (mistake_id : Z) (s : db) :
  let gone := HTTPException 404 "Mistake not found" in
  (mistakes s !! mistake_id = None -> delete_mistake mistake_id s = Raise gone) /\
  (is_Some (mistakes s !! mistake_id) ->
   exists s',
     delete_mistake mistake_id s = Ok (s', tt) /\
     get_mistake mistake_id s' = Raise gone /\
     delete_mistake mistake_id s' = Raise gone /\
     (forall now quality, submit_review now mistake_id quality s' = Raise gone) /\
     (forall body, update_mistake mistake_id body s' = Raise gone) /\
     (forall other, other <> mistake_id ->
        get_mistake other s' = get_mistake other s) /\
     exams s' = exams s).
Proof.
  cbv zeta. unfold delete_mistake, get_mistake, submit_review, update_mistake.
  split; [intros ->; reflexivity|]. intros [mistake ->].
  eexists. split; [reflexivity|]. cbn [mistakes exams].
  rewrite lookup_delete_eq.
  repeat match goal with |- _ /\ _ => split end; try reflexivity.
  intros other Hne. rewrite lookup_delete_ne by congruence. reflexivity.
Qed.

End OneMistake.

Section Today.
Import PyFloat PyDatetime Main Listing Editing.

(** Membership in the two lists of [get_today_reviews]. *)
Lemma today_elem (section : string) (now : datetime) (s : db) (id : Z)
    (m : GREMistake.t) :
  (id, m) ∈
    filter (fun '(_, m) => GREMistake.section m = section)
      (filter (fun '(_, m) =>
                 GREMistake.next_review_date m <= now /\
                 GREMistake.mastered m = false)
         (map_to_list (mistakes s))) <->
  mistakes s !! id = Some m /\
  GREMistake.next_review_date m <= now /\
  GREMistake.mastered m = false /\
  GREMistake.section m = section.
Proof.
  rewrite !list_elem_of_filter, elem_of_map_to_list. tauto.
Qed.

Lemma NoDup_fst_filter {A} (P : Z * A -> Prop) `{!forall x, Decision (P x)}
    (m : gmap Z A) :
  NoDup (fst <$> filter P (map_to_list m)).
Proof.
  apply NoDup_fmap_fst.
  - intros k x y Hx Hy. apply list_elem_of_filter in Hx as [_ Hx].
    apply list_elem_of_filter in Hy as [_ Hy].
    apply elem_of_map_to_list in Hx, Hy. congruence.
  - apply NoDup_filter, NoDup_map_to_list.
Qed.

(** X2. [get_today_reviews] lists a mistake under "quant" (under "verbal")
    exactly when it is stored with the section "Quant" ("Verbal"), is not
    mastered, and its review date is not after [now]. So a mastered mistake
    is never listed, a mistake of any other section is in neither list, no
    mistake is listed twice, in one list or across the two, and a mistake
    listed at one instant stays listed at every later instant until it is
    written again. *)
Theorem get_today_reviews_lists (now : datetime) (s : db) :
  let due (section : string) (id : Z) (m : GREMistake.t) :=
    mistakes s !! id = Some m /\
    GREMistake.next_review_date m <= now /\
    GREMistake.mastered m = false /\
    GREMistake.section m = section in
  (forall id m,
     (id, m) ∈ quant (get_today_reviews now s) <-> due "Quant" id m) /\
  (forall id m,
     (id, m) ∈ verbal (get_today_reviews now s) <-> due "Verbal" id m) /\
  NoDup (fst <$> (quant (get_today_reviews now s) ++
                  verbal (get_today_reviews now s))) /\
  (forall later, now <= later ->
     quant (get_today_reviews now s) ⊆ quant (get_today_reviews later s) /\
     verbal (get_today_reviews now s) ⊆ verbal (get_today_reviews later s)).
Proof.
  cbv zeta. unfold get_today_reviews. cbn [quant verbal].
  split; [intros id m; apply today_elem|].
  split; [intros id m; apply today_elem|]. split.
  - rewrite fmap_app. apply NoDup_app.
    rewrite !list_filter_filter.
    split; [apply NoDup_fst_filter|]. split; [|apply NoDup_fst_filter].
    intros id Hq Hv.
    apply list_elem_of_fmap in Hq as ([id1 m1] & -> & Hq).
    apply list_elem_of_fmap in Hv as ([id2 m2] & Heq & Hv).
    cbn in Heq. subst id2.
    apply list_elem_of_filter in Hq as [[Hs1 _] H1].
    apply list_elem_of_filter in Hv as [[Hs2 _] H2].
    apply elem_of_map_to_list in H1, H2.
    assert (m1 = m2) by congruence. subst m2. rewrite Hs1 in Hs2.
    discriminate.
  - intros later Hle. split; intros [id m] Hin;
      apply today_elem in Hin as (H1 & H2 & H3 & H4);
      apply today_elem; repeat split; try assumption; lia.
Qed.

End Today.

Section Edits.
Import PyFloat PyDatetime Main Listing Editing.

(** X3. [create_mistake] always returns. The new row is stored under a key that
    no row had, so no mistake is overwritten and every stored mistake reads
    as before; it reads back as returned; it carries the defaults of the
    schedule (interval 0, ease factor 2.5, no repetition, not mastered, no
    attempt) and the review date read by the database; an empty sub-topic
    is stored as null; sessions are untouched; and [get_today_reviews]
    lists it from the instant [db_now] on, under the list of its section. *)
Theorem create_mistake_stores (db_now : datetime)
    (body : GREMistakeCreate.t) (s : db) :
  exists id row,
    let s' := mk_db (<[id := row]> (mistakes s)) (exams s) in
    create_mistake db_now body s = Ok (s', (id, row)) /\
    mistakes s !! id = None /\
    get_mistake id s' = Ok row /\
    (forall other, is_Some (mistakes s !! other) ->
       get_mistake other s' = get_mistake other s) /\
    (GREMistake.interval row, GREMistake.ease_factor row,
     GREMistake.repetition_count row, GREMistake.mastered row,
     GREMistake.total_attempts row, GREMistake.got_correct row) =
      (0, c2_5, 0, false, Some 0, false) /\
    GREMistake.next_review_date row = db_now /\
    GREMistake.section row = GREMistakeCreate.section body /\
    GREMistake.sub_topic row <> Some "" /\
    (forall now,
       ((id, row) ∈ quant (get_today_reviews now s') <->
        db_now <= now /\ GREMistakeCreate.section body = "Quant") /\
       ((id, row) ∈ verbal (get_today_reviews now s') <->
        db_now <= now /\ GREMistakeCreate.section body = "Verbal")).
Proof.
  eexists _, _. cbv zeta. split; [reflexivity|].
  set (id := fresh (dom (mistakes s))).
  assert (Hfresh : mistakes s !! id = None)
    by apply not_elem_of_dom, is_fresh.
  split; [exact Hfresh|].
  unfold get_mistake. cbn [mistakes exams]. rewrite lookup_insert_eq.
  split; [reflexivity|]. split.
  { intros other [m Hm]. rewrite lookup_insert_ne by congruence.
    reflexivity. }
  split; [reflexivity|]. split; [reflexivity|]. split; [reflexivity|].
  split.
  { cbn. destruct (GREMistakeCreate.sub_topic body) as [[|c v]|];
      cbn; congruence. }
  intros now. unfold get_today_reviews. cbn [quant verbal].
  rewrite !today_elem. cbn [mistakes]. rewrite lookup_insert_eq. cbn.
  split; tauto.
Qed.

(** An update of a mistake that is not stored. *)
Lemma update_of_unknown (mistake_id : Z) (body : GREMistakeCreate.t)
    (s : db) :
  mistakes s !! mistake_id = None ->
  update_mistake mistake_id body s =
    Raise (HTTPException 404 "Mistake not found").
Proof. intros H. unfold update_mistake. rewrite H. reflexivity. Qed.

(** X4. [update_mistake] of an identifier that is not stored fails with
    [404 Mistake not found] and writes nothing. On a stored mistake it
    returns, and the new row has the described columns of the body, an
    empty sub-topic stored as null, and the schedule of the old row:
    review date, interval, ease factor, repetition count, mastery, attempts
    and the correct flag are kept, for a mastered mistake too. The other
    mistakes and all the sessions are untouched, and the same update a
    second time changes nothing. *)
Theorem update_mistake_keeps_schedule (mistake_id : Z)
    (body : GREMistakeCreate.t) (s : db) :
  (mistakes s !! mistake_id = None ->
   update_mistake mistake_id body s =
     Raise (HTTPException 404 "Mistake not found") /\
   Api.handle s (Api.UpdateMistake mistake_id body) = s) /\
  (forall old, mistakes s !! mistake_id = Some old ->
   exists new,
     let s' := mk_db (<[mistake_id := new]> (mistakes s)) (exams s) in
     update_mistake mistake_id body s = Ok (s', new) /\
     (GREMistake.section new, GREMistake.topic new,
      GREMistake.kmf_section new, GREMistake.kmf_problem_set new,
      GREMistake.error_type new) =
       (GREMistakeCreate.section body, GREMistakeCreate.topic body,
        GREMistakeCreate.kmf_section body,
        GREMistakeCreate.kmf_problem_set body,
        GREMistakeCreate.error_type body) /\
     GREMistake.sub_topic new =
       (if decide (GREMistakeCreate.sub_topic body = Some "") then None
        else GREMistakeCreate.sub_topic body) /\
     (GREMistake.next_review_date new, GREMistake.interval new,
      GREMistake.ease_factor new, GREMistake.repetition_count new,
      GREMistake.mastered new, GREMistake.total_attempts new,
      GREMistake.got_correct new) =
       (GREMistake.next_review_date old, GREMistake.interval old,
        GREMistake.ease_factor old, GREMistake.repetition_count old,
        GREMistake.mastered old, GREMistake.total_attempts old,
        GREMistake.got_correct old) /\
     (forall other, other <> mistake_id ->
        mistakes s' !! other = mistakes s !! other) /\
     update_mistake mistake_id body s' = Ok (s', new)).
Proof.
  split.
  - intros Hnone. pose proof (update_of_unknown mistake_id body s Hnone) as H.
    split; [exact H|]. cbn [Api.handle]. rewrite H. reflexivity.
  - intros old Hold. unfold update_mistake. rewrite Hold.
    eexists. cbv zeta. split; [reflexivity|]. split; [reflexivity|].
    split.
    { cbn. destruct (GREMistakeCreate.sub_topic body) as [[|c v]|];
        reflexivity. }
    split; [reflexivity|]. split.
    { intros other Hne. cbn [mistakes].
      rewrite lookup_insert_ne by congruence. reflexivity. }
    cbn [mistakes exams]. rewrite lookup_insert_eq, insert_insert_eq.
    reflexivity.
Qed.

(** An update of mistake 1 of the sample table. *)
Lemma update_mistake_keeps_schedule_witness :
  exists s' new,
    update_mistake 1 (GREMistakeCreate.mk "Verbal" "TC" (Some "") None None
                        "Time") Sample.store = Ok (s', new) /\
    GREMistake.sub_topic new = None /\
    GREMistake.ease_factor new = c2_5.
Proof.
  destruct (update_mistake_keeps_schedule 1
              (GREMistakeCreate.mk "Verbal" "TC" (Some "") None None "Time")
              Sample.store) as [_ H].
  destruct (H (Sample.mistake "Quant") eq_refl)
    as (new & Hok & _ & Hsub & Hsched & _).
  eexists _, new. split; [exact Hok|]. split; [exact Hsub|].
  injection Hsched as _ _ -> _ _ _ _. reflexivity.
Defined.

End Edits.

(** ** The filtered listing of mistakes *)

Section Query.
Import PyFloat PyDatetime Main Listing.

Lemma if_truthy_spec (value column : option string) :
  if_truthy value column = true <->
  forall v, value = Some v -> v <> "" -> column = Some v.
Proof.
  destruct value as [[|c v]|]; cbn [if_truthy].
  - split; [intros _ v [= <-] H; congruence|reflexivity].
  - rewrite bool_decide_eq_true. split.
    + intros -> v' [= <-] _. reflexivity.
    + intros H. apply H; [reflexivity|discriminate].
  - split; [intros _ v [=]|reflexivity].
Qed.

Lemma if_given_spec {A} `{EqDecision A} (value column : option A) :
  if_given value column = true <->
  forall v, value = Some v -> column = Some v.
Proof.
  destruct value as [v|]; cbn [if_given].
  - rewrite bool_decide_eq_true. split;
      [intros -> v' [= <-]; reflexivity|intros H; apply H; reflexivity].
  - split; [intros _ v [=]|reflexivity].
Qed.

Lemma if_truthy_blank (value column : option string) :
  if_truthy (truthy_string value) column = if_truthy value column.
Proof. destruct value as [[|c v]|]; reflexivity. Qed.

Lemma filter_all {A} (P : A -> Prop) `{!forall x, Decision (P x)}
    (l : list A) :
  Forall P l -> filter P l = l.
Proof.
  induction 1 as [|x l Hx _ IH]; [reflexivity|].
  rewrite filter_cons, decide_True by assumption. congruence.
Qed.

Lemma filter_split {A} (P Q R : A -> Prop) `{!forall x, Decision (P x)}
    `{!forall x, Decision (Q x)} `{!forall x, Decision (R x)} (l : list A) :
  (forall x, (R x <-> P x \/ Q x) /\ ~ (P x /\ Q x)) ->
  filter P l ++ filter Q l ≡ₚ filter R l.
Proof.
  intros Hx. induction l as [|x l IH]; [reflexivity|].
  rewrite !filter_cons. destruct (Hx x) as [Hr Hn].
  repeat case_decide; try tauto; cbn; rewrite <- ?IH; try reflexivity.
  symmetry. apply Permutation_middle.
Qed.

Lemma query_elem (q : MistakeQuery.t) (s : db) (id : Z) (m : GREMistake.t) :
  (id, m) ∈ query_mistakes q s <->
  mistakes s !! id = Some m /\ selected q m = true.
Proof.
  unfold query_mistakes. rewrite list_elem_of_filter, elem_of_map_to_list.
  tauto.
Qed.

(** X5. The rows of the query. With no parameter every row is listed. A row is
    listed exactly when it is stored and agrees with every parameter that
    is given: a string parameter that is empty is no filter, as one that is
    absent, and one that is not empty needs the column to hold that very
    string, so a null sub-topic fits no sub-topic asked for; a KMF number is
    a filter whatever the number, zero included, and [mastered] is a filter
    when it is false as when it is true, the rows that are mastered and
    those that are not being together all the rows of the query without
    it. *)
Theorem query_mistakes_filters (s : db) :
  query_mistakes (MistakeQuery.mk None None None None None None None) s =
    map_to_list (mistakes s) /\
  (forall q id m,
     (id, m) ∈ query_mistakes q s <->
     mistakes s !! id = Some m /\
     (forall v, MistakeQuery.section q = Some v -> v <> "" ->
                GREMistake.section m = v) /\
     (forall v, MistakeQuery.topic q = Some v -> v <> "" ->
                GREMistake.topic m = v) /\
     (forall v, MistakeQuery.sub_topic q = Some v -> v <> "" ->
                GREMistake.sub_topic m = Some v) /\
     (forall v, MistakeQuery.error_type q = Some v -> v <> "" ->
                GREMistake.error_type m = v) /\
     (forall n, MistakeQuery.kmf_section q = Some n ->
                GREMistake.kmf_section m = Some n) /\
     (forall n, MistakeQuery.kmf_problem_set q = Some n ->
                GREMistake.kmf_problem_set m = Some n) /\
     (forall b, MistakeQuery.mastered q = Some b ->
                GREMistake.mastered m = b)) /\
  (forall section topic sub_topic error_type kmf_section kmf_problem_set
          mastered,
     query_mistakes
       (MistakeQuery.mk (truthy_string section) (truthy_string topic)
          (truthy_string sub_topic) (truthy_string error_type)
          kmf_section kmf_problem_set mastered) s =
     query_mistakes
       (MistakeQuery.mk section topic sub_topic error_type
          kmf_section kmf_problem_set mastered) s) /\
  (forall section topic sub_topic error_type kmf_section kmf_problem_set,
     let q := MistakeQuery.mk section topic sub_topic error_type
                kmf_section kmf_problem_set in
     query_mistakes (q (Some true)) s ++ query_mistakes (q (Some false)) s
     ≡ₚ query_mistakes (q None) s).
Proof.
  split; [|split; [|split]].
  - unfold query_mistakes. apply filter_all.
    apply Forall_forall. intros [id m] _. reflexivity.
  - intros q id m. rewrite query_elem. unfold selected.
    rewrite !andb_true_iff, !if_truthy_spec, !if_given_spec.
    split.
    + intros (Hm & (((((H1 & H2) & H3) & H4) & H5) & H6) & H7).
      split; [exact Hm|].
      split; [intros v Hv Hne; specialize (H1 v Hv Hne); congruence|].
      split; [intros v Hv Hne; specialize (H2 v Hv Hne); congruence|].
      split; [exact H3|].
      split; [intros v Hv Hne; specialize (H4 v Hv Hne); congruence|].
      split; [exact H5|]. split; [exact H6|].
      intros b Hb. specialize (H7 b Hb). congruence.
    + intros (Hm & H1 & H2 & H3 & H4 & H5 & H6 & H7).
      split; [exact Hm|].
      repeat match goal with |- _ /\ _ => split end;
        try assumption; intros v Hv; try intros Hne; f_equal; eauto.
  - intros. unfold query_mistakes. apply list_filter_iff.
    intros [id m]. unfold selected.
    cbn [MistakeQuery.section MistakeQuery.topic MistakeQuery.sub_topic
         MistakeQuery.error_type MistakeQuery.kmf_section
         MistakeQuery.kmf_problem_set MistakeQuery.mastered].
    rewrite !if_truthy_blank. reflexivity.
  - intros. unfold query_mistakes. apply filter_split.
    intros [id m]. unfold q, selected.
    cbn [MistakeQuery.section MistakeQuery.topic MistakeQuery.sub_topic
         MistakeQuery.error_type MistakeQuery.kmf_section
         MistakeQuery.kmf_problem_set MistakeQuery.mastered if_given].
    rewrite !andb_true_iff, !bool_decide_eq_true.
    destruct (GREMistake.mastered m); split; try tauto;
      intros [[_ ?] [_ ?]]; discriminate.
Qed.

End Query.

(** ** Creating an exam session *)

Section Creation.
Import PyFloat PyDatetime Main Listing Statistics.

Lemma in_filter_spec {A} `{EqDecision A} (values : option (list A))
    (column : option A) :
  in_filter values column = true <->
  forall vs, values = Some vs -> vs <> [] ->
             exists c, column = Some c /\ c ∈ vs.
Proof.
  destruct values as [[|v vs]|]; cbn [in_filter].
  - split; [intros _ ? [= <-] ?; congruence|reflexivity].
  - destruct column as [c|].
    + rewrite bool_decide_eq_true. split.
      * intros Hin ? [= <-] _. eauto.
      * intros Hc. destruct (Hc (v :: vs) eq_refl ltac:(discriminate))
          as (c' & [= <-] & Hin). exact Hin.
    + split; [discriminate|]. intros Hc.
      destruct (Hc (v :: vs) eq_refl ltac:(discriminate)) as (c' & [=] & _).
  - split; [intros _ ? [=]|reflexivity].
Qed.

(** What [create_exam_session] returns when a mistake matches. *)
Lemma create_exam_session_found (exam_config : ExamSessionCreate.t)
    (s : db) :
  let found :=
    filter (fun '(_, m) => matches exam_config m = true)
      (map_to_list (mistakes s)) in
  found <> [] ->
  exists exam,
    create_exam_session exam_config s =
      Ok (mk_db (mistakes s) (<[fresh (dom (exams s)) := exam]> (exams s)),
          (fresh (dom (exams s)), exam)) /\
    ExamSession.mistake_ids exam = fst <$> found /\
    ExamSession.total_problems exam = len found /\
    (ExamSession.correct_count exam, ExamSession.incorrect_count exam,
     ExamSession.completed_at exam, ExamSession.answers exam) =
      (0, 0, None, ∅) /\
    (ExamSession.section exam, ExamSession.topic exam,
     ExamSession.sub_topic exam, ExamSession.error_type exam,
     ExamSession.kmf_section exam, ExamSession.kmf_problem_set exam,
     ExamSession.timer_minutes exam) =
      (only (ExamSessionCreate.sections exam_config),
       only (ExamSessionCreate.topics exam_config),
       only (ExamSessionCreate.sub_topics exam_config),
       only (ExamSessionCreate.error_types exam_config),
       only (ExamSessionCreate.kmf_sections exam_config),
       only (ExamSessionCreate.kmf_problem_sets exam_config),
       ExamSessionCreate.timer_minutes exam_config).
Proof.
  cbv zeta. unfold create_exam_session.
  destruct (filter _ (map_to_list (mistakes s))) as [|row rows];
    [congruence|]. intros _.
  eexists. split; [reflexivity|]. repeat split.
Qed.

Lemma create_exam_session_none (exam_config : ExamSessionCreate.t)
    (s : db) :
  filter (fun '(_, m) => matches exam_config m = true)
    (map_to_list (mistakes s)) = [] ->
  create_exam_session exam_config s =
    Raise (HTTPException 400
      "No mistakes found matching the criteria. Try removing some filters or add more mistakes to the database.").
Proof. intros H. unfold create_exam_session. rewrite H. reflexivity. Qed.


Lemma matches_asked (exam_config : ExamSessionCreate.t) (m : GREMistake.t) :
  matches exam_config m = true <-> asked exam_config m.
Proof.
  unfold matches, asked. rewrite !andb_true_iff, !in_filter_spec.
  split.
  - intros (((((H1 & H2) & H3) & H4) & H5) & H6).
    repeat match goal with |- _ /\ _ => split end; try assumption;
      intros vs Hvs Hne;
      [destruct (H1 vs Hvs Hne) as (c & [= <-] & Hc)
      |destruct (H2 vs Hvs Hne) as (c & [= <-] & Hc)
      |destruct (H4 vs Hvs Hne) as (c & [= <-] & Hc)]; exact Hc.
  - intros (H1 & H2 & H3 & H4 & H5 & H6).
    repeat match goal with |- _ /\ _ => split end; try assumption;
      intros vs Hvs Hne; eauto.
Qed.

(** X6. [create_exam_session] is refused with the error 400 exactly when no
    stored mistake matches the filters, and writes nothing then. Otherwise it
    returns a session stored under a key that no session had, which reads
    back as returned and leaves the other sessions and all the mistakes as
    they were; its fixed set names the stored mistakes that match, each one
    once, and [total_problems] is their number; it has no answer, counters
    0 and no completion date. A list that is absent or empty filters
    nothing: with all six so, the session takes every stored mistake. *)
Theorem create_exam_session_selects (exam_config : ExamSessionCreate.t)
    (s : db) :
  ((forall id m, mistakes s !! id = Some m -> ~ asked exam_config m) ->
   create_exam_session exam_config s =
     Raise (HTTPException 400
       "No mistakes found matching the criteria. Try removing some filters or add more mistakes to the database.")) /\
  ((exists id m, mistakes s !! id = Some m /\ asked exam_config m) ->
   exists exam_id exam,
     let s' := mk_db (mistakes s) (<[exam_id := exam]> (exams s)) in
     create_exam_session exam_config s = Ok (s', (exam_id, exam)) /\
     exams s !! exam_id = None /\
     get_exam_session exam_id s' = Ok exam /\
     (forall other, other <> exam_id ->
        get_exam_session other s' = get_exam_session other s) /\
     (forall id,
        id ∈ ExamSession.mistake_ids exam <->
        exists m, mistakes s !! id = Some m /\ asked exam_config m) /\
     NoDup (ExamSession.mistake_ids exam) /\
     ExamSession.total_problems exam = len (ExamSession.mistake_ids exam) /\
     0 < ExamSession.total_problems exam /\
     (ExamSession.correct_count exam, ExamSession.incorrect_count exam,
      ExamSession.completed_at exam, ExamSession.answers exam) =
       (0, 0, None, ∅) /\
     ((forall vs, ExamSessionCreate.sections exam_config = Some vs -> vs = []) ->
      (forall vs, ExamSessionCreate.topics exam_config = Some vs -> vs = []) ->
      (forall vs, ExamSessionCreate.sub_topics exam_config = Some vs ->
                  vs = []) ->
      (forall vs, ExamSessionCreate.error_types exam_config = Some vs ->
                  vs = []) ->
      (forall vs, ExamSessionCreate.kmf_sections exam_config = Some vs ->
                  vs = []) ->
      (forall vs, ExamSessionCreate.kmf_problem_sets exam_config = Some vs ->
                  vs = []) ->
      ExamSession.total_problems exam = Z.of_nat (size (mistakes s)) /\
      forall id, id ∈ ExamSession.mistake_ids exam <->
                 is_Some (mistakes s !! id))).
Proof.
  set (found := filter (fun '(_, m) => matches exam_config m = true)
                  (map_to_list (mistakes s))).
  assert (Hfound : forall id m,
            (id, m) ∈ found <->
            mistakes s !! id = Some m /\ asked exam_config m).
  { intros id m. unfold found.
    rewrite list_elem_of_filter, elem_of_map_to_list, matches_asked. tauto. }
  split.
  - intros Hnone. apply create_exam_session_none. fold found.
    destruct found as [|[id m] rows] eqn:Hf; [reflexivity|].
    destruct (Hfound id m) as [H _].
    destruct H as [Hm Ha]; [left|]. destruct (Hnone id m Hm Ha).
  - intros (id0 & m0 & Hm0 & Ha0).
    assert (Hne : found <> []).
    { intros Hnil. pose proof (proj2 (Hfound id0 m0) (conj Hm0 Ha0)) as Hin.
      rewrite Hnil in Hin. apply elem_of_nil in Hin. exact Hin. }
    destruct (create_exam_session_found exam_config s Hne)
      as (exam & Hok & Hids & Htotal & Hnew & _). fold found in Hids, Htotal.
    exists (fresh (dom (exams s))), exam. cbv zeta.
    split; [exact Hok|].
    split; [apply not_elem_of_dom, is_fresh|].
    unfold get_exam_session. cbn [exams]. rewrite lookup_insert_eq.
    split; [reflexivity|].
    split; [intros other Ho; rewrite lookup_insert_ne by congruence;
            reflexivity|].
    assert (Hmem : forall id,
              id ∈ ExamSession.mistake_ids exam <->
              exists m, mistakes s !! id = Some m /\ asked exam_config m).
    { intros id. rewrite Hids, list_elem_of_fmap. split.
      - intros ([id' m] & -> & Hin). exists m. apply Hfound, Hin.
      - intros (m & Hm). exists (id, m). split; [reflexivity|].
        apply Hfound, Hm. }
    split; [exact Hmem|].
    split; [rewrite Hids; apply NoDup_fst_filter|].
    split; [rewrite Htotal, Hids; unfold len; rewrite length_fmap;
            reflexivity|].
    split.
    { rewrite Htotal. destruct found; [congruence|]. rewrite len_cons.
      pose proof (len_nonneg found). lia. }
    split; [exact Hnew|].
    intros H1 H2 H3 H4 H5 H6.
    assert (Hall : forall m, asked exam_config m).
    { intros m. unfold asked.
      repeat match goal with |- _ /\ _ => split end;
        intros vs Hvs Hvne; exfalso; apply Hvne; eauto. }
    assert (Hfull : found = map_to_list (mistakes s)).
    { unfold found. apply filter_all, Forall_forall. intros [id m] _.
      apply matches_asked, Hall. }
    split.
    + rewrite Htotal, Hfull. unfold len. rewrite length_map_to_list.
      reflexivity.
    + intros id. rewrite Hmem. split.
      * intros (m & Hm & _). eauto.
      * intros [m Hm]. exists m. split; [exact Hm|apply Hall].
Qed.

(** The sample table and a request for the Quant mistakes of KMF section
    3: none matches, and the request is refused. With the section alone
    the four Quant mistakes are taken. *)
Example create_exam_session_sample :
  create_exam_session
    (ExamSessionCreate.mk (Some ["Quant"]) None None None (Some [3]) None
       None) Sample.store =
    Raise (HTTPException 400
      "No mistakes found matching the criteria. Try removing some filters or add more mistakes to the database.") /\
  exists s' exam,
    create_exam_session (Sample.only_section "Quant") Sample.store =
      Ok (s', (0, exam)) /\
    ExamSession.total_problems exam = 4 /\
    forall id, id ∈ ExamSession.mistake_ids exam <-> 1 <= id <= 4.
Proof.
  split; [vm_compute; reflexivity|]. eexists _, _.
  split; [vm_compute; reflexivity|]. split; [reflexivity|].
  intros id. cbn [ExamSession.mistake_ids].
  rewrite !elem_of_cons, elem_of_nil. lia.
Qed.

End Creation.

(** ** The options of the filters, the listing and the exams *)

Section Options.
Import PyFloat PyDatetime Main Listing Statistics.

Lemma in_filter_one_string (value column : option string) :
  in_filter ((fun v => [v]) <$> truthy_string value) column =
    if_truthy value column.
Proof.
  destruct value as [[|c v]|]; cbn; try reflexivity.
  destruct column as [x|]; [|reflexivity].
  apply bool_decide_ext. rewrite list_elem_of_singleton.
  split; congruence.
Qed.

Lemma in_filter_one {A} `{EqDecision A} (value column : option A) :
  in_filter ((fun v => [v]) <$> value) column = if_given value column.
Proof.
  destruct value as [v|]; cbn; try reflexivity.
  destruct column as [x|]; [|reflexivity].
  apply bool_decide_ext. rewrite list_elem_of_singleton.
  split; congruence.
Qed.

(** The rows that match the request made from a listing are the rows of
    the listing. *)
Lemma exam_of_query_rows
    (section topic sub_topic error_type : option string)
    (kmf_section kmf_problem_set : option Z) (s : db) :
  let q := MistakeQuery.mk section topic sub_topic error_type kmf_section
             kmf_problem_set None in
  filter (fun '(_, m) => matches (exam_of_query q) m = true)
    (map_to_list (mistakes s)) = query_mistakes q s.
Proof.
  intros q. unfold query_mistakes. apply list_filter_iff. intros [id m].
  unfold matches, selected, exam_of_query, q.
  cbn [ExamSessionCreate.sections ExamSessionCreate.topics
       ExamSessionCreate.sub_topics ExamSessionCreate.error_types
       ExamSessionCreate.kmf_sections ExamSessionCreate.kmf_problem_sets
       MistakeQuery.section MistakeQuery.topic MistakeQuery.sub_topic
       MistakeQuery.error_type MistakeQuery.kmf_section
       MistakeQuery.kmf_problem_set MistakeQuery.mastered].
  rewrite !in_filter_one_string, !in_filter_one. cbn [if_given].
  rewrite andb_true_r. reflexivity.
Qed.

(** X7. An exam asked for with one value in each list, no string among
    them empty, takes the mistakes that the listing shows for these values
    as its parameters, mastered or not: the request is refused exactly when
    the listing is empty, and otherwise the fixed set of the session is the
    keys of the rows of the listing, whatever the order of the two, and
    the session is labelled with the values. The empty string parts the
    two: as the section of a listing it filters nothing, and as the one
    section of an exam it takes the mistakes whose section is the empty
    string, so the exam is refused when there is none, whatever the
    listing shows. *)
Theorem exam_takes_the_listing
    (section topic sub_topic error_type : option string)
    (kmf_section kmf_problem_set : option Z) (s : db) :
  let q := MistakeQuery.mk section topic sub_topic error_type kmf_section
             kmf_problem_set None in
  let blank := MistakeQuery.mk (Some "") None None None None None None in
  let refused :=
    Raise (HTTPException 400
      "No mistakes found matching the criteria. Try removing some filters or add more mistakes to the database.") in
  ((Some "" ∉ [section; topic; sub_topic; error_type]) ->
   match create_exam_session (exam_of_values q) s with
   | Raise e =>
       query_mistakes q s = [] /\
       create_exam_session (exam_of_values q) s = refused
   | Ok (s', (exam_id, exam)) =>
       query_mistakes q s <> [] /\
       ExamSession.mistake_ids exam ≡ₚ fst <$> query_mistakes q s /\
       ExamSession.total_problems exam = len (query_mistakes q s) /\
       (ExamSession.section exam, ExamSession.topic exam,
        ExamSession.sub_topic exam, ExamSession.error_type exam,
        ExamSession.kmf_section exam, ExamSession.kmf_problem_set exam) =
         (section, topic, sub_topic, error_type, kmf_section,
          kmf_problem_set)
   end) /\
  query_mistakes blank s = map_to_list (mistakes s) /\
  (create_exam_session (exam_of_values blank) s = refused <->
   forall id m, mistakes s !! id = Some m -> GREMistake.section m <> "") /\
  (forall s' exam_id exam,
     create_exam_session (exam_of_values blank) s =
       Ok (s', (exam_id, exam)) ->
     forall id,
       id ∈ ExamSession.mistake_ids exam <->
       exists m, mistakes s !! id = Some m /\ GREMistake.section m = "").
Proof.
  intros q blank refused. split; [|split; [|split]].
  - intros Hfull.
    assert (Hsame : exam_of_values q = exam_of_query q).
    { unfold exam_of_values, exam_of_query, q.
      cbn [MistakeQuery.section MistakeQuery.topic MistakeQuery.sub_topic
           MistakeQuery.error_type MistakeQuery.kmf_section
           MistakeQuery.kmf_problem_set].
      assert (Hv : forall v, v ∈ [section; topic; sub_topic; error_type] ->
                             truthy_string v = v).
      { intros [[|c v]|] Hin; try reflexivity. contradiction. }
      rewrite !Hv by (rewrite !elem_of_cons; tauto). reflexivity. }
    pose proof (exam_of_query_rows section topic sub_topic error_type
                  kmf_section kmf_problem_set s) as Hrows.
    cbv zeta in Hrows. fold q in Hrows. rewrite <- Hsame in Hrows.
    clear Hsame.
    destruct (query_mistakes q s) as [|row rows] eqn:Hq.
    + rewrite (create_exam_session_none _ _ Hrows). split; reflexivity.
    + destruct (create_exam_session_found (exam_of_values q) s)
        as (exam & -> & Hids & Htotal & _ & Hlabel);
        [rewrite Hrows; discriminate|].
      rewrite Hrows in Hids, Htotal.
      split; [discriminate|]. split; [rewrite Hids; reflexivity|].
      split; [exact Htotal|].
      injection Hlabel as -> -> -> -> -> -> _.
      unfold exam_of_values, q.
      cbn [ExamSessionCreate.sections ExamSessionCreate.topics
           ExamSessionCreate.sub_topics ExamSessionCreate.error_types
           ExamSessionCreate.kmf_sections ExamSessionCreate.kmf_problem_sets
           MistakeQuery.section MistakeQuery.topic MistakeQuery.sub_topic
           MistakeQuery.error_type MistakeQuery.kmf_section
           MistakeQuery.kmf_problem_set].
      destruct section, topic, sub_topic, error_type, kmf_section,
        kmf_problem_set; reflexivity.
  - unfold query_mistakes. apply filter_all.
    apply Forall_forall. intros [id m] _. reflexivity.
  - set (found := filter (fun '(_, m) =>
                            matches (exam_of_values blank) m = true)
                    (map_to_list (mistakes s))).
    assert (Hin : forall id m,
              (id, m) ∈ found <->
              mistakes s !! id = Some m /\ GREMistake.section m = "").
    { intros id m. unfold found.
      rewrite list_elem_of_filter, elem_of_map_to_list.
      unfold matches, exam_of_values, blank. cbn.
      rewrite !andb_true_r, bool_decide_eq_true, list_elem_of_singleton.
      tauto. }
    split.
    + intros Hr id m Hm Hblank.
      destruct found as [|row rows] eqn:Hfound.
      * pose proof (proj2 (Hin id m) (conj Hm Hblank)) as Hx.
        apply elem_of_nil in Hx. exact Hx.
      * destruct (create_exam_session_found (exam_of_values blank) s)
          as (exam & Hok & _); [fold found; rewrite Hfound; discriminate|].
        rewrite Hok in Hr. discriminate.
    + intros Hnone. apply create_exam_session_none. fold found.
      destruct found as [|[id m] rows]; [reflexivity|].
      destruct (proj1 (Hin id m) ltac:(left)) as [Hm Hblank].
      destruct (Hnone id m Hm Hblank).
  - intros s' exam_id exam Hok id.
    set (found := filter (fun '(_, m) =>
                            matches (exam_of_values blank) m = true)
                    (map_to_list (mistakes s))) in *.
    assert (Hne : found <> []).
    { intros Hnil. rewrite (create_exam_session_none _ _ Hnil) in Hok.
      discriminate. }
    destruct (create_exam_session_found (exam_of_values blank) s Hne)
      as (exam' & Hok' & Hids & _).
    rewrite Hok in Hok'. injection Hok' as _ _ <-.
    rewrite Hids, list_elem_of_fmap. fold found. split.
    + intros ([id' m] & -> & Hin). exists m.
      unfold found in Hin.
      apply list_elem_of_filter in Hin as [Hsel Hin].
      apply elem_of_map_to_list in Hin. split; [exact Hin|].
      unfold matches, exam_of_values, blank in Hsel. cbn in Hsel.
      rewrite !andb_true_r, bool_decide_eq_true, list_elem_of_singleton
        in Hsel. exact Hsel.
    + intros (m & Hm & Hblank). exists (id, m). split; [reflexivity|].
      unfold found. apply list_elem_of_filter.
      split; [|apply elem_of_map_to_list; exact Hm].
      unfold matches, exam_of_values, blank. cbn.
      rewrite !andb_true_r, bool_decide_eq_true, list_elem_of_singleton.
      exact Hblank.
Qed.

(** The empty string on the sample store, where every mistake has a
    section: the listing shows the eight mistakes and the exam is
    refused. *)
Example blank_section_sample :
  let blank := MistakeQuery.mk (Some "") None None None None None None in
  len (query_mistakes blank Sample.store) = 8 /\
  create_exam_session (exam_of_values blank) Sample.store =
    Raise (HTTPException 400
      "No mistakes found matching the criteria. Try removing some filters or add more mistakes to the database.").
Proof. split; vm_compute; reflexivity. Qed.

Lemma sorted_set_spec {A} `{Countable A} (R : relation A)
    `{!RelDecision R} `{!Total R} `{!Transitive R} (xs : list A) :
  StronglySorted R (sorted_set R xs) /\ NoDup (sorted_set R xs) /\
  forall x, x ∈ sorted_set R xs <-> x ∈ xs.
Proof.
  unfold sorted_set. split; [apply StronglySorted_merge_sort; assumption|].
  split.
  - rewrite merge_sort_Permutation. apply NoDup_elements.
  - intros x. rewrite merge_sort_Permutation, elem_of_elements.
    apply elem_of_list_to_set.
Qed.

(** The values of a column over the rows of the table. *)
Lemma column_values {A} (f : GREMistake.t -> option A)
    (table : gmap Z GREMistake.t) (x : A) :
  x ∈ omap f (snd <$> map_to_list table) <->
  exists id m, table !! id = Some m /\ f m = Some x.
Proof.
  rewrite list_elem_of_omap. split.
  - intros (m & Hin & Hf). apply list_elem_of_fmap in Hin as ([id m'] & -> & Hin).
    apply elem_of_map_to_list in Hin. eauto.
  - intros (id & m & Hm & Hf). exists m. split; [|exact Hf].
    apply list_elem_of_fmap. exists (id, m). split; [reflexivity|].
    apply elem_of_map_to_list, Hm.
Qed.

Lemma truthy_string_Some (v : option string) (x : string) :
  truthy_string v = Some x <-> v = Some x /\ x <> "".
Proof.
  destruct v as [[|c v]|]; cbn.
  - split; [discriminate|intros [[= <-] Hne]; congruence].
  - split; [intros [= <-]; split; [reflexivity|discriminate]
           |intros [Hv _]; exact Hv].
  - split; [discriminate|intros [[=] _]].
Qed.

Lemma offered_string (f : GREMistake.t -> option string)
    (table : gmap Z GREMistake.t) (x : string) :
  x ∈ omap (fun m => truthy_string (f m)) (snd <$> map_to_list table) <->
  (exists id m, table !! id = Some m /\ f m = Some x) /\ x <> "".
Proof.
  rewrite column_values. split.
  - intros (id & m & Hm & Hv). apply truthy_string_Some in Hv as [Hv Hne].
    eauto.
  - intros [(id & m & Hm & Hv) Hne]. exists id, m. split; [exact Hm|].
    apply truthy_string_Some. split; assumption.
Qed.

(** X8. Each list of [get_filter_options] is in ascending order and holds no
    value twice. A string is offered exactly when it is not empty and the
    column of some stored mistake holds it; a KMF number exactly when the
    column of some stored mistake holds it, zero included. *)
Theorem get_filter_options_lists (s : db) :
  let options := get_filter_options s in
  let stored {A} (column : GREMistake.t -> option A) (x : A) :=
    exists id m, mistakes s !! id = Some m /\ column m = Some x in
  (StronglySorted String.le (sections options) /\
   NoDup (sections options) /\
   forall v, v ∈ sections options <->
             stored (fun m => Some (GREMistake.section m)) v /\ v <> "") /\
  (StronglySorted String.le (topics options) /\
   NoDup (topics options) /\
   forall v, v ∈ topics options <->
             stored (fun m => Some (GREMistake.topic m)) v /\ v <> "") /\
  (StronglySorted String.le (sub_topics options) /\
   NoDup (sub_topics options) /\
   forall v, v ∈ sub_topics options <->
             stored GREMistake.sub_topic v /\ v <> "") /\
  (StronglySorted String.le (error_types options) /\
   NoDup (error_types options) /\
   forall v, v ∈ error_types options <->
             stored (fun m => Some (GREMistake.error_type m)) v /\ v <> "") /\
  (StronglySorted Z.le (kmf_sections options) /\
   NoDup (kmf_sections options) /\
   forall n, n ∈ kmf_sections options <-> stored GREMistake.kmf_section n) /\
  (StronglySorted Z.le (kmf_problem_sets options) /\
   NoDup (kmf_problem_sets options) /\
   forall n, n ∈ kmf_problem_sets options <->
             stored GREMistake.kmf_problem_set n).
Proof.
  cbv zeta. unfold get_filter_options.
  cbn [sections topics sub_topics error_types kmf_sections kmf_problem_sets].
  repeat match goal with
         | |- (StronglySorted ?R (sorted_set ?R ?xs) /\ _) /\ _ => split
         | |- StronglySorted ?R (sorted_set ?R ?xs) /\ _ =>
             destruct (sorted_set_spec R xs) as (Hs & Hn & Hx);
             split; [exact Hs|]; split; [exact Hn|];
             intros x; rewrite Hx; clear Hs Hn Hx
         end;
    try apply offered_string; apply column_values.
Qed.

(** X9. A value that [get_filter_options] offers is never a dead end: the
    listing with that value as its one parameter shows a mistake, and the exam
    asked for with that value alone is created. *)
Theorem offered_option_has_mistakes (s : db) :
  let options := get_filter_options s in
  let found (q : MistakeQuery.t) :=
    query_mistakes q s <> [] /\
    exists r, create_exam_session (exam_of_query q) s = Ok r in
  (forall v, v ∈ sections options ->
     found (MistakeQuery.mk (Some v) None None None None None None)) /\
  (forall v, v ∈ topics options ->
     found (MistakeQuery.mk None (Some v) None None None None None)) /\
  (forall v, v ∈ sub_topics options ->
     found (MistakeQuery.mk None None (Some v) None None None None)) /\
  (forall v, v ∈ error_types options ->
     found (MistakeQuery.mk None None None (Some v) None None None)) /\
  (forall n, n ∈ kmf_sections options ->
     found (MistakeQuery.mk None None None None (Some n) None None)) /\
  (forall n, n ∈ kmf_problem_sets options ->
     found (MistakeQuery.mk None None None None None (Some n) None)).
Proof.
  cbv zeta. unfold get_filter_options.
  cbn [sections topics sub_topics error_types kmf_sections kmf_problem_sets].
  assert (Hfound : forall section topic sub_topic error_type kmf_section
                          kmf_problem_set id m,
            let q := MistakeQuery.mk section topic sub_topic error_type
                       kmf_section kmf_problem_set None in
            mistakes s !! id = Some m -> selected q m = true ->
            query_mistakes q s <> [] /\
            exists r, create_exam_session (exam_of_query q) s = Ok r).
  { intros section topic sub_topic error_type kmf_section kmf_problem_set
           id m q Hm Hsel.
    assert (Hne : query_mistakes q s <> []).
    { intros Hnil. pose proof (proj2 (query_elem q s id m) (conj Hm Hsel)) as Hin.
      rewrite Hnil in Hin. apply elem_of_nil in Hin. exact Hin. }
    split; [exact Hne|].
    destruct (create_exam_session_found (exam_of_query q) s)
      as (exam & Hok & _); [|eauto].
    unfold q. rewrite exam_of_query_rows. exact Hne. }
  repeat match goal with |- _ /\ _ => split end; intros x Hx;
    apply (proj1 (proj2 (proj2 (sorted_set_spec _ _)) _)) in Hx;
    try apply (proj1 (offered_string _ _ _)) in Hx as [Hx Hne];
    try apply (proj1 (column_values _ _ _)) in Hx;
    destruct Hx as (id & m & Hm & Hv);
    apply (Hfound _ _ _ _ _ _ id m Hm); unfold selected; cbn;
    rewrite ?Hv; try injection Hv as ->;
    destruct x; try congruence; rewrite ?bool_decide_true by reflexivity;
    reflexivity.
Qed.

End Options.

(** ** The history of exams and the sessions in progress *)

Section History.
Import PyFloat PyDatetime Main Listing Statistics Requests.

#[local] Instance completed_at_desc_total : Total completed_at_desc.
Proof. intros a b. unfold completed_at_desc. lia. Qed.

#[local] Instance completed_at_desc_trans : Transitive completed_at_desc.
Proof. intros a b c. unfold completed_at_desc. lia. Qed.

Lemma completed_elem (s : db) (id : Z) (exam : ExamSession.t) :
  (id, exam) ∈ completed_exams s <->
  exams s !! id = Some exam /\ is_Some (ExamSession.completed_at exam).
Proof.
  unfold completed_exams. rewrite list_elem_of_filter, elem_of_map_to_list.
  tauto.
Qed.

(** The rows of a table after a row is written, up to their order. *)
Lemma map_to_list_written {A} (m : gmap Z A) (k : Z) (new : A) :
  map_to_list (<[k := new]> m) ≡ₚ (k, new) :: map_to_list (delete k m) /\
  map_to_list m ≡ₚ
    match m !! k with
    | Some old => (k, old) :: map_to_list (delete k m)
    | None => map_to_list (delete k m)
    end.
Proof.
  split.
  - rewrite <- insert_delete_eq. apply map_to_list_insert, lookup_delete_eq.
  - destruct (m !! k) as [old|] eqn:Hk.
    + symmetry. apply map_to_list_delete, Hk.
    + rewrite delete_id by assumption. reflexivity.
Qed.

(** The completed sessions after a session is written. *)
Lemma completed_written (s : db) (table : gmap Z GREMistake.t) (k : Z)
    (new : ExamSession.t) :
  let done (exam : ExamSession.t) :=
    bool_decide (is_Some (ExamSession.completed_at exam)) in
  exists rest,
    completed_exams (mk_db table (<[k := new]> (exams s))) ≡ₚ
      (if done new then [(k, new)] else []) ++ rest /\
    completed_exams s ≡ₚ
      match exams s !! k with
      | Some old => if done old then [(k, old)] else []
      | None => []
      end ++ rest.
Proof.
  cbv zeta. unfold completed_exams. cbn [exams].
  destruct (map_to_list_written (exams s) k new) as [Hnew Hold].
  exists (filter (fun '(_, exam) => is_Some (ExamSession.completed_at exam))
            (map_to_list (delete k (exams s)))).
  split.
  - rewrite Hnew, filter_cons. cbn. case_decide;
      [rewrite bool_decide_true by assumption
      |rewrite bool_decide_false by assumption]; reflexivity.
  - rewrite Hold. destruct (exams s !! k) as [old|]; [|reflexivity].
    rewrite filter_cons. cbn. case_decide;
      [rewrite bool_decide_true by assumption
      |rewrite bool_decide_false by assumption]; reflexivity.
Qed.

Lemma total_perm (section : string) (table : gmap Z GREMistake.t) :
  Proper (Permutation ==> eq) (Spec.total section table).
Proof.
  unfold Spec.total. apply (foldr_permutation_proper eq).
  - intros x a b ->. reflexivity.
  - intros a1 a2 b. lia.
Qed.

Lemma correct_perm (section : string) (table : gmap Z GREMistake.t) :
  Proper (Permutation ==> eq) (Spec.correct section table).
Proof.
  unfold Spec.correct. apply (foldr_permutation_proper eq).
  - intros x a b ->. reflexivity.
  - intros a1 a2 b. lia.
Qed.

Lemma incorrect_perm (section : string) (table : gmap Z GREMistake.t) :
  Proper (Permutation ==> eq) (Spec.incorrect section table).
Proof.
  unfold Spec.incorrect. apply (foldr_permutation_proper eq).
  - intros x a b ->. reflexivity.
  - intros a1 a2 b. lia.
Qed.

Lemma exams_with_perm (section : string) (table : gmap Z GREMistake.t) :
  Proper (Permutation ==> eq) (Spec.exams_with section table).
Proof.
  unfold Spec.exams_with. apply (foldr_permutation_proper eq).
  - intros x a b ->. reflexivity.
  - intros a1 a2 b.
    destruct (Spec.problems section table (ExamSession.mistake_ids a1.2)),
      (Spec.problems section table (ExamSession.mistake_ids a2.2));
      try reflexivity.
    apply set_eq. intros i. rewrite !elem_of_union. tauto.
Qed.

(** The counters of the outer loop do not depend on the order of the
    sessions. *)
Lemma scan_all_perm (table : gmap Z GREMistake.t)
    (rows rows' : list (Z * ExamSession.t)) :
  rows ≡ₚ rows' ->
  foldl (scan table) zero rows = foldl (scan table) zero rows'.
Proof.
  intros Hp.
  destruct (scan_all_spec table rows zero)
    as (H1 & H2 & H3 & H4 & H5 & H6 & H7 & H8).
  destruct (scan_all_spec table rows' zero)
    as (K1 & K2 & K3 & K4 & K5 & K6 & K7 & K8).
  rewrite (total_perm "Quant" _ _ _ Hp) in H1.
  rewrite (total_perm "Verbal" _ _ _ Hp) in H5.
  rewrite (correct_perm "Quant" _ _ _ Hp) in H2.
  rewrite (correct_perm "Verbal" _ _ _ Hp) in H6.
  rewrite (incorrect_perm "Quant" _ _ _ Hp) in H3.
  rewrite (incorrect_perm "Verbal" _ _ _ Hp) in H7.
  rewrite (exams_with_perm "Quant" _ _ _ Hp) in H4.
  rewrite (exams_with_perm "Verbal" _ _ _ Hp) in H8.
  destruct (foldl (scan table) zero rows), (foldl (scan table) zero rows').
  cbn [quant_total_problems quant_correct quant_incorrect quant_exam_ids
       verbal_total_problems verbal_correct verbal_incorrect verbal_exam_ids]
    in *.
  congruence.
Qed.

(** The statistics depend on the mistakes and on the completed sessions,
    whatever their order. *)
Lemma statistics_of_completed (s s' : db) :
  mistakes s' = mistakes s -> completed_exams s' ≡ₚ completed_exams s ->
  get_exam_statistics s' = get_exam_statistics s.
Proof.
  intros Hm Hp. unfold get_exam_statistics.
  rewrite Hm, (scan_all_perm (mistakes s) _ _ Hp).
  assert (Hlen : len (completed_exams s') = len (completed_exams s))
    by (unfold len; rewrite (Permutation_length Hp); reflexivity).
  rewrite Hlen. reflexivity.
Qed.

(** What the handler reports, from the completed sessions and the
    mistakes. *)
Lemma reported (s : db) :
  let table := mistakes s in
  let rows := completed_exams s in
  let all_mistakes := snd <$> map_to_list (mistakes s) in
  let of_section (section : string) :=
    filter (fun m => GREMistake.section m = section) all_mistakes in
  let mastered_of (section : string) :=
    filter (fun m => GREMistake.mastered m = true) (of_section section) in
  exists st,
    get_exam_statistics s = Ok st /\
    (total_problems (quant st), correct (quant st), incorrect (quant st)) =
      (Spec.total "Quant" table rows, Spec.correct "Quant" table rows,
       Spec.incorrect "Quant" table rows) /\
    (total_problems (verbal st), correct (verbal st), incorrect (verbal st)) =
      (Spec.total "Verbal" table rows, Spec.correct "Verbal" table rows,
       Spec.incorrect "Verbal" table rows) /\
    exam_count (quant st) =
      Z.of_nat (size (Spec.exams_with "Quant" table rows)) /\
    exam_count (verbal st) =
      Z.of_nat (size (Spec.exams_with "Verbal" table rows)) /\
    total_exams st = len rows /\
    (total_mistakes (quant st), mastered (quant st), in_progress (quant st)) =
      (len (of_section "Quant"), len (mastered_of "Quant"),
       len (of_section "Quant") - len (mastered_of "Quant")) /\
    (total_mistakes (verbal st), mastered (verbal st),
     in_progress (verbal st)) =
      (len (of_section "Verbal"), len (mastered_of "Verbal"),
       len (of_section "Verbal") - len (mastered_of "Verbal")).
Proof.
  intros table rows all_mistakes of_section mastered_of.
  destruct (scan_all_spec table rows zero)
    as (H1 & H2 & H3 & H4 & H5 & H6 & H7 & H8).
  cbn [zero quant_total_problems quant_correct quant_incorrect
       quant_exam_ids verbal_total_problems verbal_correct verbal_incorrect
       verbal_exam_ids] in *.
  rewrite (right_id_L ∅ (∪)) in H4, H8.
  destruct (tallies_add_up "Quant" table rows) as (Q1 & Q2 & Q3).
  destruct (tallies_add_up "Verbal" table rows) as (V1 & V2 & V3).
  unfold get_exam_statistics. fold table rows.
  set (c := foldl (scan table) zero rows) in *.
  destruct (percentage_always (quant_correct c) (quant_total_problems c))
    as (pq & vq & -> & Hrq & _); [lia|].
  destruct (percentage_always (verbal_correct c) (verbal_total_problems c))
    as (pv & vv & -> & Hrv & _); [lia|].
  cbn [mbind result_bind]. rewrite Hrq, Hrv. cbn [mbind result_bind].
  eexists. split; [reflexivity|].
  cbn [quant verbal total_exams total_problems correct incorrect percentage
       exam_count total_mistakes mastered in_progress].
  rewrite H1, H2, H3, H4, H5, H6, H7, H8.
  repeat match goal with |- _ /\ _ => split end; reflexivity.
Qed.

Lemma sorted_lookup {A} (R : relation A) (l : list A) (i j : nat) (a b : A) :
  StronglySorted R l -> (i < j)%nat -> l !! i = Some a -> l !! j = Some b ->
  R a b.
Proof.
  intros Hs. revert i j. induction Hs as [|x l Hs IH Hx]; intros i j Hij Hi Hj.
  - rewrite lookup_nil in Hi. discriminate.
  - destruct j as [|j]; [lia|]. cbn in Hj. destruct i as [|i].
    + cbn in Hi. injection Hi as <-.
      rewrite Forall_forall in Hx. apply Hx.
      apply list_elem_of_lookup. eauto.
    + cbn in Hi. apply (IH i j); [lia|assumption|assumption].
Qed.

(** X10. [get_exam_history] lists the sessions whose completion date is set, and
    no other: each one once, and one completed later before one completed
    earlier. They are as many as [get_exam_statistics] reports exams. *)
Theorem get_exam_history_lists (s : db) :
  (forall id exam,
     (id, exam) ∈ get_exam_history s <->
     exams s !! id = Some exam /\
     exists t, ExamSession.completed_at exam = Some t) /\
  NoDup (fst <$> get_exam_history s) /\
  (forall (i j : nat) a b,
     (i < j)%nat ->
     get_exam_history s !! i = Some a -> get_exam_history s !! j = Some b ->
     exists ta tb,
       ExamSession.completed_at a.2 = Some ta /\
       ExamSession.completed_at b.2 = Some tb /\ tb <= ta) /\
  exists st,
    get_exam_statistics s = Ok st /\
    total_exams st = len (get_exam_history s).
Proof.
  assert (Hp : get_exam_history s ≡ₚ completed_exams s)
    by apply merge_sort_Permutation.
  assert (Hmem : forall id exam,
            (id, exam) ∈ get_exam_history s <->
            exams s !! id = Some exam /\
            exists t, ExamSession.completed_at exam = Some t).
  { intros id exam. rewrite Hp, completed_elem. reflexivity. }
  split; [exact Hmem|]. split; [|split].
  - rewrite Hp. apply NoDup_fst_filter.
  - intros i j [ida a] [idb b] Hij Hi Hj.
    pose proof (sorted_lookup completed_at_desc _ i j _ _
                  (StronglySorted_merge_sort _ _) Hij Hi Hj) as Hab.
    apply list_elem_of_lookup_2, Hmem in Hi as [_ [ta Ha]].
    apply list_elem_of_lookup_2, Hmem in Hj as [_ [tb Hb]].
    exists ta, tb. unfold completed_at_desc, completion in Hab.
    cbn [snd] in *. rewrite Ha, Hb in Hab. cbn in Hab. eauto.
  - destruct (reported s) as (st & Hst & _ & _ & _ & _ & Htot & _).
    exists st. split; [exact Hst|]. rewrite Htot. unfold len.
    rewrite (Permutation_length Hp). reflexivity.
Qed.

(** X11. Creating a session and answering in a session change neither what
    [get_exam_statistics] returns nor the sessions of the history: a
    session counts from its completion on, whether an answer is taken or
    refused. *)
Theorem statistics_ignore_open_sessions (s : db) :
  (forall exam_config,
     let s' := handle s (CreateExam exam_config) in
     get_exam_statistics s' = get_exam_statistics s /\
     get_exam_history s' ≡ₚ get_exam_history s) /\
  (forall exam_id answer,
     let s' := handle s (SubmitAnswer exam_id answer) in
     get_exam_statistics s' = get_exam_statistics s /\
     get_exam_history s' ≡ₚ get_exam_history s).
Proof.
  assert (Hsame : forall s',
            mistakes s' = mistakes s ->
            completed_exams s' ≡ₚ completed_exams s ->
            get_exam_statistics s' = get_exam_statistics s /\
            get_exam_history s' ≡ₚ get_exam_history s).
  { intros s' Hm Hp. split; [apply statistics_of_completed; assumption|].
    unfold get_exam_history. rewrite !merge_sort_Permutation. exact Hp. }
  assert (Hopen : forall k new,
            ExamSession.completed_at new = None ->
            match exams s !! k with
            | Some old => ExamSession.completed_at old = None
            | None => True
            end ->
            completed_exams (mk_db (mistakes s) (<[k := new]> (exams s))) ≡ₚ
              completed_exams s).
  { intros k new Hnew Hold.
    destruct (completed_written s (mistakes s) k new) as (rest & H1 & H2).
    rewrite H1, H2, Hnew.
    rewrite (bool_decide_false (is_Some None)) by (intros [? ?]; discriminate).
    destruct (exams s !! k) as [old|]; [|reflexivity].
    rewrite Hold.
    rewrite (bool_decide_false (is_Some None)) by (intros [? ?]; discriminate).
    reflexivity. }
  split.
  - intros exam_config. cbv zeta. cbn [handle]. unfold create_exam_session.
    destruct (filter _ (map_to_list (mistakes s))); [split; reflexivity|].
    cbn [commit]. apply Hsame; [reflexivity|].
    apply Hopen; [reflexivity|].
    rewrite (proj1 (not_elem_of_dom _ _) (is_fresh _)). exact I.
  - intros exam_id answer. cbv zeta. cbn [handle].
    destruct (exams s !! exam_id) as [exam|] eqn:Hexam;
      [|unfold submit_exam_answer; rewrite Hexam; split; reflexivity].
    destruct (ExamSession.completed_at exam) as [t|] eqn:Hdone.
    + destruct (completed_refuses s exam_id exam Hexam) as [-> _];
        [rewrite Hdone; eauto|split; reflexivity].
    + pose proof (submit_exam_answer_open s exam_id exam answer Hexam Hdone)
        as Hok.
      cbv zeta in Hok. rewrite Hok.
      cbn [commit]. apply Hsame; [reflexivity|].
      apply Hopen; [exact Hdone|].
      rewrite Hexam. exact Hdone.
Qed.

End History.

(** ** Completing a session, and the counts of the statistics *)

Section Counts.
Import PyFloat PyDatetime Main Listing Statistics Requests.

Lemma total_cons (section : string) (table : gmap Z GREMistake.t)
    (row : Z * ExamSession.t) (rows : list (Z * ExamSession.t)) :
  Spec.total section table (row :: rows) =
    len (Spec.problems section table (ExamSession.mistake_ids row.2)) +
    Spec.total section table rows /\
  Spec.correct section table (row :: rows) =
    len (filter (fun id => Spec.correct_in row.2 id = true)
           (Spec.problems section table (ExamSession.mistake_ids row.2))) +
    Spec.correct section table rows /\
  Spec.incorrect section table (row :: rows) =
    len (filter (fun id => Spec.correct_in row.2 id = false)
           (Spec.problems section table (ExamSession.mistake_ids row.2))) +
    Spec.incorrect section table rows.
Proof. repeat split. Qed.

(** X12. Completing a session in progress returns; the row keeps its fixed set,
    its answers and its counters and takes [now] as its completion date.
    From then on the session is in the history, and the statistics count
    one exam more and, for each section, the problems of the session whose
    mistake is stored with that section, those answered correctly as
    correct. *)
Theorem complete_exam_counts (now : datetime) (exam_id : Z) (s : db)
    (exam : ExamSession.t) :
  exams s !! exam_id = Some exam ->
  ExamSession.completed_at exam = None ->
  exists exam' st st',
    let s' := mk_db (mistakes s) (<[exam_id := exam']> (exams s)) in
    let added (section : string) :=
      Spec.problems section (mistakes s) (ExamSession.mistake_ids exam) in
    let right := filter (fun id => Spec.correct_in exam id = true) in
    complete_exam now exam_id s = Ok (s', exam') /\
    ExamSession.completed_at exam' = Some now /\
    (ExamSession.mistake_ids exam', ExamSession.answers exam',
     ExamSession.correct_count exam', ExamSession.incorrect_count exam',
     ExamSession.total_problems exam') =
      (ExamSession.mistake_ids exam, ExamSession.answers exam,
       ExamSession.correct_count exam, ExamSession.incorrect_count exam,
       ExamSession.total_problems exam) /\
    get_exam_history s' ≡ₚ (exam_id, exam') :: get_exam_history s /\
    get_exam_statistics s = Ok st /\
    get_exam_statistics s' = Ok st' /\
    total_exams st' = total_exams st + 1 /\
    total_problems (quant st') =
      total_problems (quant st) + len (added "Quant") /\
    correct (quant st') = correct (quant st) + len (right (added "Quant")) /\
    total_problems (verbal st') =
      total_problems (verbal st) + len (added "Verbal") /\
    correct (verbal st') =
      correct (verbal st) + len (right (added "Verbal")).
Proof.
  intros Hexam Hopen.
  set (exam' := ExamSession.mk
          (ExamSession.section exam) (ExamSession.topic exam)
          (ExamSession.sub_topic exam) (ExamSession.error_type exam)
          (ExamSession.kmf_section exam) (ExamSession.kmf_problem_set exam)
          (ExamSession.timer_minutes exam) (ExamSession.total_problems exam)
          (ExamSession.correct_count exam) (ExamSession.incorrect_count exam)
          (Some now) (ExamSession.mistake_ids exam)
          (ExamSession.answers exam)).
  set (s' := mk_db (mistakes s) (<[exam_id := exam']> (exams s))).
  destruct (completed_written s (mistakes s) exam_id exam')
    as (rest & Hnew & Hold).
  rewrite Hexam, Hopen in Hold. fold s' in Hnew.
  rewrite (bool_decide_false (is_Some None)) in Hold
    by (intros [? ?]; discriminate).
  rewrite (bool_decide_true (is_Some (ExamSession.completed_at exam')))
    in Hnew by (cbn; eauto).
  cbn [app] in Hnew, Hold. rewrite <- Hold in Hnew. clear rest Hold.
  destruct (reported s) as (st & Hst & Hq & Hv & _ & _ & Ht & _).
  destruct (reported s') as (st' & Hst' & Hq' & Hv' & _ & _ & Ht' & _).
  exists exam', st, st'. cbv zeta.
  split.
  { unfold complete_exam. rewrite Hexam, Hopen.
    rewrite bool_decide_false by (intros [? ?]; discriminate). reflexivity. }
  split; [reflexivity|]. split; [reflexivity|].
  split.
  { unfold get_exam_history. rewrite !merge_sort_Permutation. exact Hnew. }
  split; [exact Hst|]. split; [exact Hst'|].
  change (mistakes s') with (mistakes s) in Hq', Hv'.
  rewrite (total_perm "Quant" _ _ _ Hnew),
    (correct_perm "Quant" _ _ _ Hnew),
    (incorrect_perm "Quant" _ _ _ Hnew) in Hq'.
  rewrite (total_perm "Verbal" _ _ _ Hnew),
    (correct_perm "Verbal" _ _ _ Hnew),
    (incorrect_perm "Verbal" _ _ _ Hnew) in Hv'.
  destruct (total_cons "Quant" (mistakes s) (exam_id, exam')
              (completed_exams s)) as (Q1 & Q2 & _).
  destruct (total_cons "Verbal" (mistakes s) (exam_id, exam')
              (completed_exams s)) as (V1 & V2 & _).
  rewrite Q1, Q2 in Hq'. rewrite V1, V2 in Hv'.
  injection Hq as Hq1 Hq2 _. injection Hv as Hv1 Hv2 _.
  injection Hq' as Hq1' Hq2' _. injection Hv' as Hv1' Hv2' _.
  rewrite Ht, Ht', Hq1, Hq2, Hv1, Hv2, Hq1', Hq2', Hv1', Hv2'.
  split.
  { unfold len. rewrite (Permutation_length Hnew). cbn [length]. lia. }
  repeat match goal with |- _ /\ _ => split end; apply Z.add_comm.
Qed.

(** The sample exam in progress, completed: one exam, four Quant problems,
    one of them recorded as correct. *)
Lemma complete_exam_counts_witness :
  exists s' exam' st',
    complete_exam Sample.now 0 (serve Sample.store Sample.in_progress) =
      Ok (s', exam') /\
    get_exam_statistics s' = Ok st' /\
    (total_exams st', total_problems (quant st'), correct (quant st')) =
      (1, 4, 1).
Proof.
  edestruct (complete_exam_counts Sample.now 0
               (serve Sample.store Sample.in_progress))
    as (exam' & st & st' & Hok & _ & _ & _ & Hst & Hst' & Ht & Hq & Hc & _).
  - vm_compute. reflexivity.
  - reflexivity.
  - eexists _, exam', st'. split; [exact Hok|]. split; [exact Hst'|].
    vm_compute in Hst. injection Hst as <-.
    rewrite Ht, Hq, Hc. vm_compute. reflexivity.
Defined.

Lemma length_filter_fmap {A B} (f : A -> B) (P : B -> Prop)
    `{!forall b, Decision (P b)} (l : list A) :
  length (filter P (f <$> l)) = length (filter (fun a => P (f a)) l).
Proof.
  induction l as [|a l IH]; [reflexivity|].
  rewrite fmap_cons, !filter_cons. case_decide; cbn; congruence.
Qed.

(** The rows of a table with a property, counted in the list of its rows
    and in the table. *)
Lemma len_filter_rows (P : GREMistake.t -> Prop)
    `{!forall m, Decision (P m)} (table : gmap Z GREMistake.t) :
  len (filter P (snd <$> map_to_list table)) =
    Z.of_nat (size (filter (fun row : Z * GREMistake.t => P row.2) table)).
Proof.
  unfold len. f_equal. rewrite length_filter_fmap, map_filter_alt.
  rewrite map_size_list_to_map by apply NoDup_fst_filter. reflexivity.
Qed.

Lemma exams_with_size (section : string) (table : gmap Z GREMistake.t)
    (rows : list (Z * ExamSession.t)) :
  Z.of_nat (size (Spec.exams_with section table rows)) <= len rows /\
  (Spec.exams_with section table rows = ∅ <->
   Spec.total section table rows = 0) /\
  0 <= Spec.total section table rows.
Proof.
  induction rows as [|[id exam] rows (IH1 & IH2 & IH3)].
  - cbn. rewrite size_empty. repeat split; reflexivity || lia.
  - change (Spec.exams_with section table ((id, exam) :: rows))
      with (match Spec.problems section table (ExamSession.mistake_ids exam)
            with
            | [] => Spec.exams_with section table rows
            | _ => {[id]} ∪ Spec.exams_with section table rows
            end).
    change (Spec.total section table ((id, exam) :: rows))
      with (len (Spec.problems section table (ExamSession.mistake_ids exam))
            + Spec.total section table rows).
    rewrite len_cons.
    set (with_it := Spec.exams_with section table rows) in *.
    destruct (Spec.problems section table (ExamSession.mistake_ids exam))
      as [|p ps].
    + change (len []) with 0. split; [lia|]. split; [|lia].
      rewrite IH2. split; lia.
    + rewrite len_cons. pose proof (len_nonneg ps).
      split; [|split; [|lia]].
      * pose proof (size_union_alt (C := gset Z) {[id]} with_it) as Hu.
        rewrite size_singleton in Hu.
        assert (Hd : (size (with_it ∖ {[id]}) <= size with_it)%nat)
          by (apply subseteq_size, subseteq_difference_l; reflexivity).
        lia.
      * split; [|lia]. intros He. exfalso.
        assert (Hin : id ∈ ({[id]} ∪ with_it : gset Z))
          by (apply elem_of_union_l, elem_of_singleton; reflexivity).
        rewrite He in Hin. apply not_elem_of_empty in Hin. exact Hin.
Qed.

(** X13. The counts of [get_exam_statistics] that are not tallies of answers.
    For each section: the mistakes are the stored mistakes of the section,
    the mastered ones those of them that are mastered and the ones in
    progress the others, so the two add up to the mistakes; and the count
    of exams is at most the number of exams, and is 0 exactly when no
    problem of the section is reported. The mistakes of the two sections
    are together at most the stored mistakes. *)
Theorem get_exam_statistics_counts (s : db) :
  let stored (section : string) (P : GREMistake.t -> bool) : Z :=
    Z.of_nat
      (size (filter (fun row : Z * GREMistake.t =>
                       GREMistake.section row.2 = section /\ P row.2 = true)
               (mistakes s))) in
  exists st,
    get_exam_statistics s = Ok st /\
    (forall x section,
       (x, section) = (quant st, "Quant") \/
       (x, section) = (verbal st, "Verbal") ->
       total_mistakes x = stored section (fun _ => true) /\
       mastered x = stored section GREMistake.mastered /\
       in_progress x = stored section (fun m => negb (GREMistake.mastered m)) /\
       mastered x + in_progress x = total_mistakes x /\
       0 <= exam_count x <= total_exams st /\
       (exam_count x = 0 <-> total_problems x = 0)) /\
    total_mistakes (quant st) + total_mistakes (verbal st) <=
      Z.of_nat (size (mistakes s)).
Proof.
  cbv zeta.
  destruct (reported s)
    as (st & Hst & Hq & Hv & Hqe & Hve & Ht & Hqm & Hvm).
  cbv zeta in *. exists st. split; [exact Hst|].
  set (all := snd <$> map_to_list (mistakes s)) in *.
  assert (Hcount : forall section (P : GREMistake.t -> bool)
                          (Q : GREMistake.t -> Prop)
                          `{!forall m, Decision (Q m)},
            (forall m, Q m <->
               GREMistake.section m = section /\ P m = true) ->
            len (filter Q all) =
              Z.of_nat
                (size (filter (fun row : Z * GREMistake.t =>
                                 GREMistake.section row.2 = section /\
                                 P row.2 = true)
                         (mistakes s)))).
  { intros section P Q HQdec HQ. unfold all. rewrite len_filter_rows.
    f_equal. f_equal. apply map_filter_ext. intros id m _. cbn. apply HQ. }
  assert (Hhalf : forall section,
            let of_section :=
              filter (fun m => GREMistake.section m = section) all in
            let done :=
              filter (fun m => GREMistake.mastered m = true) of_section in
            len of_section =
              Z.of_nat
                (size (filter (fun row : Z * GREMistake.t =>
                                 GREMistake.section row.2 = section /\
                                 true = true)
                         (mistakes s))) /\
            len done =
              Z.of_nat
                (size (filter (fun row : Z * GREMistake.t =>
                                 GREMistake.section row.2 = section /\
                                 GREMistake.mastered row.2 = true)
                         (mistakes s))) /\
            len of_section - len done =
              Z.of_nat
                (size (filter (fun row : Z * GREMistake.t =>
                                 GREMistake.section row.2 = section /\
                                 negb (GREMistake.mastered row.2) = true)
                         (mistakes s))) /\
            0 <= len done).
  { intros section of_section done.
    pose proof (len_filter_bool GREMistake.mastered of_section) as Hb.
    fold done in Hb.
    split; [apply (Hcount section (fun _ => true)); intros m; tauto|].
    split; [unfold done, of_section; rewrite list_filter_filter;
            apply (Hcount section GREMistake.mastered); intros m; tauto|].
    split; [|apply len_nonneg].
    replace (len of_section - len done)
      with (len (filter (fun m => GREMistake.mastered m = false) of_section))
      by lia.
    unfold of_section. rewrite list_filter_filter.
    apply (Hcount section (fun m => negb (GREMistake.mastered m))).
    intros m. rewrite negb_true_iff. tauto. }
  split.
  - intros x section [[= -> ->]|[= -> ->]].
    + injection Hqm as -> -> ->.
      destruct (Hhalf "Quant") as (S1 & S2 & S3 & S4). cbv zeta in *.
      destruct (exams_with_size "Quant" (mistakes s) (completed_exams s))
        as (E1 & E2 & E3).
      injection Hq as Hq1 _ _.
      split; [exact S1|]. split; [exact S2|]. split; [exact S3|].
      split; [lia|].
      rewrite Hqe, Ht, Hq1. split; [lia|].
      rewrite <- E2. split.
      * intros H0. apply leibniz_equiv, size_empty_inv. lia.
      * intros ->. rewrite size_empty. reflexivity.
    + injection Hvm as -> -> ->.
      destruct (Hhalf "Verbal") as (S1 & S2 & S3 & S4). cbv zeta in *.
      destruct (exams_with_size "Verbal" (mistakes s) (completed_exams s))
        as (E1 & E2 & E3).
      injection Hv as Hv1 _ _.
      split; [exact S1|]. split; [exact S2|]. split; [exact S3|].
      split; [lia|].
      rewrite Hve, Ht, Hv1. split; [lia|].
      rewrite <- E2. split.
      * intros H0. apply leibniz_equiv, size_empty_inv. lia.
      * intros ->. rewrite size_empty. reflexivity.
  - injection Hqm as -> _ _. injection Hvm as -> _ _.
    assert (Hboth : forall l : list GREMistake.t,
              len (filter (fun m => GREMistake.section m = "Quant") l) +
              len (filter (fun m => GREMistake.section m = "Verbal") l)
              <= len l).
    { intros l. induction l as [|m l IH];
        [rewrite !filter_nil; change (len (@nil GREMistake.t)) with 0; lia|].
      rewrite !filter_cons, len_cons.
      repeat case_decide; rewrite ?len_cons; try lia. congruence. }
    specialize (Hboth all).
    assert (Hall : len all = Z.of_nat (size (mistakes s))).
    { unfold len, all. rewrite length_fmap, length_map_to_list.
      reflexivity. }
    lia.
Qed.

End Counts.

(** ** Answers outside the fixed set *)

Section Stray.
Import PyFloat PyDatetime Main Listing Statistics Requests.






End Stray.

(** ** Floats that integers and products round to *)

Section Exact.
Import PyFloat.

(** A multiple of the least subnormal with at most 53 digits, in range, is
    a float. *)
Lemma binary_round_exact (M : positive) (E : Z) :
  emin <= E -> Z.pos M < 2 ^ prec -> Zdigits2 (Z.pos M) + E <= emax ->
  exists m e,
    binary_round prec emax false M E = S754_finite false m e /\
    bounded prec emax m e = true /\
    scaled m e = Z.pos M * 2 ^ (E - emin).
Proof.
  intros HE HM Hd.
  destruct (binary_round_pos_rank M E HE)
    as (m1 & Hm1 & Hexact & Hlo & Hpos & Hrank & Hfin).
  set (V := Z.pos M * 2 ^ (E - emin)) in *.
  set (d := Zdigits2 (Z.pos M) + E) in *.
  set (e1 := fexp prec emax d) in *.
  set (g := 2 ^ (e1 - emin)) in *.
  assert (Hemin : emin = -1074) by reflexivity.
  assert (He1 : e1 = Z.max (d - 53) (-1074)) by reflexivity.
  pose proof (Zdigits2_pos (Z.pos M) ltac:(lia)) as Hdp.
  assert (HdM : Zdigits2 (Z.pos M) <= 53)
    by (apply Zdigits2_le_iff; unfold prec in *; lia).
  assert (Hle : e1 <= E) by (unfold d in He1; lia).
  assert (Hg : 0 < g) by (apply Z.pow_pos_nonneg; lia).
  assert (HV : V = Z.pos M * 2 ^ (E - e1) * g).
  { unfold V, g. rewrite <- Z.mul_assoc, <- Z.pow_add_r by lia.
    f_equal. f_equal. lia. }
  assert (Hmod : V mod g = 0) by (rewrite HV; apply Z.mod_mul; lia).
  assert (Hq : V / g = Z.pos M * 2 ^ (E - e1))
    by (rewrite HV; apply Z.div_mul; lia).
  specialize (Hexact Hmod). rewrite Hq in Hexact.
  assert (Hm1lt : m1 < 2 ^ prec).
  { rewrite Hexact.
    pose proof (Zdigits2_bounds (Z.pos M) ltac:(lia)) as [_ Hhi].
    assert (Hp : 0 < 2 ^ (E - e1)) by (apply Z.pow_pos_nonneg; lia).
    assert (2 ^ Zdigits2 (Z.pos M) * 2 ^ (E - e1) <= 2 ^ prec).
    { rewrite <- Z.pow_add_r by lia. apply Z.pow_le_mono_r; [lia|].
      unfold prec, d in *. lia. }
    eapply Z.lt_le_trans; [|eassumption].
    apply Z.mul_lt_mono_pos_r; assumption. }
  assert (Hr : rank (binary_round prec emax false M E) = V).
  { rewrite (Hfin 0); [| lia | unfold prec, emax, d in *; lia
                       | rewrite Z.pow_0_r; lia].
    rewrite Hexact, HV. reflexivity. }
  assert (HVtop : V < 2 ^ (emax - emin)).
  { unfold V.
    pose proof (Zdigits2_bounds (Z.pos M) ltac:(lia)) as [_ Hhi].
    assert (Hp : 0 < 2 ^ (E - emin)) by (apply Z.pow_pos_nonneg; lia).
    assert (2 ^ Zdigits2 (Z.pos M) * 2 ^ (E - emin) <= 2 ^ (emax - emin)).
    { rewrite <- Z.pow_add_r by lia. apply Z.pow_le_mono_r; [lia|].
      unfold d in *. lia. }
    eapply Z.lt_le_trans; [|eassumption].
    apply Z.mul_lt_mono_pos_r; assumption. }
  destruct (binary_round prec emax false M E) as [s|[|]| |[|] m e];
    try contradiction.
  - cbn [rank] in Hr. lia.
  - exists m, e. split; [reflexivity|]. split; [exact Hpos|exact Hr].
Qed.

(** The float of a positive integer: the integer itself below [2 ^ 53],
    and at least [2 ^ 53] from there on. *)
Lemma of_int_rank (z : Z) :
  0 < z ->
  positive_float (of_int z) /\
  Z.min z (2 ^ 53) * 2 ^ (- emin) <= rank (of_int z) /\
  (z < 2 ^ 53 -> rank (of_int z) = z * 2 ^ (- emin)).
Proof.
  intros Hz. destruct z as [|p|p]; try lia.
  unfold of_int, binary_normalize.
  assert (Hemin : emin = -1074) by reflexivity.
  assert (HE : emin <= 0) by lia.
  split; [apply binary_round_positive; exact HE|].
  assert (Hsmall : Z.pos p < 2 ^ 53 ->
                   rank (binary_round prec emax false p 0) =
                     Z.pos p * 2 ^ (- emin)).
  { intros Hlt.
    destruct (binary_round_exact p 0 HE Hlt) as (m & e & -> & Hb & Hs).
    - assert (Zdigits2 (Z.pos p) <= 53)
        by (apply Zdigits2_le_iff; lia).
      unfold emax. lia.
    - cbn [rank]. rewrite Hs. reflexivity. }
  split; [|exact Hsmall].
  destruct (Z_lt_le_dec (Z.pos p) (2 ^ 53)) as [Hlt|Hge].
  - rewrite (Hsmall Hlt), Z.min_l by lia. reflexivity.
  - rewrite Z.min_r by lia.
    pose proof (binary_round_lower p 4503599627370496 0 1 HE eq_refl) as Hlow.
    unfold scaled in Hlow.
    replace (0 - emin) with (- emin) in Hlow by lia.
    replace (1 - emin) with (1 + - emin) in Hlow by lia.
    rewrite Z.pow_add_r in Hlow by lia.
    assert (Hp : 0 < 2 ^ (- emin)) by (apply Z.pow_pos_nonneg; lia).
    change (2 ^ 53) with (4503599627370496 * 2 ^ 1) in *.
    rewrite Z.mul_assoc in Hlow. apply Hlow.
    apply Z.mul_le_mono_nonneg_r; lia.
Qed.

(** A canonical float that is at least 1 is normal. *)
Lemma at_least_one_normal (m : positive) (e : Z) :
  bounded prec emax m e = true -> 2 ^ (- emin) <= scaled m e ->
  -52 <= e /\ 2 ^ 52 <= Z.pos m < 2 ^ 53.
Proof.
  intros Hb Hone.
  assert (Hemin : emin = -1074) by reflexivity.
  assert (He : -52 <= e).
  { destruct (Z_le_gt_dec (-52) e) as [|Hgt]; [assumption|].
    pose proof (scaled_lt_of_exponent m 4503599627370496 e (-52) Hb eq_refl
                  ltac:(lia)) as Hlt.
    assert (Hs : scaled 4503599627370496 (-52) = 2 ^ (- emin))
      by (vm_compute; reflexivity).
    lia. }
  split; [exact He|].
  destruct (bounded_spec m e Hb) as (Hc & _ & _ & Hm).
  rewrite fexp_eq in Hc. split; [|exact Hm].
  assert (Hd : Zdigits2 (Z.pos m) = 53) by lia.
  pose proof (Zdigits2_bounds (Z.pos m) ltac:(lia)) as [Hlo _].
  rewrite Hd in Hlo. exact Hlo.
Qed.

(** The product of two canonical floats that are at least 1 is the
    rounding of the product of their values. *)
Lemma mul_normal (mx my : positive) (ex ey : Z) :
  2 ^ 52 <= Z.pos mx -> 2 ^ 52 <= Z.pos my ->
  mul (S754_finite false mx ex) (S754_finite false my ey) =
    binary_round prec emax false (mx * my) (ex + ey).
Proof.
  intros Hx Hy. unfold mul, binary_round. cbn [SFmul xorb].
  assert (Hd : 53 <= Zdigits2 (Z.pos (mx * my))).
  { destruct (Z_le_gt_dec 53 (Zdigits2 (Z.pos (mx * my)))) as [|Hgt];
      [assumption|].
    assert (Hlt : Z.pos (mx * my) < 2 ^ 52)
      by (apply Zdigits2_le_iff; lia).
    rewrite Pos2Z.inj_mul in Hlt.
    assert (2 ^ 52 * 2 ^ 52 <= Z.pos mx * Z.pos my)
      by (apply Z.mul_le_mono_nonneg; lia).
    change (2 ^ 52 * 2 ^ 52) with (2 ^ 52 * 4503599627370496) in *.
    change (2 ^ 52) with 4503599627370496 in *. lia. }
  change (Z.pos (digits2_pos (mx * my))) with (Zdigits2 (Z.pos (mx * my))).
  unfold shl_align. rewrite fexp_eq.
  destruct (Z.max (Zdigits2 (Z.pos (mx * my)) + (ex + ey) - 53) (-1074)
            - (ex + ey)) as [|p|p] eqn:Hs; try reflexivity.
  lia.
Qed.

(** [int] of a positive canonical float is its value in units of the least
    subnormal, divided by the number of these units in 1. *)
Lemma int_of_float_rank (m : positive) (e : Z) :
  emin <= e ->
  int_of_float (S754_finite false m e) = Ok (scaled m e / 2 ^ (- emin)).
Proof.
  intros He. assert (Hemin : emin = -1074) by reflexivity.
  unfold int_of_float, scaled. cbn [cond_Zopp]. f_equal.
  assert (Hp : 0 < 2 ^ (- emin)) by (apply Z.pow_pos_nonneg; lia).
  destruct e as [|p|p].
  - replace (0 - emin) with (- emin) by lia. rewrite Z.div_mul by lia.
    reflexivity.
  - rewrite Z.shiftl_mul_pow2 by lia.
    replace (Z.pos p - emin) with (Z.pos p + - emin) by lia.
    rewrite Z.pow_add_r, Z.mul_assoc, Z.div_mul by lia. reflexivity.
  - rewrite Z.shiftr_div_pow2 by lia.
    assert (Hsplit : 2 ^ (- emin) = 2 ^ Z.pos p * 2 ^ (Z.neg p - emin))
      by (rewrite <- Z.pow_add_r by lia; f_equal; lia).
    rewrite Hsplit.
    rewrite Z.div_mul_cancel_r; [reflexivity| |];
      apply Z.pow_nonzero; lia.
Qed.

End Exact.

(** ** The ease factor and the interval of a success *)

Section Growth.
Import PyFloat PyDatetime SM2.

(** The product of two canonical floats that are at least 1, against
    canonical floats below and above the product of their values. *)
Lemma mul_rank (mi me : positive) (ei ee : Z) :
  bounded prec emax mi ei = true -> bounded prec emax me ee = true ->
  2 ^ (- emin) <= scaled mi ei -> 2 ^ (- emin) <= scaled me ee ->
  let R := mul (S754_finite false mi ei) (S754_finite false me ee) in
  positive_float R /\
  (forall mx ex,
     bounded prec emax mx ex = true ->
     scaled mx ex * 2 ^ (- emin) <= scaled mi ei * scaled me ee ->
     scaled mx ex <= rank R) /\
  (forall mx ex,
     bounded prec emax mx ex = true ->
     scaled mi ei * scaled me ee <= scaled mx ex * 2 ^ (- emin) ->
     rank R <= scaled mx ex).
Proof.
  intros Hbi Hbe Hi He R.
  assert (Hemin : emin = -1074) by reflexivity.
  destruct (at_least_one_normal mi ei Hbi Hi) as (Hei & Hmi & _).
  destruct (at_least_one_normal me ee Hbe He) as (Hee & Hme & _).
  assert (HR : R = binary_round prec emax false (mi * me) (ei + ee))
    by (apply mul_normal; assumption).
  assert (HE : emin <= ei + ee) by lia.
  assert (Hp : 0 < 2 ^ (- emin)) by (apply Z.pow_pos_nonneg; lia).
  assert (HV : Z.pos (mi * me) * 2 ^ (ei + ee - emin) * 2 ^ (- emin) =
               scaled mi ei * scaled me ee).
  { unfold scaled. rewrite Pos2Z.inj_mul.
    replace (Z.pos mi * 2 ^ (ei - emin) * (Z.pos me * 2 ^ (ee - emin)))
      with (Z.pos mi * Z.pos me * (2 ^ (ei - emin) * 2 ^ (ee - emin)))
      by ring.
    rewrite <- Z.mul_assoc, <- !Z.pow_add_r by lia.
    f_equal. f_equal. lia. }
  rewrite HR. split; [apply binary_round_positive; exact HE|].
  split; intros mx ex Hbx Hle.
  - apply binary_round_lower; [exact HE|exact Hbx|].
    rewrite <- HV in Hle. apply Z.mul_le_mono_pos_r in Hle; assumption.
  - apply binary_round_upper; [exact HE|exact Hbx|].
    rewrite <- HV in Hle. apply Z.mul_le_mono_pos_r in Hle; assumption.
Qed.

(** A new ease factor that is at least 1.3 is at least 1. *)
Lemma c1_3_above_one : 2 ^ (- emin) <= rank c1_3.
Proof. vm_compute. discriminate. Qed.

(** The new interval of a success from the third repetition on, when the
    interval is positive: the product is a positive float, and the new
    interval is its value cut to an integer. *)
Lemma new_interval_product (interval : Z) (ease : float)
    (repetition_count n : Z) :
  0 < interval -> 2 <= repetition_count ->
  positive_float ease -> rank c1_3 <= rank ease ->
  Spec.new_interval interval ease repetition_count = Ok n ->
  exists mi ei me ee mr er,
    of_int interval = S754_finite false mi ei /\
    ease = S754_finite false me ee /\
    mul (of_int interval) ease = S754_finite false mr er /\
    bounded prec emax mi ei = true /\ bounded prec emax me ee = true /\
    bounded prec emax mr er = true /\
    n = scaled mr er / 2 ^ (- emin).
Proof.
  intros Hi Hr Hp Hle. unfold Spec.new_interval.
  replace (repetition_count =? 0) with false
    by (symmetry; apply Z.eqb_neq; lia).
  replace (repetition_count =? 1) with false
    by (symmetry; apply Z.eqb_neq; lia).
  destruct (of_int_rank interval Hi) as (Hpi & Hlow & _).
  assert (Hemin : emin = -1074) by reflexivity.
  assert (Hp2 : 0 < 2 ^ (- emin)) by (apply Z.pow_pos_nonneg; lia).
  assert (Hone : 2 ^ (- emin) <= rank (of_int interval)).
  { etransitivity; [|exact Hlow].
    rewrite <- (Z.mul_1_l (2 ^ (- emin))) at 1.
    apply Z.mul_le_mono_nonneg_r; lia. }
  pose proof c1_3_above_one as H13.
  destruct (of_int interval) as [s|[|]| |[|] mi ei]; try contradiction;
    [discriminate|].
  destruct ease as [s|[|]| |[|] me ee]; try contradiction;
    [cbn; discriminate|].
  cbn [positive_float rank] in *.
  destruct (mul_rank mi me ei ee Hpi Hp Hone ltac:(lia)) as (HpR & _ & _).
  cbv zeta in HpR.
  destruct (mul (S754_finite false mi ei) (S754_finite false me ee))
    as [s|[|]| |[|] mr er] eqn:HR; try contradiction; [discriminate|].
  cbn [positive_float] in HpR.
  rewrite int_of_float_rank
    by (destruct (bounded_spec mr er HpR) as (_ & _ & H & _); exact H).
  intros [= <-]. exists mi, ei, me, ee, mr, er.
  repeat split; assumption || reflexivity.
Qed.

(** X15. The new ease factor by quality, for an ease factor that is at least
    1.3: quality 4 leaves the ease factor as it is, to the last bit (the
    change [0.1 - 1 * (0.08 + 1 * 0.02)] is exactly zero in float
    arithmetic), quality 5 does not lower it and quality 3 does not raise
    it; and a call that returns, returns that new ease factor. *)
Theorem ease_factor_by_quality (ease_factor : float) :
  valid ease_factor = true -> leb c1_3 ease_factor = true ->
  leb (Spec.new_ease 3 ease_factor) ease_factor = true /\
  Spec.new_ease 4 ease_factor = ease_factor /\
  leb ease_factor (Spec.new_ease 5 ease_factor) = true /\
  (forall now quality interval repetition_count n e c d,
     3 <= quality <= 5 ->
     calculate_next_review now quality interval ease_factor
       repetition_count = Ok (n, e, c, d) ->
     e = Spec.new_ease quality ease_factor /\
     (quality = 3 -> leb e ease_factor = true) /\
     (quality = 4 -> e = ease_factor) /\
     (quality = 5 -> leb ease_factor e = true)).
Proof.
  intros Hv Hle. destruct (at_least_c1_3 ease_factor Hv Hle) as [Hp Hr].
  destruct (add_ease_delta ease_factor Hp Hr) as ((Hp3 & Hr3) & H4 & (Hp5 & Hr5)).
  pose proof (floor_rank _ Hp3) as [Hf3 Hk3].
  pose proof (floor_rank _ Hp) as [Hf4 Hk4].
  pose proof (floor_rank _ Hp5) as [Hf5 Hk5].
  cbv zeta in Hk3, Hk4, Hk5, Hf3, Hf4, Hf5.
  assert (H3 : leb (Spec.new_ease 3 ease_factor) ease_factor = true).
  { unfold Spec.new_ease. cbv zeta. apply leb_rank; [exact Hf3|exact Hp|].
    lia. }
  assert (H4' : Spec.new_ease 4 ease_factor = ease_factor).
  { unfold Spec.new_ease. cbv zeta. rewrite H4.
    destruct (ltb ease_factor c1_3) eqn:Hlt; [|reflexivity].
    apply (ltb_rank ease_factor c1_3 Hp) in Hlt; [lia|reflexivity]. }
  assert (H5 : leb ease_factor (Spec.new_ease 5 ease_factor) = true).
  { unfold Spec.new_ease. cbv zeta. apply leb_rank; [exact Hp|exact Hf5|].
    lia. }
  split; [exact H3|]. split; [exact H4'|]. split; [exact H5|].
  intros now quality interval repetition_count n e c d Hq.
  rewrite calculate_next_review_success_eq by assumption.
  destruct (Spec.new_interval _ _ _) as [n'|]; [|discriminate].
  cbn [mbind result_bind].
  destruct (Spec.review_date now n'); [|discriminate].
  cbn [mbind result_bind]. intros [= _ <- _ _].
  split; [reflexivity|].
  split; [intros ->; exact H3|]. split; [intros ->; exact H4'|].
  intros ->; exact H5.
Qed.

(** Ease factor 2.5: quality 3 gives 2.36, quality 4 gives 2.5 and quality
    5 gives 2.6. *)
Lemma ease_factor_by_quality_witness :
  Spec.new_ease 3 c2_5 = S754_finite false 5314247560297185 (-51) /\
  Spec.new_ease 4 c2_5 = c2_5 /\
  Spec.new_ease 5 c2_5 = c2_6 /\
  leb (Spec.new_ease 3 c2_5) c2_5 = true /\
  leb c2_5 (Spec.new_ease 5 c2_5) = true.
Proof.
  destruct (ease_factor_by_quality c2_5 eq_refl eq_refl)
    as (H3 & H4 & H5 & _).
  split; [vm_compute; reflexivity|]. split; [exact H4|].
  split; [vm_compute; reflexivity|]. split; [exact H3|exact H5].
Defined.

(** X16. From the third repetition on, a success does not shorten the interval:
    for an ease factor that is at least 1.3, the new interval that a call
    returns is at least the interval, and longer when the interval is 4
    days or more; so the new review date is no earlier than the interval
    counted from [now]. *)
Theorem interval_never_shrinks (now : datetime) (quality interval : Z)
    (ease_factor : float) (repetition_count n : Z) (e : float) (c : Z)
    (d : datetime) :
  3 <= quality <= 5 ->
  0 <= interval ->
  valid ease_factor = true ->
  leb c1_3 ease_factor = true ->
  2 <= repetition_count ->
  calculate_next_review now quality interval ease_factor repetition_count =
    Ok (n, e, c, d) ->
  interval <= n /\
  (4 <= interval -> interval < n) /\
  d = now + n * us_per_day /\
  now + interval * us_per_day <= d.
Proof.
  intros Hq Hi Hv Hle Hr.
  rewrite calculate_next_review_success_eq by assumption.
  destruct (new_ease_rank ease_factor Hv Hle) as (Hease & _ & _).
  destruct (Hease quality Hq) as [Hp Hrank].
  set (ease := Spec.new_ease quality ease_factor) in *.
  destruct (Spec.new_interval interval ease repetition_count) as [n'|] eqn:Hn;
    [|discriminate].
  cbn [mbind result_bind]. unfold Spec.review_date.
  destruct (Z.abs n' <=? max_delta_days) eqn:Hmax; [|discriminate].
  cbn [andb].
  destruct ((0 <=? now + n' * us_per_day) &&
            (now + n' * us_per_day <=? max_datetime)); [|discriminate].
  cbn [mbind result_bind]. intros [= <- _ _ <-].
  apply Z.leb_le in Hmax. unfold max_delta_days in Hmax.
  assert (Hemin : emin = -1074) by reflexivity.
  assert (HA : 0 < 2 ^ (- emin)) by (apply Z.pow_pos_nonneg; lia).
  assert (Hgrow : interval <= n' /\ (4 <= interval -> interval < n')).
  { destruct (Z.eq_dec interval 0) as [->|Hne].
    { split; [|lia].
      apply (new_interval_nonneg 0 ease repetition_count n');
        [lia|exact Hp|exact Hn]. }
    assert (Hi' : 0 < interval) by lia.
    destruct (new_interval_product interval ease repetition_count n'
                Hi' Hr Hp Hrank Hn)
      as (mi & ei & me & ee & mr & er & Hof & Hease' & HR & Hbi & Hbe & Hbr
          & Hn').
    destruct (of_int_rank interval Hi') as (_ & Hlow & Hexact).
    rewrite Hof in Hlow, Hexact, HR. cbn [rank] in Hlow, Hexact.
    rewrite Hease' in Hrank, HR. cbn [rank] in Hrank.
    pose proof c1_3_above_one as H13.
    assert (Hone : 2 ^ (- emin) <= scaled mi ei).
    { etransitivity; [|exact Hlow].
      rewrite <- (Z.mul_1_l (2 ^ (- emin))) at 1.
      apply Z.mul_le_mono_nonneg_r; lia. }
    destruct (mul_rank mi me ei ee Hbi Hbe Hone ltac:(lia))
      as (_ & Hlower & _).
    cbv zeta in Hlower. rewrite HR in Hlower. cbn [rank] in Hlower.
    assert (Hself : scaled mi ei <= scaled mr er).
    { apply (Hlower mi ei Hbi). apply Z.mul_le_mono_nonneg_l; lia. }
    assert (Hmin : Z.min interval (2 ^ 53) <= n').
    { rewrite Hn'. apply Z.div_le_lower_bound; [exact HA|].
      rewrite Z.mul_comm. lia. }
    assert (Hsmall : interval < 2 ^ 53).
    { change (2 ^ 53) with 9007199254740992 in *. lia. }
    split; [lia|]. intros H4.
    destruct (binary_round_exact (Z.to_pos (interval + 1)) 0)
      as (mx & ex & _ & Hbx & Hsx).
    { lia. }
    { rewrite Z2Pos.id by lia. unfold prec.
      change (2 ^ 53) with 9007199254740992 in *. lia. }
    { rewrite Z2Pos.id by lia.
      assert (Zdigits2 (interval + 1) <= 53)
        by (apply Zdigits2_le_iff;
            [lia|lia|change (2 ^ 53) with 9007199254740992 in *; lia]).
      unfold emax. lia. }
    rewrite Z2Pos.id in Hsx by lia.
    replace (0 - emin) with (- emin) in Hsx by lia.
    assert (Hnext : scaled mx ex <= scaled mr er).
    { apply (Hlower mx ex Hbx). rewrite Hsx, (Hexact Hsmall).
      rewrite <- (Z.mul_assoc interval).
      rewrite (Z.mul_comm (2 ^ (- emin)) (scaled me ee)).
      rewrite (Z.mul_assoc interval).
      apply Z.mul_le_mono_nonneg_r; [lia|].
      etransitivity;
        [|apply Z.mul_le_mono_nonneg_l; [lia|exact Hrank]].
      change (rank c1_3) with (5854679515581645 * 2 ^ 1022).
      replace (2 ^ (- emin)) with (4503599627370496 * 2 ^ 1022)
        by (rewrite Hemin; reflexivity).
      rewrite !Z.mul_assoc.
      apply Z.mul_le_mono_nonneg_r; [apply Z.pow_nonneg; lia|]. lia. }
    assert (interval + 1 <= n'); [|lia].
    rewrite Hn'. apply Z.div_le_lower_bound; [exact HA|].
    rewrite Z.mul_comm. lia. }
  destruct Hgrow as [Hg1 Hg2].
  split; [exact Hg1|]. split; [exact Hg2|]. split; [reflexivity|].
  unfold us_per_day. lia.
Qed.

(** Interval 6 and ease factor 2.5 at the third repetition, quality 3: the
    new interval is 14 days. *)
Lemma interval_never_shrinks_witness :
  calculate_next_review Sample.now 3 6 c2_5 2 =
    Ok (14, Spec.new_ease 3 c2_5, 3, Sample.now + 14 * us_per_day) /\
  6 < 14.
Proof.
  assert (Hcall : calculate_next_review Sample.now 3 6 c2_5 2 =
                  Ok (14, Spec.new_ease 3 c2_5, 3,
                      Sample.now + 14 * us_per_day))
    by (vm_compute; reflexivity).
  split; [exact Hcall|].
  assert (H35 : 3 <= 3 <= 5) by lia.
  assert (H06 : 0 <= 6) by lia.
  assert (H22 : 2 <= 2) by lia.
  destruct (interval_never_shrinks Sample.now 3 6 c2_5 2 14
              (Spec.new_ease 3 c2_5) 3 (Sample.now + 14 * us_per_day)
              H35 H06 eq_refl eq_refl H22 Hcall) as (_ & Hlt & _).
  apply Hlt. lia.
Defined.

End Growth.

(** ** The schedules that the requests bring about *)

Section Schedules.
Import PyFloat PyDatetime SM2 Main Schedule.

Lemma positive_valid (x : float) : positive_float x -> valid x = true.
Proof. destruct x as [s|[|]| |[|] m e]; try contradiction; trivial. Qed.

(** A positive float below the top of the range is finite. *)
Lemma positive_finite (x : float) :
  positive_float x -> rank x < 2 ^ (emax - emin) ->
  exists m e, x = S754_finite false m e /\ bounded prec emax m e = true.
Proof.
  destruct x as [s|[|]| |[|] m e]; try contradiction.
  - cbn [rank]. lia.
  - intros Hb _. exists m, e. split; [reflexivity|exact Hb].
Qed.

(** A lapse never returns. *)
Lemma lapse_never_returns (now : datetime) (quality interval : Z)
    (ease_factor : float) (repetition_count : Z) r :
  quality < 3 ->
  calculate_next_review now quality interval ease_factor repetition_count <>
    Ok r.
Proof.
  intros Hq. unfold calculate_next_review.
  apply Z.ltb_lt in Hq. rewrite Hq. cbn.
  change (timedelta_days 1) with (Ok (A := timedelta) us_per_day). cbn.
  destruct (datetime_add now us_per_day); cbn; discriminate.
Qed.

(** The eighths of a unit, as floats. *)
Lemma eighths (k : Z) :
  0 < k < 2 ^ 53 ->
  exists m e,
    bounded prec emax m e = true /\ scaled m e = k * 2 ^ (- emin - 3).
Proof.
  intros Hk. assert (Hemin : emin = -1074) by reflexivity.
  destruct (binary_round_exact (Z.to_pos k) (-3)) as (m & e & _ & Hb & Hs).
  - lia.
  - rewrite Z2Pos.id by lia. exact (proj2 Hk).
  - rewrite Z2Pos.id by lia.
    assert (Zdigits2 k <= 53) by (apply Zdigits2_le_iff; lia).
    unfold emax. lia.
  - exists m, e. split; [exact Hb|]. rewrite Hs, Z2Pos.id by lia.
    replace (-3 - emin) with (- emin - 3) by lia. reflexivity.
Qed.

(** The new ease factor of a success stays within 1.3 and 2.5 plus an
    eighth for each repetition. *)
Lemma next_ease_sound (quality : Z) (ease_factor : float) (count : Z) :
  3 <= quality <= 5 -> 0 <= count <= 4 ->
  positive_float ease_factor ->
  rank c1_3 <= rank ease_factor ->
  rank ease_factor <= (20 + count) * 2 ^ (- emin - 3) ->
  let ease := Spec.new_ease quality ease_factor in
  positive_float ease /\
  rank c1_3 <= rank ease /\
  rank ease <= (21 + count) * 2 ^ (- emin - 3).
Proof.
  intros Hq Hc Hp Hlo Hhi ease.
  assert (Hemin : emin = -1074) by reflexivity.
  assert (Hu : 0 < 2 ^ (- emin - 3)) by (apply Z.pow_pos_nonneg; lia).
  destruct (add_ease_delta ease_factor Hp Hlo)
    as ((Hp3 & Hr3) & H4 & (Hp5 & Hr5)).
  pose proof (floor_rank _ Hp3) as [Hf3 Hk3].
  pose proof (floor_rank _ Hp) as [Hf4 Hk4].
  pose proof (floor_rank _ Hp5) as [Hf5 Hk5].
  cbv zeta in Hk3, Hk4, Hk5, Hf3, Hf4, Hf5.
  assert (Hq' : quality = 3 \/ quality = 4 \/ quality = 5) by lia.
  unfold ease, Spec.new_ease. cbv zeta.
  destruct Hq' as [-> | [-> | ->]].
  - split; [exact Hf3|]. rewrite Hk3. split; [lia|]. nia.
  - rewrite H4. split; [exact Hf4|]. rewrite Hk4. split; [lia|]. nia.
  - split; [exact Hf5|]. rewrite Hk5. split; [lia|].
    assert (Htop : rank ease_factor < 2 ^ (emax - emin)).
    { eapply Z.le_lt_trans; [exact Hhi|].
      assert ((20 + count) * 2 ^ (- emin - 3) <= 2 ^ 5 * 2 ^ (- emin - 3))
        by (apply Z.mul_le_mono_nonneg_r; lia).
      assert (2 ^ 5 * 2 ^ (- emin - 3) < 2 ^ (emax - emin)).
      { rewrite <- Z.pow_add_r by lia. apply Z.pow_lt_mono_r; unfold emax; lia. }
      lia. }
    destruct (positive_finite ease_factor Hp Htop) as (m & e & -> & Hb).
    cbn [rank] in *.
    destruct ease_delta_values as (_ & _ & ->).
    change c0_1 with (S754_finite false 7205759403792794 (-56)) in *.
    destruct (add_positive m 7205759403792794 e (-56) Hb eq_refl)
      as (M & E & HE & Hadd & HV).
    destruct (eighths (21 + count)) as (mx & ex & Hbx & Hsx);
      [change (2 ^ 53) with 9007199254740992; lia|].
    assert (Hup : rank (add (S754_finite false m e)
                          (S754_finite false 7205759403792794 (-56)))
                  <= (21 + count) * 2 ^ (- emin - 3)).
    { rewrite Hadd, <- Hsx. apply binary_round_upper; [exact HE|exact Hbx|].
      rewrite HV, Hsx.
      assert (scaled 7205759403792794 (-56) <= 2 ^ (- emin - 3))
        by (vm_compute; discriminate).
      lia. }
    change (rank c1_3) with (5854679515581645 * 2 ^ 1022) in *.
    lia.
Qed.

(** The new interval of a success is computed, and is a day at least and
    the longest of the next repetition count at most. *)
Lemma next_interval_sound (interval : Z) (ease : float) (count : Z) :
  0 <= count <= 4 ->
  0 <= interval <= longest count ->
  (1 <= count -> 1 <= interval) ->
  positive_float ease ->
  rank c1_3 <= rank ease ->
  rank ease <= (21 + count) * 2 ^ (- emin - 3) ->
  exists n,
    Spec.new_interval interval ease count = Ok n /\
    1 <= n <= longest (count + 1).
Proof.
  intros Hc Hi Hone Hp Hlo Hhi.
  assert (Hemin : emin = -1074) by reflexivity.
  assert (Hcases : count = 0 \/ count = 1 \/ 2 <= count) by lia.
  destruct Hcases as [-> | [-> | H2]];
    [exists 1; split; [reflexivity|change (longest (0 + 1)) with 1; lia]
    |exists 6; split; [reflexivity|change (longest (1 + 1)) with 6; lia]|].
  assert (Hi' : 0 < interval) by lia.
  assert (Hlong : longest count <= 56 /\
                  25 * longest count / 8 = longest (count + 1)).
  { assert (Hc' : count = 2 \/ count = 3 \/ count = 4) by lia.
    destruct Hc' as [-> | [-> | ->]]; split;
      reflexivity || (vm_compute; discriminate). }
  destruct Hlong as [H56 Hnext].
  assert (HA : 0 < 2 ^ (- emin)) by (apply Z.pow_pos_nonneg; lia).
  assert (Hu : 0 < 2 ^ (- emin - 3)) by (apply Z.pow_pos_nonneg; lia).
  assert (HA8 : 2 ^ (- emin) = 8 * 2 ^ (- emin - 3)).
  { change 8 with (2 ^ 3). rewrite <- Z.pow_add_r by lia.
    replace (3 + (- emin - 3)) with (- emin) by lia. reflexivity. }
  (* the two factors *)
  destruct (of_int_rank interval Hi') as (Hpi & _ & Hexact).
  specialize (Hexact ltac:(change (2 ^ 53) with 9007199254740992; lia)).
  destruct (positive_finite (of_int interval) Hpi) as (mi & ei & Hof & Hbi).
  { rewrite Hexact.
    assert (interval * 2 ^ (- emin) < 2 ^ 6 * 2 ^ (- emin))
      by (apply Z.mul_lt_mono_pos_r; [exact HA|change (2 ^ 6) with 64; lia]).
    assert (2 ^ 6 * 2 ^ (- emin) < 2 ^ (emax - emin)).
    { rewrite <- Z.pow_add_r by lia.
      apply Z.pow_lt_mono_r; unfold emax; lia. }
    lia. }
  destruct (positive_finite ease Hp) as (me & ee & -> & Hbe).
  { eapply Z.le_lt_trans; [exact Hhi|].
    assert ((21 + count) * 2 ^ (- emin - 3) <= 2 ^ 5 * 2 ^ (- emin - 3))
      by (apply Z.mul_le_mono_nonneg_r; [lia|change (2 ^ 5) with 32; lia]).
    assert (2 ^ 5 * 2 ^ (- emin - 3) < 2 ^ (emax - emin)).
    { rewrite <- Z.pow_add_r by lia.
      apply Z.pow_lt_mono_r; unfold emax; lia. }
    lia. }
  rewrite Hof in Hexact. cbn [rank] in Hexact, Hlo, Hhi.
  pose proof c1_3_above_one as H13.
  assert (Hione : 2 ^ (- emin) <= scaled mi ei).
  { rewrite Hexact. rewrite <- (Z.mul_1_l (2 ^ (- emin))) at 1.
    apply Z.mul_le_mono_nonneg_r; lia. }
  destruct (mul_rank mi me ei ee Hbi Hbe Hione ltac:(lia))
    as (HpR & Hlower & Hupper).
  cbv zeta in HpR, Hlower, Hupper.
  set (R := mul (S754_finite false mi ei) (S754_finite false me ee)) in *.
  (* the product, between the interval and 25/8 of it *)
  assert (Hself : scaled mi ei <= rank R).
  { apply (Hlower mi ei Hbi). apply Z.mul_le_mono_nonneg_l; lia. }
  destruct (eighths (25 * interval)) as (mx & ex & Hbx & Hsx);
    [change (2 ^ 53) with 9007199254740992; lia|].
  assert (Habove : rank R <= 25 * interval * 2 ^ (- emin - 3)).
  { rewrite <- Hsx. apply (Hupper mx ex Hbx). rewrite Hsx, Hexact.
    replace (interval * 2 ^ (- emin) * scaled me ee)
      with (interval * scaled me ee * 2 ^ (- emin)) by ring.
    apply Z.mul_le_mono_nonneg_r; [lia|].
    replace (25 * interval * 2 ^ (- emin - 3))
      with (interval * (25 * 2 ^ (- emin - 3))) by ring.
    apply Z.mul_le_mono_nonneg_l; [lia|].
    etransitivity; [exact Hhi|].
    apply Z.mul_le_mono_nonneg_r; lia. }
  destruct (positive_finite R HpR) as (mr & er & HR & Hbr).
  { eapply Z.le_lt_trans; [exact Habove|].
    assert (25 * interval * 2 ^ (- emin - 3) < 2 ^ 11 * 2 ^ (- emin - 3))
      by (apply Z.mul_lt_mono_pos_r;
          [exact Hu|change (2 ^ 11) with 2048; lia]).
    assert (2 ^ 11 * 2 ^ (- emin - 3) < 2 ^ (emax - emin)).
    { rewrite <- Z.pow_add_r by lia.
      apply Z.pow_lt_mono_r; unfold emax; lia. }
    lia. }
  rewrite HR in Hself, Habove. cbn [rank] in Hself, Habove.
  exists (scaled mr er / 2 ^ (- emin)). split.
  - unfold Spec.new_interval.
    replace (count =? 0) with false by (symmetry; apply Z.eqb_neq; lia).
    replace (count =? 1) with false by (symmetry; apply Z.eqb_neq; lia).
    rewrite Hof. fold R. rewrite HR. apply int_of_float_rank.
    destruct (bounded_spec mr er Hbr) as (_ & _ & H & _). exact H.
  - split.
    + apply Z.div_le_lower_bound; [exact HA|].
      rewrite Z.mul_1_r. lia.
    + rewrite <- Hnext.
      etransitivity;
        [apply (Z.div_le_mono _ (25 * interval * 2 ^ (- emin - 3)));
         [exact HA|exact Habove]|].
      rewrite HA8, Z.div_mul_cancel_r by lia.
      apply Z.div_le_mono; lia.
Qed.

(** What a review that returns makes of a sound schedule. *)
Lemma review_sound (now : datetime) (quality : Z) (m : GREMistake.t)
    (n : Z) (e : float) (c : Z) (d : datetime) :
  1 <= quality <= 5 ->
  sound m -> GREMistake.mastered m = false ->
  calculate_next_review now quality (GREMistake.interval m)
    (GREMistake.ease_factor m) (GREMistake.repetition_count m) =
    Ok (n, e, c, d) ->
  c = GREMistake.repetition_count m + 1 /\
  0 <= c <= 5 /\
  positive_float e /\ rank c1_3 <= rank e /\
  rank e <= (20 + c) * 2 ^ (- emin - 3) /\
  1 <= n <= longest c /\
  d = now + n * us_per_day.
Proof.
  intros Hq (Hc & Hm & Hp & Hlo & Hhi & Hi & Hone) Hopen Hcall.
  destruct (Z_lt_le_dec quality 3) as [Hlapse|Hq3];
    [destruct (lapse_never_returns _ _ _ _ _ _ Hlapse Hcall)|].
  rewrite Hopen in Hm.
  assert (Hc4 : 0 <= GREMistake.repetition_count m <= 4).
  { destruct (GREMistake.repetition_count m >=? 5) eqn:H5; [discriminate|].
    rewrite Z.geb_leb in H5. apply Z.leb_gt in H5. lia. }
  rewrite calculate_next_review_success_eq in Hcall by lia.
  destruct (next_ease_sound quality (GREMistake.ease_factor m)
              (GREMistake.repetition_count m) ltac:(lia) Hc4 Hp Hlo Hhi)
    as (Hpe & Hloe & Hhie).
  destruct (next_interval_sound (GREMistake.interval m)
              (Spec.new_ease quality (GREMistake.ease_factor m))
              (GREMistake.repetition_count m) Hc4 Hi Hone Hpe Hloe Hhie)
    as (n' & Hn & Hbound).
  rewrite Hn in Hcall. cbn [mbind result_bind] in Hcall.
  unfold Spec.review_date in Hcall.
  destruct ((Z.abs n' <=? max_delta_days) &&
            (0 <=? now + n' * us_per_day) &&
            (now + n' * us_per_day <=? max_datetime)); [|discriminate].
  cbn [mbind result_bind] in Hcall. injection Hcall as <- <- <- <-.
  split; [reflexivity|]. split; [lia|]. split; [exact Hpe|].
  split; [exact Hloe|].
  replace (20 + (GREMistake.repetition_count m + 1))
    with (21 + GREMistake.repetition_count m) by lia.
  split; [exact Hhie|]. split; [exact Hbound|reflexivity].
Qed.

(** A review of quality 3 to 5 of a sound schedule returns, the clock
    being 175 days at least before the end of the calendar. *)
Lemma review_returns (now : datetime) (quality : Z) (m : GREMistake.t) :
  3 <= quality <= 5 ->
  sound m -> GREMistake.mastered m = false ->
  0 <= now -> now + 175 * us_per_day <= max_datetime ->
  exists n e c d,
    calculate_next_review now quality (GREMistake.interval m)
      (GREMistake.ease_factor m) (GREMistake.repetition_count m) =
      Ok (n, e, c, d).
Proof.
  intros Hq (Hc & Hm & Hp & Hlo & Hhi & Hi & Hone) Hopen Hnow Hend.
  rewrite Hopen in Hm.
  assert (Hc4 : 0 <= GREMistake.repetition_count m <= 4).
  { destruct (GREMistake.repetition_count m >=? 5) eqn:H5; [discriminate|].
    rewrite Z.geb_leb in H5. apply Z.leb_gt in H5. lia. }
  rewrite calculate_next_review_success_eq by lia.
  destruct (next_ease_sound quality (GREMistake.ease_factor m)
              (GREMistake.repetition_count m) Hq Hc4 Hp Hlo Hhi)
    as (Hpe & Hloe & Hhie).
  destruct (next_interval_sound (GREMistake.interval m)
              (Spec.new_ease quality (GREMistake.ease_factor m))
              (GREMistake.repetition_count m) Hc4 Hi Hone Hpe Hloe Hhie)
    as (n' & -> & Hbound).
  cbn [mbind result_bind]. unfold Spec.review_date.
  assert (Hl : longest (GREMistake.repetition_count m + 1) <= 175).
  { assert (Hc' : GREMistake.repetition_count m = 0 \/
                  GREMistake.repetition_count m = 1 \/
                  GREMistake.repetition_count m = 2 \/
                  GREMistake.repetition_count m = 3 \/
                  GREMistake.repetition_count m = 4) by lia.
    destruct Hc' as [-> | [-> | [-> | [-> | ->]]]];
      vm_compute; discriminate. }
  assert (Hday : 0 < us_per_day) by reflexivity.
  assert (n' * us_per_day <= 175 * us_per_day)
    by (apply Z.mul_le_mono_nonneg_r; lia).
  assert (0 <= n' * us_per_day) by (apply Z.mul_nonneg_nonneg; lia).
  replace (Z.abs n' <=? max_delta_days) with true
    by (symmetry; apply Z.leb_le; unfold max_delta_days; lia).
  replace (0 <=? now + n' * us_per_day) with true
    by (symmetry; apply Z.leb_le; lia).
  replace (now + n' * us_per_day <=? max_datetime) with true
    by (symmetry; apply Z.leb_le; lia).
  cbn. eauto.
Qed.

End Schedules.

(** ** The store that the requests bring about *)

Section Reachable.
Import PyFloat PyDatetime SM2 Main Listing Editing Schedule.

Lemma longest_bounds (count : Z) :
  0 <= count <= 5 -> 0 <= longest count <= 175.
Proof.
  intros Hc.
  assert (Hc' : count = 0 \/ count = 1 \/ count = 2 \/ count = 3 \/
                count = 4 \/ count = 5) by lia.
  destruct Hc' as [-> | [-> | [-> | [-> | [-> | ->]]]]];
    vm_compute; split; discriminate.
Qed.

(** The row that [create_mistake] stores has a sound schedule. *)
Lemma created_sound section topic sub_topic kmf_section kmf_problem_set
    error_type next_review_date total_attempts got_correct :
  sound (GREMistake.mk section topic sub_topic kmf_section kmf_problem_set
           error_type next_review_date 0 c2_5 0 false total_attempts
           got_correct).
Proof.
  unfold sound. cbn [GREMistake.repetition_count GREMistake.mastered
                     GREMistake.ease_factor GREMistake.interval].
  split; [lia|]. split; [reflexivity|]. split; [reflexivity|].
  split; [vm_compute; discriminate|]. split; [vm_compute; discriminate|].
  split; [vm_compute; split; discriminate|]. lia.
Qed.

(** A request that the framework lets through keeps the schedules
    sound. *)
Lemma handle_sound (s : db) (r : Api.request) :
  Api.validated r ->
  (forall id m, mistakes s !! id = Some m -> sound m) ->
  forall id m, mistakes (Api.handle s r) !! id = Some m -> sound m.
Proof.
  intros Hr Hs id m.
  destruct r as [db_now body|mistake_id body|r]; cbn [Api.handle].
  - unfold create_mistake. cbn [commit mistakes].
    destruct (decide (fresh (dom (mistakes s)) = id)) as [<-|Hne].
    + rewrite lookup_insert_eq. intros [= <-]. apply created_sound.
    + rewrite lookup_insert_ne by assumption. apply Hs.
  - unfold update_mistake.
    destruct (mistakes s !! mistake_id) as [old|] eqn:Hold; [|apply Hs].
    cbn [commit mistakes].
    destruct (decide (mistake_id = id)) as [<-|Hne].
    + rewrite lookup_insert_eq. intros [= <-]. exact (Hs _ _ Hold).
    + rewrite lookup_insert_ne by assumption. apply Hs.
  - pose proof (handle_mistakes_of_exam_requests s r) as Hframe.
    destruct r as [now mistake_id quality|mistake_id|cfg|eid answer|now eid];
      try (rewrite Hframe; apply Hs); cbn [Requests.handle].
    + destruct (submit_review now mistake_id quality s) as [[s' new]|e]
        eqn:Hreview; [|apply Hs].
      destruct (submit_review_returns now mistake_id quality s s' new Hreview)
        as (old & d & Hold & Hopen & Hcall & Hmastered & ->).
      cbn [commit mistakes].
      destruct (decide (mistake_id = id)) as [<-|Hne];
        [|rewrite lookup_insert_ne by assumption; apply Hs].
      rewrite lookup_insert_eq. intros [= <-].
      destruct (review_sound now quality old _ _ _ _ Hr (Hs _ _ Hold) Hopen
                  Hcall) as (Hc & Hc5 & Hp & Hlo & Hhi & Hn & _).
      unfold sound. cbv zeta.
      split; [exact Hc5|]. split; [exact Hmastered|]. split; [exact Hp|].
      split; [exact Hlo|]. split; [exact Hhi|]. split; [lia|]. lia.
    + unfold delete_mistake.
      destruct (mistakes s !! mistake_id); [|apply Hs].
      cbn [commit mistakes]. intros Hm.
      apply lookup_delete_Some in Hm as [_ Hm]. exact (Hs _ _ Hm).
Qed.

Lemma serve_sound (rs : list Api.request) (s : db) :
  Forall Api.validated rs ->
  (forall id m, mistakes s !! id = Some m -> sound m) ->
  forall id m, mistakes (Api.serve s rs) !! id = Some m -> sound m.
Proof.
  revert s. induction rs as [|r rs IH]; intros s Hrs Hs; [exact Hs|].
  apply Forall_cons in Hrs as [Hr Hrs]. cbn.
  apply IH; [exact Hrs|]. apply handle_sound; assumption.
Qed.

Lemma empty_sound (id : Z) (m : GREMistake.t) :
  mistakes (mk_db ∅ ∅) !! id = Some m -> sound m.
Proof. cbn. rewrite lookup_empty. discriminate. Qed.

(** X17. In the store that any sequence of requests makes of the empty store,
    the [quality] of every review lying between 1 and 5, every mistake has
    at most five repetitions and is mastered exactly at the fifth; its ease
    factor lies between 1.3 and 3.125; and its interval is at most 175
    days, and a day at least once it was reviewed. *)
Theorem schedules_stay_sound (rs : list Api.request) (id : Z)
    (m : GREMistake.t) :
  Forall Api.validated rs ->
  mistakes (Api.serve (mk_db ∅ ∅) rs) !! id = Some m ->
  0 <= GREMistake.repetition_count m <= 5 /\
  (GREMistake.mastered m = true <-> GREMistake.repetition_count m = 5) /\
  leb c1_3 (GREMistake.ease_factor m) = true /\
  leb (GREMistake.ease_factor m) c3_125 = true /\
  0 <= GREMistake.interval m <= 175 /\
  (1 <= GREMistake.repetition_count m -> 1 <= GREMistake.interval m).
Proof.
  intros Hrs Hm.
  destruct (serve_sound rs (mk_db ∅ ∅) Hrs empty_sound id m Hm)
    as (Hc & Hmastered & Hp & Hlo & Hhi & Hi & Hone).
  assert (Hemin : emin = -1074) by reflexivity.
  split; [exact Hc|]. split.
  { rewrite Hmastered, Z.geb_leb, Z.leb_le. lia. }
  split; [apply leb_rank; [reflexivity|exact Hp|exact Hlo]|].
  split.
  { apply leb_rank; [exact Hp|reflexivity|].
    etransitivity; [exact Hhi|].
    change (rank c3_125) with (25 * 2 ^ (- emin - 3)).
    apply Z.mul_le_mono_nonneg_r; [apply Z.pow_nonneg|]; lia. }
  pose proof (longest_bounds _ Hc). split; [lia|exact Hone].
Qed.

(** A mistake made and reviewed four times, once with a quality below 3:
    three repetitions, and an interval of 14 days. *)
Lemma schedules_stay_sound_witness :
  exists m,
    mistakes (Api.serve (mk_db ∅ ∅) Scenario.reviewed) !! 0 = Some m /\
    GREMistake.repetition_count m = 3 /\
    GREMistake.interval m = 14 /\
    leb (GREMistake.ease_factor m) c3_125 = true.
Proof.
  assert (Hv : Forall Api.validated Scenario.reviewed)
    by (repeat constructor; cbn; lia).
  eexists. split; [vm_compute; reflexivity|].
  split; [reflexivity|]. split; [reflexivity|].
  refine (proj1 (proj2 (proj2 (proj2
            (schedules_stay_sound Scenario.reviewed 0 _ Hv _))))).
  vm_compute. reflexivity.
Defined.

(** X18. In a store that a sequence of requests made of the empty store, a
    review of quality 3 to 5 of a mistake that is not mastered returns,
    the clock being 175 days at least before the end of the calendar: no
    interval and no date is out of range. The new row has one repetition
    more and a review date from one day to 175 days after [now], and
    [get_today_reviews] does not list the mistake before that date. *)
Theorem reviews_always_return (rs : list Api.request) (id : Z)
    (m : GREMistake.t) (now : datetime) (quality : Z) :
  Forall Api.validated rs ->
  mistakes (Api.serve (mk_db ∅ ∅) rs) !! id = Some m ->
  GREMistake.mastered m = false ->
  3 <= quality <= 5 ->
  0 <= now -> now + 175 * us_per_day <= max_datetime ->
  exists s' m',
    submit_review now id quality (Api.serve (mk_db ∅ ∅) rs) = Ok (s', m') /\
    mistakes s' !! id = Some m' /\
    GREMistake.repetition_count m' = GREMistake.repetition_count m + 1 /\
    GREMistake.next_review_date m' =
      now + GREMistake.interval m' * us_per_day /\
    1 <= GREMistake.interval m' <= 175 /\
    (forall t, t < GREMistake.next_review_date m' ->
       (id ∉ fst <$> quant (get_today_reviews t s')) /\
       (id ∉ fst <$> verbal (get_today_reviews t s'))).
Proof.
  intros Hrs Hm Hopen Hq Hnow Hend.
  set (s := Api.serve (mk_db ∅ ∅) rs) in *.
  pose proof (serve_sound rs (mk_db ∅ ∅) Hrs empty_sound id m Hm) as Hsound.
  destruct (review_returns now quality m Hq Hsound Hopen Hnow Hend)
    as (n & e & c & d & Hcall).
  destruct (review_sound now quality m n e c d ltac:(lia) Hsound Hopen Hcall)
    as (Hc & Hc5 & _ & _ & _ & Hn & Hd).
  pose proof (longest_bounds c Hc5) as Hlong.
  unfold submit_review. rewrite Hm, Hopen, Hcall. cbn [mbind result_bind].
  eexists _, _. split; [reflexivity|].
  cbn [mistakes GREMistake.repetition_count GREMistake.next_review_date
       GREMistake.interval].
  rewrite lookup_insert_eq.
  split; [reflexivity|]. split; [exact Hc|]. split; [exact Hd|].
  split; [lia|].
  intros t Ht. unfold get_today_reviews. cbn [quant verbal].
  split; intros Hin; apply list_elem_of_fmap in Hin as ([id' row] & Hid & Hin);
    cbn in Hid; subst id'; apply today_elem in Hin as (Hrow & Hdue & _);
    cbn [mistakes] in Hrow; rewrite lookup_insert_eq in Hrow;
    injection Hrow as <-; cbn [GREMistake.next_review_date] in Hdue; lia.
Qed.

(** The mistake of the scenario, reviewed once more. *)
Lemma reviews_always_return_witness :
  exists s' m',
    submit_review Sample.now 0 5
      (Api.serve (mk_db ∅ ∅) Scenario.reviewed) = Ok (s', m') /\
    GREMistake.repetition_count m' = 4 /\
    1 <= GREMistake.interval m' <= 175.
Proof.
  assert (Hv : Forall Api.validated Scenario.reviewed)
    by (repeat constructor; cbn; lia).
  assert (H35 : 3 <= 5 <= 5) by lia.
  assert (H0 : 0 <= Sample.now) by (vm_compute; discriminate).
  assert (Hend : Sample.now + 175 * us_per_day <= max_datetime)
    by (vm_compute; discriminate).
  assert (Hm : exists m,
            mistakes (Api.serve (mk_db ∅ ∅) Scenario.reviewed) !! 0 = Some m /\
            GREMistake.mastered m = false /\
            GREMistake.repetition_count m = 3)
    by (eexists; split; [vm_compute; reflexivity|split; reflexivity]).
  destruct Hm as (m & Hm & Hopen & Hcount).
  destruct (reviews_always_return Scenario.reviewed 0 m Sample.now 5 Hv Hm
              Hopen H35 H0 Hend)
    as (s' & m' & Hok & _ & Hc & _ & Hi & _).
  exists s', m'. split; [exact Hok|].
  split; [rewrite Hc, Hcount; reflexivity|exact Hi].
Defined.

End Reachable.

(** ** The claim about reviews and mastery *)

Section MasteryClaim.
Import PyFloat PyDatetime Main Listing Editing Requests.

(** C3. A review of a mastered mistake is refused with the error
    [400 This item is already mastered] and the store is left as it was. A
    review that returns stores the mistake it returns, and that mistake is
    mastered exactly when its new repetition count is 5 or more. A mastered
    mistake is the same row after any sequence of requests, for as long as
    it is in the table: no review takes [mastered] back to false. And
    reviews do return: in a store that a sequence of requests made of the
    empty store, the [quality] of every review between 1 and 5, a review of
    quality 3 to 5 of a mistake that is not mastered returns, the clock
    being 175 days at least before the end of the calendar, with one
    repetition more, and masters the mistake exactly when that is the
    fifth; so does the fifth review of the scenario of the
    specification. *)
Theorem submit_review_mastery (now : datetime) (mistake_id quality : Z)
    (s : db) :
  (forall mistake,
     mistakes s !! mistake_id = Some mistake ->
     GREMistake.mastered mistake = true ->
     submit_review now mistake_id quality s =
       Raise (HTTPException 400 "This item is already mastered") /\
     handle s (SubmitReview now mistake_id quality) = s) /\
  (forall s' mistake',
     submit_review now mistake_id quality s = Ok (s', mistake') ->
     mistakes s' !! mistake_id = Some mistake' /\
     (GREMistake.mastered mistake' = true <->
      5 <= GREMistake.repetition_count mistake')) /\
  (forall rs mistake mistake',
     mistakes s !! mistake_id = Some mistake ->
     GREMistake.mastered mistake = true ->
     mistakes (serve s rs) !! mistake_id = Some mistake' ->
     mistake' = mistake) /\
  (forall rs mistake,
     Forall Api.validated rs ->
     s = Api.serve (mk_db ∅ ∅) rs ->
     mistakes s !! mistake_id = Some mistake ->
     GREMistake.mastered mistake = false ->
     3 <= quality <= 5 ->
     0 <= now -> now + 175 * us_per_day <= max_datetime ->
     exists s' mistake',
       submit_review now mistake_id quality s = Ok (s', mistake') /\
       GREMistake.repetition_count mistake' =
         GREMistake.repetition_count mistake + 1 /\
       (GREMistake.mastered mistake' = true <->
        GREMistake.repetition_count mistake = 4)) /\
  (exists s' mistake',
     submit_review Sample.now 1 5
       (serve Sample.store (take 4 Sample.five_reviews)) =
       Ok (s', mistake') /\
     GREMistake.repetition_count mistake' = 5 /\
     GREMistake.mastered mistake' = true).
Proof.
  split; [|split; [|split; [|split]]].
  - intros mistake Hm Hmastered.
    assert (Hr : submit_review now mistake_id quality s =
                 Raise (HTTPException 400 "This item is already mastered"))
      by (unfold submit_review; rewrite Hm, Hmastered; reflexivity).
    split; [exact Hr|]. cbn [handle]. rewrite Hr. reflexivity.
  - intros s' mistake' Hr.
    destruct (submit_review_returns now mistake_id quality s s' mistake' Hr)
      as (old & date & _ & _ & _ & Hmastered & ->).
    split; [apply lookup_insert_eq|].
    rewrite Hmastered. rewrite Z.geb_leb. apply Z.leb_le.
  - intros rs mistake mistake'. apply serve_mastered.
  - intros rs m Hrs -> Hm Hopen Hq Hnow Hend.
    pose proof (serve_sound rs (mk_db ∅ ∅) Hrs empty_sound mistake_id m Hm)
      as Hsound.
    destruct (review_returns now quality m Hq Hsound Hopen Hnow Hend)
      as (n & e & c & d & Hcall).
    destruct (review_sound now quality m n e c d ltac:(lia) Hsound Hopen
                Hcall) as (Hc & Hc5 & _).
    unfold submit_review. rewrite Hm, Hopen, Hcall.
    cbn [mbind result_bind].
    eexists _, _. split; [reflexivity|].
    cbn [GREMistake.repetition_count GREMistake.mastered].
    split; [exact Hc|].
    destruct (c >=? 5) eqn:H5; rewrite Z.geb_leb in H5;
      [apply Z.leb_le in H5|apply Z.leb_gt in H5];
      split; intros H; try discriminate; try reflexivity; lia.
  - eexists _, _. split; [vm_compute; reflexivity|]. split; reflexivity.
Qed.

End MasteryClaim.

(** ** What a request writes *)

Section Writes.
Import PyFloat PyDatetime SM2 Main Listing Editing Requests.

(** X19. The books of a review. A review of an identifier that is not stored
    fails with [404 Mistake not found]. A review that returns counts one
    attempt more, a null counter counting as 0; sets the correct flag when
    the quality is 4 or 5 and never clears it; leaves the described columns
    of the mistake, every other mistake and every session as they were; and
    the row it returns is the row that then reads back. A review that
    fails writes nothing. *)
Theorem submit_review_books (now : datetime) (mistake_id quality : Z)
    (s : db) :
  (mistakes s !! mistake_id = None ->
   submit_review now mistake_id quality s =
     Raise (HTTPException 404 "Mistake not found")) /\
  (forall s' new,
     submit_review now mistake_id quality s = Ok (s', new) ->
     exists old,
       mistakes s !! mistake_id = Some old /\
       GREMistake.total_attempts new =
         Some (default 0 (GREMistake.total_attempts old) + 1) /\
       GREMistake.got_correct new =
         (4 <=? quality) || GREMistake.got_correct old /\
       (GREMistake.section new, GREMistake.topic new,
        GREMistake.sub_topic new, GREMistake.kmf_section new,
        GREMistake.kmf_problem_set new, GREMistake.error_type new) =
         (GREMistake.section old, GREMistake.topic old,
          GREMistake.sub_topic old, GREMistake.kmf_section old,
          GREMistake.kmf_problem_set old, GREMistake.error_type old) /\
       get_mistake mistake_id s' = Ok new /\
       (forall other, other <> mistake_id ->
          mistakes s' !! other = mistakes s !! other) /\
       exams s' = exams s) /\
  (forall e,
     submit_review now mistake_id quality s = Raise e ->
     handle s (SubmitReview now mistake_id quality) = s).
Proof.
  split; [|split].
  - intros H. unfold submit_review. rewrite H. reflexivity.
  - intros s' new. unfold submit_review.
    destruct (mistakes s !! mistake_id) as [old|]; [|discriminate].
    destruct (GREMistake.mastered old); [discriminate|].
    destruct (calculate_next_review _ _ _ _ _) as [[[[n e] c] d]|];
      [|discriminate].
    cbn [mbind result_bind]. intros [= <- <-]. exists old.
    split; [reflexivity|].
    cbn [GREMistake.total_attempts GREMistake.got_correct GREMistake.section
         GREMistake.topic GREMistake.sub_topic GREMistake.kmf_section
         GREMistake.kmf_problem_set GREMistake.error_type mistakes exams].
    split.
    { destruct (GREMistake.total_attempts old) as [k|]; [|reflexivity].
      cbn [default]. destruct (Z.eqb_spec k 0) as [->|_]; reflexivity. }
    split.
    { rewrite Z.geb_leb. destruct (4 <=? quality); reflexivity. }
    split; [reflexivity|].
    unfold get_mistake. cbn [mistakes]. rewrite lookup_insert_eq.
    split; [reflexivity|]. split; [|reflexivity].
    intros other Hne. rewrite lookup_insert_ne by congruence. reflexivity.
  - intros e He. cbn [handle]. rewrite He. reflexivity.
Qed.

(** A first review of quality 5 of mistake 1 of the sample table: one
    attempt, answered correctly. *)
Example submit_review_books_sample :
  exists s' new,
    submit_review Sample.now 1 5 Sample.store = Ok (s', new) /\
    GREMistake.total_attempts new = Some 1 /\
    GREMistake.got_correct new = true /\
    GREMistake.interval new = 1.
Proof. eexists _, _. split; [vm_compute; reflexivity|]. repeat split. Qed.

(** X20. An exam that is not stored: reading it, answering in it and
    completing it fail with [404 Exam session not found], and nothing is
    written. *)
Theorem exam_not_found (exam_id : Z) (s : db) :
  exams s !! exam_id = None ->
  let gone := HTTPException 404 "Exam session not found" in
  get_exam_session exam_id s = Raise gone /\
  (forall answer,
     submit_exam_answer exam_id answer s = Raise gone /\
     handle s (SubmitAnswer exam_id answer) = s) /\
  (forall now,
     complete_exam now exam_id s = Raise gone /\
     handle s (CompleteExam now exam_id) = s).
Proof.
  intros H. cbv zeta.
  unfold get_exam_session, submit_exam_answer, complete_exam. cbn [handle].
  unfold submit_exam_answer, complete_exam. rewrite H.
  repeat split.
Qed.

(** The key 7 of the sample store, which holds no exam. *)
Lemma exam_not_found_witness :
  complete_exam Sample.now 7 Sample.store =
    Raise (HTTPException 404 "Exam session not found").
Proof.
  destruct (exam_not_found 7 Sample.store eq_refl) as (_ & _ & H).
  exact (proj1 (H Sample.now)).
Defined.

(** X21. Each request writes one table. Making, editing, reviewing and deleting
    a mistake leave every session as it is, so a session keeps naming a
    mistake that was deleted and keeps its answers to it; creating a
    session, answering and completing leave every mistake as it is, so an
    exam changes no review date, interval, ease factor or repetition count,
    whatever the answers. *)
Theorem requests_write_one_table (s : db) (r : Api.request) :
  match r with
  | Api.CreateMistake _ _ | Api.UpdateMistake _ _
  | Api.Other (SubmitReview _ _ _) | Api.Other (DeleteMistake _) =>
      exams (Api.handle s r) = exams s
  | Api.Other (CreateExam _) | Api.Other (SubmitAnswer _ _)
  | Api.Other (CompleteExam _ _) =>
      mistakes (Api.handle s r) = mistakes s
  end.
Proof.
  destruct r as [db_now body|mistake_id body|r]; cbn [Api.handle].
  - reflexivity.
  - unfold update_mistake. destruct (mistakes s !! mistake_id); reflexivity.
  - pose proof (handle_mistakes_of_exam_requests s r) as Hframe.
    destruct r as [now mistake_id quality|mistake_id|cfg|eid answer|now eid];
      try exact Hframe; cbn [handle].
    + apply submit_review_exams.
    + apply delete_mistake_exams.
Qed.

End Writes.
